(** * cmping: command-line address handling (cli.c)

    A shallow embedding of the address part of [cli.c]: the target
    collector [parse_remote_addrs], the IP version negotiator
    [return_ip_ver], the multicast resolver [conv_params_mcast], the
    address materializer [conv_list_addrs], the local address extractor
    [conv_local_addr] and the part of [cli_parse] that chains them.

    Conventions.
    - A chain of [struct addrinfo] (linked through [ai_next]) is a [list
      addrinfo]; [NULL] is [[]].
    - The [TAILQ] of [struct ai_item] is a [list ai_item] in queue order; a
      pointer to a member of the queue is its position in the list.
    - C [int]s are [Z]; the only arithmetic is the counter [no_ai], which is
      bounded by [argc]. (The option handling of [cli_parse], modelled
      further down, multiplies and divides: there every [int] result is
      checked against the range of [int].)
    - [errx(1, ...)], [err(1, ...)] and [exit(1)] end the process: a
      function that can reach one returns an [outcome], and the calls that
      follow a fatal exit never happen.
    - [malloc] and [strdup] are assumed to succeed; the ["Can't alloc
      memory"] exits are not modelled. *)

From Stdlib Require Import ZArith Lia.
From stdpp Require Import base numbers list strings.

Local Open Scope Z_scope.

(** ** Data model *)

(** Address families of [<sys/socket.h>] (the Linux values; nothing below
    depends on more than their being pairwise distinct). *)
Definition AF_UNSPEC : Z := 0.
Definition AF_INET : Z := 2.
Definition AF_INET6 : Z := 10.

(** A socket address: [struct sockaddr_storage] read through [struct
    sockaddr_in] or [struct sockaddr_in6]. [ss_port] is [sin_port] /
    [sin6_port] (network order), [ss_addr] the address bytes as a number. *)
Record sockaddr_storage : Type := mk_sas {
  ss_family : Z;
  ss_port : Z;
  ss_addr : Z
}.

(** What [memset(&sas, 0, sizeof(sas))] leaves: family [AF_UNSPEC]. *)
Definition sas_zero : sockaddr_storage :=
  {| ss_family := 0; ss_port := 0; ss_addr := 0 |}.

(** One node of a resolver chain ([struct addrinfo] without [ai_next]). *)
Record addrinfo : Type := mk_addrinfo {
  ai_family : Z;
  ai_addr : sockaddr_storage
}.

(** Modelled from the spec: [struct ai_item] is declared in [omping.h],
    a header outside [cli.c]. The spec's Target has the label
    the user typed ([host_name]), the resolver-owned candidates ([ai]), valid
    until materialization, and the resolved address ([sas]), present only
    after materialization. A released candidate chain is [[]]; an address
    that was never written is [sas_zero], as [parse_remote_addrs] leaves it
    with [memset(ai_item, 0, sizeof(struct ai_item))]. *)
Record ai_item : Type := mk_ai_item {
  ai : list addrinfo;
  sas : sockaddr_storage;
  host_name : string
}.

(** The fields of [struct ifaddrs] that [cli.c] reads. *)
Record ifaddrs : Type := mk_ifaddrs {
  ifa_name : string;
  ifa_addr : sockaddr_storage
}.

#[global] Instance sockaddr_storage_eq_dec : EqDecision sockaddr_storage.
Proof. solve_decision. Defined.
#[global] Instance addrinfo_eq_dec : EqDecision addrinfo.
Proof. solve_decision. Defined.
#[global] Instance ai_item_eq_dec : EqDecision ai_item.
Proof. solve_decision. Defined.

(** ** Fatal exits *)

(** The diagnostics of the modelled code, one constructor per message, with
    the values its format string prints. *)
Inductive diag : Type :=
  | D_loopback (arg : string)
      (* "Address %s looks like loopback. Loopback ping is not supported" *)
  | D_no_remote
      (* "at least one remote addresses should be specified", then usage() *)
  | D_mcast_no_ipver (mcast_addr : string)
      (* "Mcast address %s doesn't support ipv4 or ipv6" *)
  | D_host_no_ipver (host : string)
      (* "Host %s doesn't support ipv4 or ipv6" *)
  | D_mcast_host_ipver (mcast_ipver : Z) (host : string) (ipver_res : Z)
      (* "Multicast address is ipv%d but host %s supports only ipv%d" *)
  | D_host_ipver (host : string) (ipver_res : Z)
      (* "Host %s doesn't support IP version %d" *)
  | D_internal
      (* "Internal program error" *)
  | D_not_mcast (mcast_addr_s : string)
      (* "Given address %s is not valid multicast address" *)
  | D_no_local
      (* "Can't find local address in arguments" *)
  | D_collaborator (msg : string).
      (* a message printed inside addrfunc.c, e.g. "Can't get addr info" *)

(** The host, label or argument a diagnostic names, if it names one. *)
Definition diag_names (d : diag) : option string :=
  match d with
  | D_loopback arg => Some arg
  | D_mcast_no_ipver m => Some m
  | D_host_no_ipver h => Some h
  | D_mcast_host_ipver _ h _ => Some h
  | D_host_ipver h _ => Some h
  | D_not_mcast m => Some m
  | D_no_remote | D_internal | D_no_local | D_collaborator _ => None
  end.

(** The result of running a piece of the program: it returns [a], or the
    process exits with [status] after printing [d], or the C code has no
    defined behaviour (a [NULL] queue head is dereferenced). *)
Inductive outcome (A : Type) : Type :=
  | Ret (a : A)
  | Exit (status : Z) (d : diag)
  | Undef.
Arguments Ret {A} a.
Arguments Exit {A} status d.
Arguments Undef {A}.

Definition bind {A B : Type} (c : outcome A) (k : A -> outcome B) : outcome B :=
  match c with
  | Ret a => k a
  | Exit status d => Exit status d
  | Undef => Undef
  end.

Notation "x <- c ;; k" := (bind c (fun x => k))
  (at level 100, c at next level, right associativity).

(** [errx(1, fmt, ...)] and [err(1, fmt, ...)]. *)
Definition errx {A : Type} (d : diag) : outcome A := Exit 1 d.

(** ** Helpers of addrfunc.c *)

(** Modelled from the spec: [af_ai_supported_ipv] lives in [addrfunc.c],
    outside [cli.c]. Every candidate is tagged
    with an address family; the IP version of a candidate is 4 for IPv4, 6 for
    IPv6, and 0 for a family that is neither. *)
Definition af_ai_supported_ipv (ai_addr : addrinfo) : Z :=
  if ai_family ai_addr =? AF_INET then 4
  else if ai_family ai_addr =? AF_INET6 then 6
  else 0.

(** Modelled from the spec: [af_ai_deep_supported_ipv] lives in
    [addrfunc.c]. "Deep support" examines every candidate of the chain and
    reports 0 if at least one candidate of each family exists, the single
    family (4 or 6) if only one family's candidates exist, and failure (-1)
    if there is none. *)
Definition af_ai_deep_supported_ipv (ai_addr : list addrinfo) : Z :=
  let ip4 := existsb (fun ai_i => af_ai_supported_ipv ai_i =? 4) ai_addr in
  let ip6 := existsb (fun ai_i => af_ai_supported_ipv ai_i =? 6) ai_addr in
  if ip4 && ip6 then 0
  else if ip4 then 4
  else if ip6 then 6
  else -1.

(** Modelled from the spec: the comparison behind [af_is_ai_in_list]. Two
    candidate chains deep-match when some candidate of the first has the
    same concrete socket address as some candidate of the second (every
    candidate is looked at, not just the first). Labels play no part. *)
Definition af_ai_eq (a1 a2 : addrinfo) : bool :=
  bool_decide (ai_addr a1 = ai_addr a2).

Definition af_ai_deep_eq (a1 a2 : list addrinfo) : bool :=
  existsb (fun a1_i => existsb (fun a2_i => af_ai_eq a1_i a2_i) a2) a1.

(** Modelled from the spec: [af_is_ai_in_list] lives in [addrfunc.c]. A
    resolved candidate set is in the list when it deep-matches the
    candidates of a target already present. *)
Definition af_is_ai_in_list (a1 : list addrinfo) (ai_list : list ai_item) : bool :=
  existsb (fun aip => af_ai_deep_eq a1 (ai aip)) ai_list.

(** What [af_find_local_ai] hands back on success: the family it settled on
    (it receives [ip_ver] by pointer), the interface that matched, and the
    member of the queue that matched, by position. *)
Record local_match : Type := mk_local_match {
  lm_ip_ver : Z;
  lm_ifa_local : ifaddrs;
  lm_ai_item : nat
}.

(** What [cli_parse] fills in for its caller. *)
Record cli_result : Type := mk_cli_result {
  r_ai_list : list ai_item;
  r_local_ifname : string;
  r_ip_ver : Z;
  r_local_addr : ai_item;
  r_mcast_addr : ai_item;
  r_port : Z;
  r_single_addr : Z
}.

(** ** Option processing: data *)

(** [enum sf_transport_method] of [sockfunc.h], as far as [cli.c] names
    it. *)
Inductive sf_transport_method : Type := SF_TM_ASM | SF_TM_SSM.

(** What [getopt(argc, argv, "46CDFqVvi:M:m:p:R:r:S:T:t:w:")] returns, one
    constructor per character, with [optarg] for the options that take an
    argument. [Opt_unknown] is ['?']. *)
Inductive getopt_result : Type :=
  | Opt_4 | Opt_6 | Opt_C | Opt_D | Opt_F | Opt_q | Opt_V | Opt_v
  | Opt_i (optarg : string)
  | Opt_M (optarg : string)
  | Opt_m (optarg : string)
  | Opt_p (optarg : string)
  | Opt_R (optarg : string)
  | Opt_r (optarg : string)
  | Opt_S (optarg : string)
  | Opt_T (optarg : string)
  | Opt_t (optarg : string)
  | Opt_w (optarg : string)
  | Opt_unknown.

(** What the option loop takes from outside [cli.c]: [strtod] and
    [strtol] of the C library (the value, and the rest of the string, at
    which [ep] points), the arithmetic of C [double]s, and
    [sf_is_ssm_supported] of [sockfunc.c]. [d_of_int] is the conversion of an
    [int] to [double], [d_to_int] the cast [(int)]. *)
Record cli_env : Type := mk_cli_env {
  double : Type;
  strtod : string -> double * string;
  strtol : string -> Z * string;
  d_of_int : Z -> double;
  d_lt : double -> double -> bool;
  d_eq : double -> double -> bool;
  d_mul : double -> double -> double;
  d_to_int : double -> Z;
  sf_is_ssm_supported : bool
}.

(** The constants of [omping.h] that the option handling uses. *)
Record omping_h : Type := mk_omping_h {
  DEFAULT_WAIT_TIME : Z;
  DEFAULT_TTL : Z;
  DEFAULT_WFF_TIME_MUL : Z;
  DUP_BUF_SECS : Z;
  MIN_DUP_BUF_ITEMS : Z;
  MIN_RCVBUF_SIZE : Z;
  MIN_SNDBUF_SIZE : Z;
  DEFAULT_PORT_S : string
}.

(** The variables the option loop works on: the locations [cli_parse]
    receives and its locals, and the level the logging module keeps
    ([o_verbose]). [o_mcast_addr_s] is [None] for [NULL]. *)
Record cli_opts : Type := mk_cli_opts {
  o_ip_ver : Z;
  o_cont_stat : Z;
  o_mcast_addr_s : option string;
  o_wait_time : Z;
  o_ttl : Z;
  o_quiet : Z;
  o_rate_limit_time : Z;
  o_rcvbuf_size : Z;
  o_sndbuf_size : Z;
  o_transport_method : sf_transport_method;
  o_timeout_time : Z;
  o_wait_for_finish_time : Z;
  o_dup_buf_items : Z;
  o_port_s : string;
  o_force : Z;
  o_rate_limit_time_set : Z;
  o_wait_for_finish_time_set : Z;
  o_verbose : Z
}.

Definition set_o_ip_ver (v : Z) (st : cli_opts) : cli_opts :=
  {| o_ip_ver := v;
     o_cont_stat := o_cont_stat st;
     o_mcast_addr_s := o_mcast_addr_s st;
     o_wait_time := o_wait_time st;
     o_ttl := o_ttl st;
     o_quiet := o_quiet st;
     o_rate_limit_time := o_rate_limit_time st;
     o_rcvbuf_size := o_rcvbuf_size st;
     o_sndbuf_size := o_sndbuf_size st;
     o_transport_method := o_transport_method st;
     o_timeout_time := o_timeout_time st;
     o_wait_for_finish_time := o_wait_for_finish_time st;
     o_dup_buf_items := o_dup_buf_items st;
     o_port_s := o_port_s st;
     o_force := o_force st;
     o_rate_limit_time_set := o_rate_limit_time_set st;
     o_wait_for_finish_time_set := o_wait_for_finish_time_set st;
     o_verbose := o_verbose st |}.

Definition set_o_cont_stat (v : Z) (st : cli_opts) : cli_opts :=
  {| o_ip_ver := o_ip_ver st;
     o_cont_stat := v;
     o_mcast_addr_s := o_mcast_addr_s st;
     o_wait_time := o_wait_time st;
     o_ttl := o_ttl st;
     o_quiet := o_quiet st;
     o_rate_limit_time := o_rate_limit_time st;
     o_rcvbuf_size := o_rcvbuf_size st;
     o_sndbuf_size := o_sndbuf_size st;
     o_transport_method := o_transport_method st;
     o_timeout_time := o_timeout_time st;
     o_wait_for_finish_time := o_wait_for_finish_time st;
     o_dup_buf_items := o_dup_buf_items st;
     o_port_s := o_port_s st;
     o_force := o_force st;
     o_rate_limit_time_set := o_rate_limit_time_set st;
     o_wait_for_finish_time_set := o_wait_for_finish_time_set st;
     o_verbose := o_verbose st |}.

Definition set_o_mcast_addr_s (v : option string) (st : cli_opts) : cli_opts :=
  {| o_ip_ver := o_ip_ver st;
     o_cont_stat := o_cont_stat st;
     o_mcast_addr_s := v;
     o_wait_time := o_wait_time st;
     o_ttl := o_ttl st;
     o_quiet := o_quiet st;
     o_rate_limit_time := o_rate_limit_time st;
     o_rcvbuf_size := o_rcvbuf_size st;
     o_sndbuf_size := o_sndbuf_size st;
     o_transport_method := o_transport_method st;
     o_timeout_time := o_timeout_time st;
     o_wait_for_finish_time := o_wait_for_finish_time st;
     o_dup_buf_items := o_dup_buf_items st;
     o_port_s := o_port_s st;
     o_force := o_force st;
     o_rate_limit_time_set := o_rate_limit_time_set st;
     o_wait_for_finish_time_set := o_wait_for_finish_time_set st;
     o_verbose := o_verbose st |}.

Definition set_o_wait_time (v : Z) (st : cli_opts) : cli_opts :=
  {| o_ip_ver := o_ip_ver st;
     o_cont_stat := o_cont_stat st;
     o_mcast_addr_s := o_mcast_addr_s st;
     o_wait_time := v;
     o_ttl := o_ttl st;
     o_quiet := o_quiet st;
     o_rate_limit_time := o_rate_limit_time st;
     o_rcvbuf_size := o_rcvbuf_size st;
     o_sndbuf_size := o_sndbuf_size st;
     o_transport_method := o_transport_method st;
     o_timeout_time := o_timeout_time st;
     o_wait_for_finish_time := o_wait_for_finish_time st;
     o_dup_buf_items := o_dup_buf_items st;
     o_port_s := o_port_s st;
     o_force := o_force st;
     o_rate_limit_time_set := o_rate_limit_time_set st;
     o_wait_for_finish_time_set := o_wait_for_finish_time_set st;
     o_verbose := o_verbose st |}.

Definition set_o_ttl (v : Z) (st : cli_opts) : cli_opts :=
  {| o_ip_ver := o_ip_ver st;
     o_cont_stat := o_cont_stat st;
     o_mcast_addr_s := o_mcast_addr_s st;
     o_wait_time := o_wait_time st;
     o_ttl := v;
     o_quiet := o_quiet st;
     o_rate_limit_time := o_rate_limit_time st;
     o_rcvbuf_size := o_rcvbuf_size st;
     o_sndbuf_size := o_sndbuf_size st;
     o_transport_method := o_transport_method st;
     o_timeout_time := o_timeout_time st;
     o_wait_for_finish_time := o_wait_for_finish_time st;
     o_dup_buf_items := o_dup_buf_items st;
     o_port_s := o_port_s st;
     o_force := o_force st;
     o_rate_limit_time_set := o_rate_limit_time_set st;
     o_wait_for_finish_time_set := o_wait_for_finish_time_set st;
     o_verbose := o_verbose st |}.

Definition set_o_quiet (v : Z) (st : cli_opts) : cli_opts :=
  {| o_ip_ver := o_ip_ver st;
     o_cont_stat := o_cont_stat st;
     o_mcast_addr_s := o_mcast_addr_s st;
     o_wait_time := o_wait_time st;
     o_ttl := o_ttl st;
     o_quiet := v;
     o_rate_limit_time := o_rate_limit_time st;
     o_rcvbuf_size := o_rcvbuf_size st;
     o_sndbuf_size := o_sndbuf_size st;
     o_transport_method := o_transport_method st;
     o_timeout_time := o_timeout_time st;
     o_wait_for_finish_time := o_wait_for_finish_time st;
     o_dup_buf_items := o_dup_buf_items st;
     o_port_s := o_port_s st;
     o_force := o_force st;
     o_rate_limit_time_set := o_rate_limit_time_set st;
     o_wait_for_finish_time_set := o_wait_for_finish_time_set st;
     o_verbose := o_verbose st |}.

Definition set_o_rate_limit_time (v : Z) (st : cli_opts) : cli_opts :=
  {| o_ip_ver := o_ip_ver st;
     o_cont_stat := o_cont_stat st;
     o_mcast_addr_s := o_mcast_addr_s st;
     o_wait_time := o_wait_time st;
     o_ttl := o_ttl st;
     o_quiet := o_quiet st;
     o_rate_limit_time := v;
     o_rcvbuf_size := o_rcvbuf_size st;
     o_sndbuf_size := o_sndbuf_size st;
     o_transport_method := o_transport_method st;
     o_timeout_time := o_timeout_time st;
     o_wait_for_finish_time := o_wait_for_finish_time st;
     o_dup_buf_items := o_dup_buf_items st;
     o_port_s := o_port_s st;
     o_force := o_force st;
     o_rate_limit_time_set := o_rate_limit_time_set st;
     o_wait_for_finish_time_set := o_wait_for_finish_time_set st;
     o_verbose := o_verbose st |}.

Definition set_o_rcvbuf_size (v : Z) (st : cli_opts) : cli_opts :=
  {| o_ip_ver := o_ip_ver st;
     o_cont_stat := o_cont_stat st;
     o_mcast_addr_s := o_mcast_addr_s st;
     o_wait_time := o_wait_time st;
     o_ttl := o_ttl st;
     o_quiet := o_quiet st;
     o_rate_limit_time := o_rate_limit_time st;
     o_rcvbuf_size := v;
     o_sndbuf_size := o_sndbuf_size st;
     o_transport_method := o_transport_method st;
     o_timeout_time := o_timeout_time st;
     o_wait_for_finish_time := o_wait_for_finish_time st;
     o_dup_buf_items := o_dup_buf_items st;
     o_port_s := o_port_s st;
     o_force := o_force st;
     o_rate_limit_time_set := o_rate_limit_time_set st;
     o_wait_for_finish_time_set := o_wait_for_finish_time_set st;
     o_verbose := o_verbose st |}.

Definition set_o_sndbuf_size (v : Z) (st : cli_opts) : cli_opts :=
  {| o_ip_ver := o_ip_ver st;
     o_cont_stat := o_cont_stat st;
     o_mcast_addr_s := o_mcast_addr_s st;
     o_wait_time := o_wait_time st;
     o_ttl := o_ttl st;
     o_quiet := o_quiet st;
     o_rate_limit_time := o_rate_limit_time st;
     o_rcvbuf_size := o_rcvbuf_size st;
     o_sndbuf_size := v;
     o_transport_method := o_transport_method st;
     o_timeout_time := o_timeout_time st;
     o_wait_for_finish_time := o_wait_for_finish_time st;
     o_dup_buf_items := o_dup_buf_items st;
     o_port_s := o_port_s st;
     o_force := o_force st;
     o_rate_limit_time_set := o_rate_limit_time_set st;
     o_wait_for_finish_time_set := o_wait_for_finish_time_set st;
     o_verbose := o_verbose st |}.

Definition set_o_transport_method (v : sf_transport_method) (st : cli_opts) : cli_opts :=
  {| o_ip_ver := o_ip_ver st;
     o_cont_stat := o_cont_stat st;
     o_mcast_addr_s := o_mcast_addr_s st;
     o_wait_time := o_wait_time st;
     o_ttl := o_ttl st;
     o_quiet := o_quiet st;
     o_rate_limit_time := o_rate_limit_time st;
     o_rcvbuf_size := o_rcvbuf_size st;
     o_sndbuf_size := o_sndbuf_size st;
     o_transport_method := v;
     o_timeout_time := o_timeout_time st;
     o_wait_for_finish_time := o_wait_for_finish_time st;
     o_dup_buf_items := o_dup_buf_items st;
     o_port_s := o_port_s st;
     o_force := o_force st;
     o_rate_limit_time_set := o_rate_limit_time_set st;
     o_wait_for_finish_time_set := o_wait_for_finish_time_set st;
     o_verbose := o_verbose st |}.

Definition set_o_timeout_time (v : Z) (st : cli_opts) : cli_opts :=
  {| o_ip_ver := o_ip_ver st;
     o_cont_stat := o_cont_stat st;
     o_mcast_addr_s := o_mcast_addr_s st;
     o_wait_time := o_wait_time st;
     o_ttl := o_ttl st;
     o_quiet := o_quiet st;
     o_rate_limit_time := o_rate_limit_time st;
     o_rcvbuf_size := o_rcvbuf_size st;
     o_sndbuf_size := o_sndbuf_size st;
     o_transport_method := o_transport_method st;
     o_timeout_time := v;
     o_wait_for_finish_time := o_wait_for_finish_time st;
     o_dup_buf_items := o_dup_buf_items st;
     o_port_s := o_port_s st;
     o_force := o_force st;
     o_rate_limit_time_set := o_rate_limit_time_set st;
     o_wait_for_finish_time_set := o_wait_for_finish_time_set st;
     o_verbose := o_verbose st |}.

Definition set_o_wait_for_finish_time (v : Z) (st : cli_opts) : cli_opts :=
  {| o_ip_ver := o_ip_ver st;
     o_cont_stat := o_cont_stat st;
     o_mcast_addr_s := o_mcast_addr_s st;
     o_wait_time := o_wait_time st;
     o_ttl := o_ttl st;
     o_quiet := o_quiet st;
     o_rate_limit_time := o_rate_limit_time st;
     o_rcvbuf_size := o_rcvbuf_size st;
     o_sndbuf_size := o_sndbuf_size st;
     o_transport_method := o_transport_method st;
     o_timeout_time := o_timeout_time st;
     o_wait_for_finish_time := v;
     o_dup_buf_items := o_dup_buf_items st;
     o_port_s := o_port_s st;
     o_force := o_force st;
     o_rate_limit_time_set := o_rate_limit_time_set st;
     o_wait_for_finish_time_set := o_wait_for_finish_time_set st;
     o_verbose := o_verbose st |}.

Definition set_o_dup_buf_items (v : Z) (st : cli_opts) : cli_opts :=
  {| o_ip_ver := o_ip_ver st;
     o_cont_stat := o_cont_stat st;
     o_mcast_addr_s := o_mcast_addr_s st;
     o_wait_time := o_wait_time st;
     o_ttl := o_ttl st;
     o_quiet := o_quiet st;
     o_rate_limit_time := o_rate_limit_time st;
     o_rcvbuf_size := o_rcvbuf_size st;
     o_sndbuf_size := o_sndbuf_size st;
     o_transport_method := o_transport_method st;
     o_timeout_time := o_timeout_time st;
     o_wait_for_finish_time := o_wait_for_finish_time st;
     o_dup_buf_items := v;
     o_port_s := o_port_s st;
     o_force := o_force st;
     o_rate_limit_time_set := o_rate_limit_time_set st;
     o_wait_for_finish_time_set := o_wait_for_finish_time_set st;
     o_verbose := o_verbose st |}.

Definition set_o_port_s (v : string) (st : cli_opts) : cli_opts :=
  {| o_ip_ver := o_ip_ver st;
     o_cont_stat := o_cont_stat st;
     o_mcast_addr_s := o_mcast_addr_s st;
     o_wait_time := o_wait_time st;
     o_ttl := o_ttl st;
     o_quiet := o_quiet st;
     o_rate_limit_time := o_rate_limit_time st;
     o_rcvbuf_size := o_rcvbuf_size st;
     o_sndbuf_size := o_sndbuf_size st;
     o_transport_method := o_transport_method st;
     o_timeout_time := o_timeout_time st;
     o_wait_for_finish_time := o_wait_for_finish_time st;
     o_dup_buf_items := o_dup_buf_items st;
     o_port_s := v;
     o_force := o_force st;
     o_rate_limit_time_set := o_rate_limit_time_set st;
     o_wait_for_finish_time_set := o_wait_for_finish_time_set st;
     o_verbose := o_verbose st |}.

Definition set_o_force (v : Z) (st : cli_opts) : cli_opts :=
  {| o_ip_ver := o_ip_ver st;
     o_cont_stat := o_cont_stat st;
     o_mcast_addr_s := o_mcast_addr_s st;
     o_wait_time := o_wait_time st;
     o_ttl := o_ttl st;
     o_quiet := o_quiet st;
     o_rate_limit_time := o_rate_limit_time st;
     o_rcvbuf_size := o_rcvbuf_size st;
     o_sndbuf_size := o_sndbuf_size st;
     o_transport_method := o_transport_method st;
     o_timeout_time := o_timeout_time st;
     o_wait_for_finish_time := o_wait_for_finish_time st;
     o_dup_buf_items := o_dup_buf_items st;
     o_port_s := o_port_s st;
     o_force := v;
     o_rate_limit_time_set := o_rate_limit_time_set st;
     o_wait_for_finish_time_set := o_wait_for_finish_time_set st;
     o_verbose := o_verbose st |}.

Definition set_o_rate_limit_time_set (v : Z) (st : cli_opts) : cli_opts :=
  {| o_ip_ver := o_ip_ver st;
     o_cont_stat := o_cont_stat st;
     o_mcast_addr_s := o_mcast_addr_s st;
     o_wait_time := o_wait_time st;
     o_ttl := o_ttl st;
     o_quiet := o_quiet st;
     o_rate_limit_time := o_rate_limit_time st;
     o_rcvbuf_size := o_rcvbuf_size st;
     o_sndbuf_size := o_sndbuf_size st;
     o_transport_method := o_transport_method st;
     o_timeout_time := o_timeout_time st;
     o_wait_for_finish_time := o_wait_for_finish_time st;
     o_dup_buf_items := o_dup_buf_items st;
     o_port_s := o_port_s st;
     o_force := o_force st;
     o_rate_limit_time_set := v;
     o_wait_for_finish_time_set := o_wait_for_finish_time_set st;
     o_verbose := o_verbose st |}.

Definition set_o_wait_for_finish_time_set (v : Z) (st : cli_opts) : cli_opts :=
  {| o_ip_ver := o_ip_ver st;
     o_cont_stat := o_cont_stat st;
     o_mcast_addr_s := o_mcast_addr_s st;
     o_wait_time := o_wait_time st;
     o_ttl := o_ttl st;
     o_quiet := o_quiet st;
     o_rate_limit_time := o_rate_limit_time st;
     o_rcvbuf_size := o_rcvbuf_size st;
     o_sndbuf_size := o_sndbuf_size st;
     o_transport_method := o_transport_method st;
     o_timeout_time := o_timeout_time st;
     o_wait_for_finish_time := o_wait_for_finish_time st;
     o_dup_buf_items := o_dup_buf_items st;
     o_port_s := o_port_s st;
     o_force := o_force st;
     o_rate_limit_time_set := o_rate_limit_time_set st;
     o_wait_for_finish_time_set := v;
     o_verbose := o_verbose st |}.

Definition set_o_verbose (v : Z) (st : cli_opts) : cli_opts :=
  {| o_ip_ver := o_ip_ver st;
     o_cont_stat := o_cont_stat st;
     o_mcast_addr_s := o_mcast_addr_s st;
     o_wait_time := o_wait_time st;
     o_ttl := o_ttl st;
     o_quiet := o_quiet st;
     o_rate_limit_time := o_rate_limit_time st;
     o_rcvbuf_size := o_rcvbuf_size st;
     o_sndbuf_size := o_sndbuf_size st;
     o_transport_method := o_transport_method st;
     o_timeout_time := o_timeout_time st;
     o_wait_for_finish_time := o_wait_for_finish_time st;
     o_dup_buf_items := o_dup_buf_items st;
     o_port_s := o_port_s st;
     o_force := o_force st;
     o_rate_limit_time_set := o_rate_limit_time_set st;
     o_wait_for_finish_time_set := o_wait_for_finish_time_set st;
     o_verbose := v |}.

(** The [warnx] messages that precede the usage text. *)
Inductive usage_warning : Type :=
  | W_transport (optarg : string)
      (* "illegal parameter, -M argument -- %s" *)
  | W_number (opt optarg : string)
      (* "illegal number, -<opt> argument -- %s" *)
  | W_wait_time_default (wait_time default : Z)
      (* "illegal nmber, -i argument %u ms < %u ms. Use -F to force." *)
  | W_ttl_default (ttl default : Z)
      (* "illegal nmber, -t argument %u < %u. Use -F to force." *)
  | W_wait_time_zero (wait_time : Z).
      (* "illegal nmber, -i argument %u ms < 1 ms. Use -FF to force." *)

(** How option handling ends the process: [show_version(); exit(0)], or
    [goto error_usage_exit], that is [usage(); exit(1)], after a [warnx] or
    after [getopt]'s own message. *)
Inductive early_exit : Type :=
  | E_version
  | E_usage (w : option usage_warning).

Definition exit_status (e : early_exit) : Z :=
  match e with
  | E_version => 0
  | E_usage _ => 1
  end.

(** Option handling goes on with [a], ends the process, or overflows an
    [int], which C leaves undefined. *)
Inductive step (A : Type) : Type :=
  | Go (a : A)
  | Stop (e : early_exit)
  | Overflow.
Arguments Go {A} a.
Arguments Stop {A} e.
Arguments Overflow {A}.

Definition step_bind {A B : Type} (c : step A) (k : A -> step B) : step B :=
  match c with
  | Go a => k a
  | Stop e => Stop e
  | Overflow => Overflow
  end.

Notation "x <~ c ;; k" := (step_bind c (fun x => k))
  (at level 100, c at next level, right associativity).

Definition INT32_MAX : Z := 2147483647.

(** The value of an [int] expression: the number if it fits. *)
Definition int_arith (z : Z) : step Z :=
  if (- 2 ^ 31 <=? z) && (z <? 2 ^ 31) then Go z else Overflow.

(** A [long] stored into an [int]: the low 32 bits, two's complement. *)
Definition int_of_long (z : Z) : Z := (z + 2 ^ 31) mod 2 ^ 32 - 2 ^ 31.

(** [*ep != '\0']. *)
Definition ep_not_end (ep : string) : bool :=
  match ep with
  | EmptyString => false
  | String _ _ => true
  end.

(** ** Option processing: the loop and the checks *)

(** [numd < 0 || *ep != '\0' || numd * 1000 > INT32_MAX], the test of
    [-r], [-T] and [-i]. *)
Definition bad_seconds (E : cli_env) (numd : double E) (ep : string) : bool :=
  d_lt E numd (d_of_int E 0)
  || ep_not_end ep
  || d_lt E (d_of_int E INT32_MAX) (d_mul E numd (d_of_int E 1000)).

(** [(numd < 0 && numd != -1) || *ep != '\0' || numd * 1000 > INT32_MAX],
    the test of [-w]. *)
Definition bad_seconds_w (E : cli_env) (numd : double E) (ep : string) : bool :=
  (d_lt E numd (d_of_int E 0) && negb (d_eq E numd (d_of_int E (-1))))
  || ep_not_end ep
  || d_lt E (d_of_int E INT32_MAX) (d_mul E numd (d_of_int E 1000)).

(** [numd < min || *ep != '\0' || numd > INT32_MAX], the test of [-R] and
    [-S]. *)
Definition bad_size (E : cli_env) (min : Z) (numd : double E) (ep : string) : bool :=
  d_lt E numd (d_of_int E min)
  || ep_not_end ep
  || d_lt E (d_of_int E INT32_MAX) numd.

(** [(int)(numd * 1000.0)]. *)
Definition msec (E : cli_env) (numd : double E) : Z :=
  d_to_int E (d_mul E numd (d_of_int E 1000)).

(** One turn of [while ((ch = getopt(...)) != -1) switch (ch)]. *)
Definition cli_parse_option (E : cli_env) (H : omping_h) (ch : getopt_result)
    (st : cli_opts) : step cli_opts :=
  match ch with
  | Opt_4 => Go (set_o_ip_ver 4 st)
  | Opt_6 => Go (set_o_ip_ver 6 st)
  | Opt_C => Go (set_o_cont_stat (o_cont_stat st + 1) st)
  | Opt_D => Go (set_o_dup_buf_items 0 st)
  | Opt_F => Go (set_o_force (o_force st + 1) st)
  | Opt_q => Go (set_o_quiet (o_quiet st + 1) st)
  | Opt_V => Stop E_version
  | Opt_v => Go (set_o_verbose (o_verbose st + 1) st)
  | Opt_M optarg =>
      if String.eqb optarg "asm" then Go (set_o_transport_method SF_TM_ASM st)
      else if String.eqb optarg "ssm" && sf_is_ssm_supported E then
        Go (set_o_transport_method SF_TM_SSM st)
      else Stop (E_usage (Some (W_transport optarg)))
  | Opt_m optarg => Go (set_o_mcast_addr_s (Some optarg) st)
  | Opt_p optarg => Go (set_o_port_s optarg st)
  | Opt_R optarg =>
      let (numd, ep) := strtod E optarg in
      if bad_size E (MIN_RCVBUF_SIZE H) numd ep then
        Stop (E_usage (Some (W_number "R" optarg)))
      else Go (set_o_rcvbuf_size (d_to_int E numd) st)
  | Opt_r optarg =>
      let (numd, ep) := strtod E optarg in
      if bad_seconds E numd ep then Stop (E_usage (Some (W_number "r" optarg)))
      else Go (set_o_rate_limit_time_set 1 (set_o_rate_limit_time (msec E numd) st))
  | Opt_S optarg =>
      let (numd, ep) := strtod E optarg in
      if bad_size E (MIN_SNDBUF_SIZE H) numd ep then
        Stop (E_usage (Some (W_number "S" optarg)))
      else Go (set_o_sndbuf_size (d_to_int E numd) st)
  | Opt_t optarg =>
      let (value, ep) := strtol E optarg in
      let num := int_of_long value in
      if (num <=? 0) || (255 <? num) || ep_not_end ep then
        Stop (E_usage (Some (W_number "t" optarg)))
      else Go (set_o_ttl num st)
  | Opt_T optarg =>
      let (numd, ep) := strtod E optarg in
      if bad_seconds E numd ep then Stop (E_usage (Some (W_number "T" optarg)))
      else Go (set_o_timeout_time (msec E numd) st)
  | Opt_i optarg =>
      let (numd, ep) := strtod E optarg in
      if bad_seconds E numd ep then Stop (E_usage (Some (W_number "i" optarg)))
      else Go (set_o_wait_time (msec E numd) st)
  | Opt_w optarg =>
      let (numd, ep) := strtod E optarg in
      if bad_seconds_w E numd ep then Stop (E_usage (Some (W_number "w" optarg)))
      else Go (set_o_wait_for_finish_time (msec E numd)
                 (set_o_wait_for_finish_time_set 1 st))
  | Opt_unknown => Stop (E_usage None)
  end.

(** The loop, over what [getopt] returns call after call until -1. *)
Fixpoint cli_parse_getopt (E : cli_env) (H : omping_h) (opts : list getopt_result)
    (st : cli_opts) : step cli_opts :=
  match opts with
  | [] => Go st
  | ch :: opts' =>
      st' <~ cli_parse_option E H ch st ;;
      cli_parse_getopt E H opts' st'
  end.

(** The assignments before the loop. [*ttl] is a [uint8_t]. *)
Definition cli_opts_init (H : omping_h) : cli_opts :=
  {| o_ip_ver := 0;
     o_cont_stat := 0;
     o_mcast_addr_s := None;
     o_wait_time := DEFAULT_WAIT_TIME H;
     o_ttl := DEFAULT_TTL H mod 256;
     o_quiet := 0;
     o_rate_limit_time := 0;
     o_rcvbuf_size := 0;
     o_sndbuf_size := 0;
     o_transport_method := SF_TM_ASM;
     o_timeout_time := 0;
     o_wait_for_finish_time := 0;
     o_dup_buf_items := MIN_DUP_BUF_ITEMS H;
     o_port_s := DEFAULT_PORT_S H;
     o_force := 0;
     o_rate_limit_time_set := 0;
     o_wait_for_finish_time_set := 0;
     o_verbose := 0 |}.

(** "Param checking": the three tests that end in [error_usage_exit]. *)
Definition cli_parse_check (H : omping_h) (st : cli_opts) : step unit :=
  if (o_force st <? 1) && (o_wait_time st <? DEFAULT_WAIT_TIME H) then
    Stop (E_usage (Some (W_wait_time_default (o_wait_time st) (DEFAULT_WAIT_TIME H))))
  else if (o_force st <? 1) && (o_ttl st <? DEFAULT_TTL H) then
    Stop (E_usage (Some (W_ttl_default (o_ttl st) (DEFAULT_TTL H))))
  else if (o_force st <? 2) && (o_wait_time st =? 0) then
    Stop (E_usage (Some (W_wait_time_zero (o_wait_time st))))
  else Go tt.

(** [((DUP_BUF_SECS * 1000) / *wait_time) + 1], raised to
    [MIN_DUP_BUF_ITEMS]; C's [/] truncates. *)
Definition computed_dup_buf_items (H : omping_h) (wait_time : Z) : step Z :=
  if wait_time =? 0 then Go 0
  else
    ms <~ int_arith (DUP_BUF_SECS H * 1000) ;;
    q <~ int_arith (Z.quot ms wait_time) ;;
    items <~ int_arith (q + 1) ;;
    Go (if items <? MIN_DUP_BUF_ITEMS H then MIN_DUP_BUF_ITEMS H else items).

(** "Computed params". *)
Definition cli_parse_computed (H : omping_h) (st : cli_opts) : step cli_opts :=
  wff <~ (if o_wait_for_finish_time_set st =? 0 then
            int_arith (o_wait_time st * DEFAULT_WFF_TIME_MUL H)
          else Go (o_wait_for_finish_time st)) ;;
  dup <~ computed_dup_buf_items H (o_wait_time st) ;;
  let rate :=
    if o_rate_limit_time_set st =? 0 then o_wait_time st
    else o_rate_limit_time st in
  Go (set_o_rate_limit_time rate
        (set_o_dup_buf_items dup
           (set_o_wait_for_finish_time wff st))).

(** [cli_parse] from its first line to [TAILQ_INIT]: the loop, the checks
    and the computed values. *)
Definition cli_parse_params (E : cli_env) (H : omping_h) (opts : list getopt_result)
    : step cli_opts :=
  st <~ cli_parse_getopt E H opts (cli_opts_init H) ;;
  _ <~ cli_parse_check H st ;;
  cli_parse_computed H st.

(** Which options set which variable. *)
Definition family_option (ch : getopt_result) : option Z :=
  match ch with
  | Opt_4 => Some 4
  | Opt_6 => Some 6
  | _ => None
  end.

Definition mcast_option (ch : getopt_result) : option string :=
  match ch with
  | Opt_m optarg => Some optarg
  | _ => None
  end.

Definition port_option (ch : getopt_result) : option string :=
  match ch with
  | Opt_p optarg => Some optarg
  | _ => None
  end.

Definition ttl_option (ch : getopt_result) : option string :=
  match ch with
  | Opt_t optarg => Some optarg
  | _ => None
  end.

(** The value the last [-t] of the options gives [*ttl]. *)
Definition ttl_value (E : cli_env) (ch : getopt_result) : option Z :=
  match ch with
  | Opt_t optarg => Some (int_of_long (fst (strtol E optarg)))
  | _ => None
  end.

(** [v] is what the last option that [sel] picks gives, and [init] if
    [sel] picks no option. *)
Definition last_choice {V : Type} (sel : getopt_result -> option V)
    (opts : list getopt_result) (init v : V) : Prop :=
  (Forall (fun ch => sel ch = None) opts /\ v = init)
  \/ (exists before ch after,
        opts = before ++ ch :: after
        /\ sel ch = Some v
        /\ Forall (fun ch => sel ch = None) after).

Definition is_opt_F (ch : getopt_result) : bool :=
  match ch with
  | Opt_F => true
  | _ => false
  end.

Definition is_opt_w (ch : getopt_result) : bool :=
  match ch with
  | Opt_w _ => true
  | _ => false
  end.

Definition is_opt_r (ch : getopt_result) : bool :=
  match ch with
  | Opt_r _ => true
  | _ => false
  end.

Definition is_opt_D (ch : getopt_result) : bool :=
  match ch with
  | Opt_D => true
  | _ => false
  end.

(** ** A small network for the examples

    Host names and what they resolve to, a loopback and a multicast test, and
    one local interface; the examples at the end run the program on it. *)

Definition sample_sin (a : Z) : addrinfo :=
  {| ai_family := AF_INET;
     ai_addr := {| ss_family := AF_INET; ss_port := 4321; ss_addr := a |} |}.

Definition sample_sin6 (a : Z) : addrinfo :=
  {| ai_family := AF_INET6;
     ai_addr := {| ss_family := AF_INET6; ss_port := 4321; ss_addr := a |} |}.

(** 10.0.0.1 and fd00::1 are the addresses of the local interface. *)
Definition sample_dns : list (string * list addrinfo) :=
  [ ("host-a",    [sample_sin 0x0A000001; sample_sin6 0xfd000000000000000000000000000001]);
    ("alias-a",   [sample_sin6 0xfd000000000000000000000000000001; sample_sin 0x0A000001]);
    ("10.0.0.1",  [sample_sin 0x0A000001]);
    ("host-b",    [sample_sin 0x0A000002]);
    ("host-c",    [sample_sin6 0xfd000000000000000000000000000003]);
    ("host-d",    [sample_sin 0x0A000004; sample_sin6 0xfd000000000000000000000000000004]);
    ("localhost", [sample_sin 0x7F000001]);
    ("232.43.211.234",  [sample_sin 0xE82BD3EA]);
    ("ff3e::4321:1234", [sample_sin6 0xff3e0000000000000000000043211234]);
    ("group46",   [sample_sin 0xE82BD3EA;
                   sample_sin6 0xff3e0000000000000000000043211234]);
    ("nogroup",   [sample_sin 0x0A000009]);
    ("unix-peer", [{| ai_family := 1;
                      ai_addr := {| ss_family := 1; ss_port := 0; ss_addr := 0 |} |}])
  ]%string.

Fixpoint sample_lookup (host : string) (dns : list (string * list addrinfo))
    : option (list addrinfo) :=
  match dns with
  | [] => None
  | (name, chain) :: dns' =>
      if String.eqb name host then Some chain else sample_lookup host dns'
  end.

(** The target the collector makes of a host name, resolved with no family
    forced. *)
Definition sample_target (host : string) : ai_item :=
  {| ai := default [] (sample_lookup host sample_dns);
     sas := sas_zero;
     host_name := host |}.

Definition sample_host_to_ai (host port : string) (ip_ver : Z)
    : outcome (list addrinfo) :=
  match sample_lookup host sample_dns with
  | None => Exit 1 (D_collaborator "Can't get addr info")
  | Some chain =>
      let chain' :=
        if ip_ver =? 0 then chain
        else filter (fun ai_i => af_ai_supported_ipv ai_i = ip_ver) chain in
      match chain' with
      | [] => Exit 1 (D_collaborator "Can't get addr info")
      | _ => Ret chain'
      end
  end.

(** A resolver that is down: every call is fatal. *)
Definition sample_no_resolver (host port : string) (ip_ver : Z)
    : outcome (list addrinfo) :=
  Exit 1 (D_collaborator "Can't get addr info").

Definition sample_is_loopback (chain : list addrinfo) : bool :=
  existsb (fun ai_i =>
    let sa := ai_addr ai_i in
    if ss_family sa =? AF_INET then Z.shiftr (ss_addr sa) 24 =? 127
    else ss_addr sa =? 1) chain.

Definition sample_is_sa_mcast (sa : sockaddr_storage) : bool :=
  if ss_family sa =? AF_INET then Z.shiftr (ss_addr sa) 28 =? 14
  else if ss_family sa =? AF_INET6 then Z.shiftr (ss_addr sa) 120 =? 255
  else false.

Definition sample_ifa4 : ifaddrs :=
  {| ifa_name := "eth0";
     ifa_addr := {| ss_family := AF_INET; ss_port := 0; ss_addr := 0x0A000001 |} |}.

Definition sample_ifa6 : ifaddrs :=
  {| ifa_name := "eth0";
     ifa_addr := {| ss_family := AF_INET6; ss_port := 0;
                    ss_addr := 0xfd000000000000000000000000000001 |} |}.

(** The position of the first target with a candidate of the interface's
    family and address. *)
Fixpoint sample_position (ifa : ifaddrs) (ai_list : list ai_item) (pos : nat)
    : option nat :=
  match ai_list with
  | [] => None
  | aip :: rest =>
      if existsb (fun ai_i =>
           (ss_family (ai_addr ai_i) =? ss_family (ifa_addr ifa))
           && (ss_addr (ai_addr ai_i) =? ss_addr (ifa_addr ifa))) (ai aip)
      then Some pos
      else sample_position ifa rest (S pos)
  end.

(** With no family settled, IPv6 is preferred. *)
Definition sample_find_local_ai (ai_list : list ai_item) (ip_ver : Z)
    : outcome (option local_match) :=
  let found4 :=
    match sample_position sample_ifa4 ai_list 0 with
    | Some pos => Some {| lm_ip_ver := 4; lm_ifa_local := sample_ifa4; lm_ai_item := pos |}
    | None => None
    end in
  let found6 :=
    match sample_position sample_ifa6 ai_list 0 with
    | Some pos => Some {| lm_ip_ver := 6; lm_ifa_local := sample_ifa6; lm_ai_item := pos |}
    | None => None
    end in
  if ip_ver =? 4 then Ret found4
  else if ip_ver =? 6 then Ret found6
  else Ret (match found6 with Some lm => Some lm | None => found4 end).

(** A platform for the examples: numbers are whole, so a [double] is an
    integer, and [strtod] and [strtol] read an optional sign and decimal
    digits. *)
Fixpoint sample_digits (s : string) (acc : Z) : Z * string :=
  match s with
  | EmptyString => (acc, EmptyString)
  | String c s' =>
      let n := Z.of_nat (Ascii.nat_of_ascii c) in
      if (48 <=? n) && (n <=? 57) then sample_digits s' (10 * acc + (n - 48))
      else (acc, s)
  end.

Definition sample_strtol (s : string) : Z * string :=
  match s with
  | String c s' =>
      if Z.of_nat (Ascii.nat_of_ascii c) =? 45 then
        let (v, ep) := sample_digits s' 0 in (- v, ep)
      else sample_digits s 0
  | EmptyString => (0, EmptyString)
  end.

Definition sample_env : cli_env :=
  {| double := Z;
     strtod := sample_strtol;
     strtol := sample_strtol;
     d_of_int := fun z => z;
     d_lt := Z.ltb;
     d_eq := Z.eqb;
     d_mul := Z.mul;
     d_to_int := fun z => z;
     sf_is_ssm_supported := true |}.

Definition sample_h : omping_h :=
  {| DEFAULT_WAIT_TIME := 1000;
     DEFAULT_TTL := 64;
     DEFAULT_WFF_TIME_MUL := 3;
     DUP_BUF_SECS := 120;
     MIN_DUP_BUF_ITEMS := 1024;
     MIN_RCVBUF_SIZE := 2048;
     MIN_SNDBUF_SIZE := 2048;
     DEFAULT_PORT_S := "4321" |}.

Section Cli.

(** The collaborators that reach outside the program, and the constants of
    [omping.h]. *)

(** [af_host_to_ai(host_name, port, ip_ver)]: name resolution; it returns
    the candidate chain or exits fatally. *)
Variable af_host_to_ai : string -> string -> Z -> outcome (list addrinfo).

(** [af_ai_deep_is_loopback(ai)]: the loopback test on a candidate chain. *)
Variable af_ai_deep_is_loopback : list addrinfo -> bool.

(** [af_is_sa_mcast(sa)]: is the address a multicast address of its
    family. *)
Variable af_is_sa_mcast : sockaddr_storage -> bool.

(** [af_find_local_ai(ai_list, &ip_ver, &ifa_list, &ifa_local, &ai_item)]:
    [None] when it returns a negative value. *)
Variable af_find_local_ai : list ai_item -> Z -> outcome (option local_match).

Variable DEFAULT_MCAST4_ADDR : string.
Variable DEFAULT_MCAST6_ADDR : string.

(** *** parse_remote_addrs *)

(** The body of [for (i = 0; i < argc; i++)], from argument [i] on, with
    the queue and the counter as they stand. *)
Fixpoint parse_remote_addrs_loop (argv : list string) (port : string) (ip_ver : Z)
    (ai_list : list ai_item) (no_ai : Z) : outcome (list ai_item * Z) :=
  match argv with
  | [] => Ret (ai_list, no_ai)
  | arg :: argv' =>
      ai_res <- af_host_to_ai arg port ip_ver ;;
      if negb (af_is_ai_in_list ai_res ai_list) then
        if af_ai_deep_is_loopback ai_res then errx (D_loopback arg)
        else
          let ai_item := {| ai := ai_res; sas := sas_zero; host_name := arg |} in
          parse_remote_addrs_loop argv' port ip_ver (ai_list ++ [ai_item]) (no_ai + 1)
      else
        (* freeaddrinfo(ai_res) *)
        parse_remote_addrs_loop argv' port ip_ver ai_list no_ai
  end.

(** Returns the queue as it leaves it and the value it returns. *)
Definition parse_remote_addrs (argv : list string) (port : string) (ip_ver : Z)
    (ai_list : list ai_item) : outcome (list ai_item * Z) :=
  r <- parse_remote_addrs_loop argv port ip_ver ai_list 0 ;;
  let no_ai := snd r in
  if no_ai <? 1 then Exit 1 D_no_remote (* warnx, usage(), exit(1) *)
  else Ret (fst r, no_ai).

(** *** return_ip_ver *)

(** The walk under [if (mcast_ipver != 0)]. *)
Fixpoint return_ip_ver_mcast_walk (mcast_ipver : Z) (ai_list : list ai_item)
    : outcome unit :=
  match ai_list with
  | [] => Ret tt
  | aip :: rest =>
      let ipver_res := af_ai_deep_supported_ipv (ai aip) in
      if ipver_res =? -1 then errx (D_host_no_ipver (host_name aip))
      else if negb (ipver_res =? 0) && negb (ipver_res =? mcast_ipver) then
        errx (D_mcast_host_ipver mcast_ipver (host_name aip) ipver_res)
      else return_ip_ver_mcast_walk mcast_ipver rest
  end.

(** The first walk over the hosts; it leaves with the value of
    [ipver_res], which every iteration overwrites. *)
Fixpoint return_ip_ver_first_walk (ipver_res : Z) (ai_list : list ai_item)
    : outcome Z :=
  match ai_list with
  | [] => Ret ipver_res
  | aip :: rest =>
      let ipver_res := af_ai_deep_supported_ipv (ai aip) in
      if ipver_res =? -1 then errx (D_host_no_ipver (host_name aip))
      else if negb (ipver_res =? 0) then Ret ipver_res (* break *)
      else return_ip_ver_first_walk ipver_res rest
  end.

(** The second walk, under [if (ipver_res != 0)]. *)
Fixpoint return_ip_ver_second_walk (ipver_res : Z) (ai_list : list ai_item)
    : outcome unit :=
  match ai_list with
  | [] => Ret tt
  | aip :: rest =>
      let ipver_res2 := af_ai_deep_supported_ipv (ai aip) in
      if ipver_res2 =? -1 then errx (D_host_no_ipver (host_name aip))
      else if negb (ipver_res2 =? 0) && negb (ipver_res2 =? ipver_res) then
        errx (D_host_ipver (host_name aip) ipver_res)
      else return_ip_ver_second_walk ipver_res rest
  end.

(** From [ipver_res = 0;] to the end of the function. *)
Definition return_ip_ver_hosts (ai_list : list ai_item) : outcome Z :=
  ipver_res <- return_ip_ver_first_walk 0 ai_list ;;
  if ipver_res =? 0 then Ret 0
  else
    _ <- return_ip_ver_second_walk ipver_res ai_list ;;
    Ret ipver_res.

(** [mcast_addr] is [None] for [NULL]. *)
Definition return_ip_ver (ip_ver : Z) (mcast_addr : option string) (port : string)
    (ai_list : list ai_item) : outcome Z :=
  if negb (ip_ver =? 0) then Ret ip_ver
  else
    match mcast_addr with
    | Some m =>
        ai_res <- af_host_to_ai m port ip_ver ;;
        let mcast_ipver := af_ai_deep_supported_ipv ai_res in
        if mcast_ipver =? -1 then errx (D_mcast_no_ipver m)
        else if negb (mcast_ipver =? 0) then
          _ <- return_ip_ver_mcast_walk mcast_ipver ai_list ;;
          Ret mcast_ipver
        else return_ip_ver_hosts ai_list
    | None => return_ip_ver_hosts ai_list
    end.

(** *** conv_list_addrs and conv_params_mcast *)

(** [for (ai_i = ...; ai_i != NULL; ai_i = ai_i->ai_next)] with
    [if (af_ai_supported_ipv(ai_i) == ip_ver) { ...; break; }]: the node
    the loop stops at, [None] when it runs to [ai_i == NULL]. Both
    [conv_list_addrs] and [conv_params_mcast] contain this loop. *)
Fixpoint first_ai_of_ipv (ai_i : list addrinfo) (ip_ver : Z) : option addrinfo :=
  match ai_i with
  | [] => None
  | a :: ai_next =>
      if af_ai_supported_ipv a =? ip_ver then Some a
      else first_ai_of_ipv ai_next ip_ver
  end.

(** One iteration of [TAILQ_FOREACH]: on a match the address is copied
    into [sas] and the chain is released; without a match the loop over the
    candidates ends and the item is left as it was. *)
Definition conv_list_addrs_item (ip_ver : Z) (ai_item_i : ai_item) : ai_item :=
  match first_ai_of_ipv (ai ai_item_i) ip_ver with
  | Some ai_i =>
      let tmp_sas := ai_addr ai_i in
      {| ai := []; sas := tmp_sas; host_name := host_name ai_item_i |}
  | None => ai_item_i
  end.

(** The function is [void] and has no exit besides the allocation check. *)
Definition conv_list_addrs (ai_list : list ai_item) (ip_ver : Z) : list ai_item :=
  map (conv_list_addrs_item ip_ver) ai_list.

(** The label [conv_params_mcast] goes on with: the one given, or the
    default of the family. *)
Definition conv_params_mcast_label (ip_ver : Z) (mcast_addr_s : option string)
    : outcome string :=
  match mcast_addr_s with
  | Some s => Ret s
  | None =>
      if ip_ver =? 4 then Ret DEFAULT_MCAST4_ADDR
      else if ip_ver =? 6 then Ret DEFAULT_MCAST6_ADDR
      else errx D_internal
  end.

(** Returns the [mcast_addr] item it fills in. *)
Definition conv_params_mcast (ip_ver : Z) (mcast_addr_s : option string)
    (port_s : string) : outcome ai_item :=
  mcast_addr_s <- conv_params_mcast_label ip_ver mcast_addr_s ;;
  ai_res <- af_host_to_ai mcast_addr_s port_s ip_ver ;;
  match first_ai_of_ipv ai_res ip_ver with
  | None => errx D_internal
  | Some ai_i =>
      let mcast_sas := ai_addr ai_i in
      if negb (af_is_sa_mcast mcast_sas) then errx (D_not_mcast mcast_addr_s)
      else Ret {| ai := []; sas := mcast_sas; host_name := mcast_addr_s |}
  end.

(** *** conv_port *)

Definition conv_port (mcast_addr : sockaddr_storage) : outcome Z :=
  if ss_family mcast_addr =? AF_INET then Ret (ss_port mcast_addr)
  else if ss_family mcast_addr =? AF_INET6 then Ret (ss_port mcast_addr)
  else errx D_internal.

(** *** conv_local_addr *)

(** [ai_local] is the position in the queue of the item the pointer
    refers to. Returns the queue as it leaves it, the [local_addr] it fills
    in and the value stored in [*single_addr]. *)
Definition conv_local_addr (ai_list : list ai_item) (ai_local : nat)
    (ifa_local : ifaddrs) (ip_ver : Z) : outcome (list ai_item * ai_item * Z) :=
  let sa_family := ss_family (ifa_addr ifa_local) in
  if (sa_family =? AF_INET) || (sa_family =? AF_INET6) then
    match ai_list !! ai_local with
    | None => Undef
    | Some ai_local_item =>
        let port := ss_port (sas ai_local_item) in
        let local_addr :=
          {| ai := [];
             sas := {| ss_family := sa_family; ss_port := port;
                       ss_addr := ss_addr (ifa_addr ifa_local) |};
             host_name := host_name ai_local_item |} in
        match ai_list with
        | [] => Undef (* TAILQ_NEXT of a NULL TAILQ_FIRST *)
        | _ :: next =>
            let single_addr := match next with [] => 1 | _ :: _ => 0 end in
            if single_addr =? 0 then
              (* TAILQ_REMOVE, free *)
              Ret (delete ai_local ai_list, local_addr, single_addr)
            else Ret (ai_list, local_addr, single_addr)
        end
    end
  else errx D_internal.

(** *** cli_parse, after option parsing *)

(** From [TAILQ_INIT(ai_list)] to [return (0)]. [argv] are the arguments
    left after the options, [ip_ver] the family forced by [-4]/[-6] or 0,
    [mcast_addr_s] the argument of [-m] and [port_s] that of [-p] or the
    default. *)
Definition cli_parse (argv : list string) (ip_ver : Z) (mcast_addr_s : option string)
    (port_s : string) : outcome cli_result :=
  r <- parse_remote_addrs argv port_s ip_ver [] ;;
  let ai_list := fst r in
  ip_ver <- return_ip_ver ip_ver mcast_addr_s port_s ai_list ;;
  found <- af_find_local_ai ai_list ip_ver ;;
  match found with
  | None => errx D_no_local
  | Some lm =>
      let ip_ver := lm_ip_ver lm in
      mcast_addr <- conv_params_mcast ip_ver mcast_addr_s port_s ;;
      port <- conv_port (sas mcast_addr) ;;
      let ai_list := conv_list_addrs ai_list ip_ver in
      r <- conv_local_addr ai_list (lm_ai_item lm) (lm_ifa_local lm) ip_ver ;;
      Ret {| r_ai_list := fst (fst r);
             r_local_ifname := ifa_name (lm_ifa_local lm);
             r_ip_ver := ip_ver;
             r_local_addr := snd (fst r);
             r_mcast_addr := mcast_addr;
             r_port := port;
             r_single_addr := snd r |}
  end.

(** *** cli_parse, whole *)

(** The whole of [cli_parse]: [opts] is what [getopt] returns call after
    call and [argv] what is left after [argc -= optind; argv += optind].
    Returns the option variables and how the address part ends. *)
Definition cli_parse_all (E : cli_env) (H : omping_h) (opts : list getopt_result)
    (argv : list string) : step (cli_opts * outcome cli_result) :=
  st <~ cli_parse_params E H opts ;;
  Go (st, cli_parse argv (o_ip_ver st) (o_mcast_addr_s st) (o_port_s st)).

(** ** Vocabulary of the properties *)

(** The deep-supported family of a target. *)
Definition deep_ipv (aip : ai_item) : Z := af_ai_deep_supported_ipv (ai aip).

(** The target's deep-supported family is non-zero. *)
Definition single_family (aip : ai_item) : bool := negb (deep_ipv aip =? 0).

(** The target's deep-supported family is non-zero and differs from
    [ipv]. *)
Definition other_family (ipv : Z) (aip : ai_item) : bool :=
  negb (deep_ipv aip =? 0) && negb (deep_ipv aip =? ipv).

(** No multicast label, or one that resolves and deep-supports both
    families. *)
Definition no_mcast_constraint (mcast_addr : option string) (port : string) : Prop :=
  match mcast_addr with
  | None => True
  | Some m =>
      exists ai_res, af_host_to_ai m port 0 = Ret ai_res
                     /\ af_ai_deep_supported_ipv ai_res = 0
  end.

(** The diagnostic of the host walks for a target that does not fit
    [ipv]: the target has no family at all, or it has the other one. *)
Definition host_diag (ipv : Z) (aip : ai_item) : diag :=
  if deep_ipv aip =? -1 then D_host_no_ipver (host_name aip)
  else D_host_ipver (host_name aip) ipv.

Definition mcast_host_diag (mcast_ipver : Z) (aip : ai_item) : diag :=
  if deep_ipv aip =? -1 then D_host_no_ipver (host_name aip)
  else D_mcast_host_ipver mcast_ipver (host_name aip) (deep_ipv aip).

(** The target [parse_remote_addrs] appends for argument [arg] resolved to
    [ai_res]. *)
Definition mk_target (arg : string) (ai_res : list addrinfo) : ai_item :=
  {| ai := ai_res; sas := sas_zero; host_name := arg |}.

(** Two candidate sets have a concrete address in common. *)
Definition share_address (c1 c2 : list addrinfo) : Prop :=
  exists x y, In x c1 /\ In y c2 /\ ai_addr x = ai_addr y.

(** No two targets of the list have an address in common. *)
Definition distinct_targets (ai_list : list ai_item) : Prop :=
  forall (i j : nat) (t u : ai_item),
    (i < j)%nat -> ai_list !! i = Some t -> ai_list !! j = Some u ->
    ~ share_address (ai t) (ai u).

(** The resolver's answers are well formed: the family a candidate is
    tagged with is the family of its socket address, as [getaddrinfo] has
    it. *)
Definition well_formed_answers : Prop :=
  forall (host port : string) (ip_ver : Z) (chain : list addrinfo),
    af_host_to_ai host port ip_ver = Ret chain ->
    Forall (fun ai_i => ai_family ai_i = ss_family (ai_addr ai_i)) chain.




(** ** Properties of return_ip_ver *)

Lemma deep_supported_ipv_range (chain : list addrinfo) :
  af_ai_deep_supported_ipv chain = 0 \/ af_ai_deep_supported_ipv chain = 4 \/
  af_ai_deep_supported_ipv chain = 6 \/ af_ai_deep_supported_ipv chain = -1.
Proof.
  unfold af_ai_deep_supported_ipv.
  destruct (existsb _ chain), (existsb _ chain); simpl; auto.
Qed.

Lemma host_diag_names (ipv : Z) (aip : ai_item) :
  diag_names (host_diag ipv aip) = Some (host_name aip).
Proof. unfold host_diag. destruct (deep_ipv aip =? -1); reflexivity. Qed.

Lemma mcast_host_diag_names (ipv : Z) (aip : ai_item) :
  diag_names (mcast_host_diag ipv aip) = Some (host_name aip).
Proof. unfold mcast_host_diag. destruct (deep_ipv aip =? -1); reflexivity. Qed.

(** [find] gives the first target of the list that satisfies the test:
    nothing before it does. *)
Lemma find_first_split (test : ai_item -> bool) (ai_list : list ai_item) (aip : ai_item) :
  find test ai_list = Some aip ->
  exists before after,
    ai_list = before ++ aip :: after
    /\ Forall (fun t => test t = false) before
    /\ test aip = true.
Proof.
  induction ai_list as [|t rest IH]; simpl; [discriminate|].
  destruct (test t) eqn:E.
  - intros [= <-]. exists [], rest. split; [reflexivity|]. split; [constructor|exact E].
  - intros H. destruct (IH H) as (before & after & -> & Hbefore & Haip).
    exists (t :: before), after. split; [reflexivity|]. split; [|exact Haip].
    constructor; assumption.
Qed.

(** No target with a non-zero family: every target deep-supports both. *)
Lemma find_single_family_none (ai_list : list ai_item) :
  find single_family ai_list = None <->
  Forall (fun aip => deep_ipv aip = 0) ai_list.
Proof.
  clear af_host_to_ai af_ai_deep_is_loopback af_is_sa_mcast af_find_local_ai DEFAULT_MCAST4_ADDR DEFAULT_MCAST6_ADDR.
  induction ai_list as [|t rest IH]; simpl.
  - split; [constructor|reflexivity].
  - unfold single_family at 1. rewrite Forall_cons.
    destruct (Z.eqb_spec (deep_ipv t) 0) as [E|E]; simpl.
    + rewrite IH. tauto.
    + split; [discriminate|]. tauto.
Qed.

(** No target of another family: every target deep-supports 0 or [ipv]. *)
Lemma find_other_family_none (ipv : Z) (ai_list : list ai_item) :
  find (other_family ipv) ai_list = None <->
  Forall (fun aip => deep_ipv aip = 0 \/ deep_ipv aip = ipv) ai_list.
Proof.
  clear af_host_to_ai af_ai_deep_is_loopback af_is_sa_mcast af_find_local_ai DEFAULT_MCAST4_ADDR DEFAULT_MCAST6_ADDR.
  induction ai_list as [|t rest IH]; simpl.
  - split; [constructor|reflexivity].
  - unfold other_family at 1. rewrite Forall_cons.
    destruct (Z.eqb_spec (deep_ipv t) 0) as [E0|E0];
      destruct (Z.eqb_spec (deep_ipv t) ipv) as [E1|E1]; simpl;
      try (rewrite IH; tauto).
    split; [discriminate|]. tauto.
Qed.

(** The first walk stops at the first target with a non-zero family. *)
Lemma first_walk_none (ai_list : list ai_item) :
  find single_family ai_list = None ->
  return_ip_ver_first_walk 0 ai_list = Ret 0.
Proof.
  induction ai_list as [|aip rest IH]; simpl; [reflexivity|].
  unfold single_family at 1, deep_ipv.
  destruct (Z.eqb_spec (af_ai_deep_supported_ipv (ai aip)) 0) as [E|E]; simpl.
  - intros H. rewrite E. simpl. auto.
  - discriminate.
Qed.

Lemma first_walk_some (ai_list : list ai_item) (first : ai_item) (init : Z) :
  find single_family ai_list = Some first ->
  return_ip_ver_first_walk init ai_list =
    if deep_ipv first =? -1 then Exit 1 (D_host_no_ipver (host_name first))
    else Ret (deep_ipv first).
Proof.
  revert init. induction ai_list as [|aip rest IH]; simpl; [discriminate|].
  intros init. unfold single_family at 1. fold (deep_ipv aip).
  destruct (Z.eqb_spec (deep_ipv aip) 0) as [E|E]; simpl.
  - intros H. rewrite E. simpl. rewrite (IH 0 H). reflexivity.
  - intros [= <-]. destruct (deep_ipv aip =? -1); reflexivity.
Qed.

(** The second walk stops at the first target that does not fit. *)
Lemma second_walk_find (ipv : Z) (ai_list : list ai_item) :
  ipv <> -1 ->
  return_ip_ver_second_walk ipv ai_list =
    match find (other_family ipv) ai_list with
    | Some bad => Exit 1 (host_diag ipv bad)
    | None => Ret tt
    end.
Proof.
  intros Hipv. induction ai_list as [|aip rest IH]; simpl; [reflexivity|].
  unfold other_family at 1. fold (deep_ipv aip).
  destruct (Z.eqb_spec (deep_ipv aip) (-1)) as [E1|E1].
  - rewrite E1. destruct (Z.eqb_spec (-1) ipv); [congruence|]. simpl.
    unfold host_diag. rewrite E1. reflexivity.
  - destruct (negb (deep_ipv aip =? 0) && negb (deep_ipv aip =? ipv)) eqn:E2.
    + unfold host_diag.
      destruct (Z.eqb_spec (deep_ipv aip) (-1)); [contradiction|reflexivity].
    + exact IH.
Qed.

Lemma mcast_walk_find (mcast_ipver : Z) (ai_list : list ai_item) :
  mcast_ipver <> -1 ->
  return_ip_ver_mcast_walk mcast_ipver ai_list =
    match find (other_family mcast_ipver) ai_list with
    | Some bad => Exit 1 (mcast_host_diag mcast_ipver bad)
    | None => Ret tt
    end.
Proof.
  intros Hipv. induction ai_list as [|aip rest IH]; simpl; [reflexivity|].
  unfold other_family at 1. fold (deep_ipv aip).
  destruct (Z.eqb_spec (deep_ipv aip) (-1)) as [E1|E1].
  - rewrite E1. destruct (Z.eqb_spec (-1) mcast_ipver); [congruence|]. simpl.
    unfold mcast_host_diag. rewrite E1. reflexivity.
  - destruct (negb (deep_ipv aip =? 0) && negb (deep_ipv aip =? mcast_ipver)) eqn:E2.
    + unfold mcast_host_diag.
      destruct (Z.eqb_spec (deep_ipv aip) (-1)); [contradiction|reflexivity].
    + exact IH.
Qed.

(** What the two host walks compute together. *)
Lemma return_ip_ver_hosts_spec (ai_list : list ai_item) :
  match find single_family ai_list with
  | None => return_ip_ver_hosts ai_list = Ret 0
  | Some first =>
      deep_ipv first <> -1 ->
      return_ip_ver_hosts ai_list =
        match find (other_family (deep_ipv first)) ai_list with
        | Some bad => Exit 1 (host_diag (deep_ipv first) bad)
        | None => Ret (deep_ipv first)
        end
  end.
Proof.
  unfold return_ip_ver_hosts.
  destruct (find single_family ai_list) as [first|] eqn:Hfind.
  - intros Hfam. rewrite (first_walk_some _ _ 0 Hfind).
    destruct (Z.eqb_spec (deep_ipv first) (-1)); [contradiction|]. simpl.
    assert (Hnz : deep_ipv first <> 0).
    { apply find_some in Hfind as [_ H]. unfold single_family in H.
      destruct (Z.eqb_spec (deep_ipv first) 0); [discriminate|assumption]. }
    destruct (Z.eqb_spec (deep_ipv first) 0); [contradiction|].
    rewrite second_walk_find by assumption.
    destruct (find (other_family (deep_ipv first)) ai_list); reflexivity.
  - rewrite first_walk_none by assumption. reflexivity.
Qed.

Lemma return_ip_ver_no_constraint (mcast_addr : option string) (port : string)
    (ai_list : list ai_item) :
  no_mcast_constraint mcast_addr port ->
  return_ip_ver 0 mcast_addr port ai_list = return_ip_ver_hosts ai_list.
Proof.
  unfold no_mcast_constraint, return_ip_ver. simpl.
  destruct mcast_addr as [m|]; [|reflexivity].
  intros (ai_res & -> & Hdeep). simpl. rewrite Hdeep. reflexivity.
Qed.

(** C1. With no forced family and no single-family multicast constraint,
    [return_ip_ver] returns 0 when no target has a non-zero deep-supported
    family (every target deep-supports both). Otherwise the pivot is the
    deep-supported family of the first target whose family is non-zero;
    provided the pivot is a family (4 or 6), the function exits with
    status 1 and a diagnostic naming the first target whose non-zero
    family differs from the pivot, and returns the pivot when there is no
    such target. *)
Theorem return_ip_ver_hosts_pivot (mcast_addr : option string) (port : string)
    (ai_list : list ai_item) :
  no_mcast_constraint mcast_addr port ->
  match find single_family ai_list with
  | None => return_ip_ver 0 mcast_addr port ai_list = Ret 0
  | Some first =>
      let pivot := deep_ipv first in
      pivot = 4 \/ pivot = 6 ->
      match find (other_family pivot) ai_list with
      | Some bad =>
          return_ip_ver 0 mcast_addr port ai_list = Exit 1 (host_diag pivot bad)
          /\ diag_names (host_diag pivot bad) = Some (host_name bad)
      | None => return_ip_ver 0 mcast_addr port ai_list = Ret pivot
      end
  end.
Proof.
  intros Hno. rewrite (return_ip_ver_no_constraint _ _ _ Hno).
  pose proof (return_ip_ver_hosts_spec ai_list) as H.
  destruct (find single_family ai_list) as [first|]; [|exact H].
  intros pivot Hpivot.
  assert (Hfam : deep_ipv first <> -1) by (subst pivot; lia).
  specialize (H Hfam). subst pivot.
  destruct (find (other_family (deep_ipv first)) ai_list) as [bad|]; [|exact H].
  split; [exact H|apply host_diag_names].
Qed.

(** C2. With no forced family and a multicast label that resolves: if the
    label deep-supports neither family the function exits with status 1
    naming the multicast address; if it deep-supports exactly one family
    (4 or 6) the function exits with status 1 naming the first target
    whose deep-supported family is non-zero and differs from the multicast
    family, and returns the multicast family when there is no such
    target. *)
Theorem return_ip_ver_mcast_family (m port : string) (ai_res : list addrinfo)
    (ai_list : list ai_item) :
  af_host_to_ai m port 0 = Ret ai_res ->
  let mcast_ipver := af_ai_deep_supported_ipv ai_res in
  (mcast_ipver = -1 ->
     return_ip_ver 0 (Some m) port ai_list = Exit 1 (D_mcast_no_ipver m)
     /\ diag_names (D_mcast_no_ipver m) = Some m)
  /\ (mcast_ipver = 4 \/ mcast_ipver = 6 ->
      match find (other_family mcast_ipver) ai_list with
      | Some bad =>
          return_ip_ver 0 (Some m) port ai_list
            = Exit 1 (mcast_host_diag mcast_ipver bad)
          /\ diag_names (mcast_host_diag mcast_ipver bad) = Some (host_name bad)
      | None => return_ip_ver 0 (Some m) port ai_list = Ret mcast_ipver
      end).
Proof.
  intros Hres mcast_ipver. unfold return_ip_ver. simpl. rewrite Hres. simpl.
  fold mcast_ipver. split.
  - intros ->. split; reflexivity.
  - intros Hfam.
    destruct (Z.eqb_spec mcast_ipver (-1)); [lia|].
    destruct (Z.eqb_spec mcast_ipver 0); [lia|]. simpl.
    rewrite mcast_walk_find by assumption.
    destruct (find (other_family mcast_ipver) ai_list) as [bad|]; simpl.
    + split; [reflexivity|apply mcast_host_diag_names].
    + reflexivity.
Qed.

(** C3. When the user forced a family (4 or 6), [return_ip_ver] returns
    it, whatever the resolver would answer for the multicast label and
    whatever the targets support. *)
Theorem return_ip_ver_forced (ip_ver : Z) (mcast_addr : option string)
    (port : string) (ai_list : list ai_item) :
  ip_ver = 4 \/ ip_ver = 6 ->
  return_ip_ver ip_ver mcast_addr port ai_list = Ret ip_ver.
Proof.
  intros H. unfold return_ip_ver.
  destruct (Z.eqb_spec ip_ver 0); [lia|reflexivity].
Qed.

(** ** Properties of conv_list_addrs *)

Lemma first_ai_of_ipv_some (chain : list addrinfo) (ip_ver : Z) (ai_i : addrinfo) :
  first_ai_of_ipv chain ip_ver = Some ai_i ->
  In ai_i chain /\ af_ai_supported_ipv ai_i = ip_ver.
Proof.
  induction chain as [|a chain IH]; simpl; [discriminate|].
  destruct (Z.eqb_spec (af_ai_supported_ipv a) ip_ver) as [E|E].
  - intros [= <-]. auto.
  - intros H. destruct (IH H). auto.
Qed.

Lemma first_ai_of_ipv_none (chain : list addrinfo) (ip_ver : Z) :
  first_ai_of_ipv chain ip_ver = None <->
  Forall (fun ai_i => af_ai_supported_ipv ai_i <> ip_ver) chain.
Proof.
  induction chain as [|a chain IH]; simpl.
  - split; [constructor|reflexivity].
  - destruct (Z.eqb_spec (af_ai_supported_ipv a) ip_ver) as [E|E].
    + split; [discriminate|]. intros H. apply Forall_cons in H as [H _]. contradiction.
    + rewrite IH. rewrite Forall_cons. tauto.
Qed.

(** A target with a candidate of the family gets its address, and its
    chain is released. *)
Lemma conv_list_addrs_item_match (ip_ver : Z) (aip : ai_item) (ai_i : addrinfo) :
  first_ai_of_ipv (ai aip) ip_ver = Some ai_i ->
  conv_list_addrs_item ip_ver aip
    = {| ai := []; sas := ai_addr ai_i; host_name := host_name aip |}.
Proof. unfold conv_list_addrs_item. intros ->. reflexivity. Qed.

(** A target without a candidate of the family stays as it was: the
    candidates are kept and [sas] is not written. *)
Lemma conv_list_addrs_item_no_match (ip_ver : Z) (aip : ai_item) :
  Forall (fun ai_i => af_ai_supported_ipv ai_i <> ip_ver) (ai aip) ->
  conv_list_addrs_item ip_ver aip = aip.
Proof.
  intros H. apply first_ai_of_ipv_none in H.
  unfold conv_list_addrs_item. rewrite H. reflexivity.
Qed.

Lemma conv_list_addrs_length (ai_list : list ai_item) (ip_ver : Z) :
  length (conv_list_addrs ai_list ip_ver) = length ai_list.
Proof. apply length_map. Qed.

Lemma conv_list_addrs_item_host_name (ip_ver : Z) (aip : ai_item) :
  host_name (conv_list_addrs_item ip_ver aip) = host_name aip.
Proof.
  unfold conv_list_addrs_item.
  destruct (first_ai_of_ipv (ai aip) ip_ver); reflexivity.
Qed.

Lemma first_ai_of_ipv_exists (chain : list addrinfo) (ip_ver : Z) :
  existsb (fun ai_i => af_ai_supported_ipv ai_i =? ip_ver) chain = true ->
  exists ai_i, first_ai_of_ipv chain ip_ver = Some ai_i.
Proof.
  induction chain as [|a chain IH]; simpl; [discriminate|].
  destruct (af_ai_supported_ipv a =? ip_ver); simpl; eauto.
Qed.

(** A target that negotiation accepted for the family (it deep-supports 0
    or the family) has a candidate of the family, and gets its address. *)
Lemma conv_list_addrs_item_negotiated (ip_ver : Z) (aip : ai_item) :
  ip_ver = 4 \/ ip_ver = 6 ->
  deep_ipv aip = 0 \/ deep_ipv aip = ip_ver ->
  exists ai_i,
    In ai_i (ai aip) /\ af_ai_supported_ipv ai_i = ip_ver
    /\ conv_list_addrs_item ip_ver aip
       = {| ai := []; sas := ai_addr ai_i; host_name := host_name aip |}.
Proof.
  intros Hfam Hdeep.
  assert (Hex : existsb (fun ai_i => af_ai_supported_ipv ai_i =? ip_ver) (ai aip) = true).
  { unfold deep_ipv, af_ai_deep_supported_ipv in Hdeep.
    destruct (existsb (fun ai_i => af_ai_supported_ipv ai_i =? 4) (ai aip)) eqn:E4;
      destruct (existsb (fun ai_i => af_ai_supported_ipv ai_i =? 6) (ai aip)) eqn:E6;
      simpl in Hdeep; destruct Hfam as [-> | ->]; try assumption; lia. }
  destruct (first_ai_of_ipv_exists _ _ Hex) as (ai_i & Hfirst).
  exists ai_i. destruct (first_ai_of_ipv_some _ _ _ Hfirst) as [Hin Hipv].
  split; [assumption|]. split; [assumption|].
  apply conv_list_addrs_item_match. assumption.
Qed.


(** ** Properties of conv_params_mcast *)

(** C5. Without a label, [conv_params_mcast] takes [DEFAULT_MCAST4_ADDR]
    when the family is 4 and [DEFAULT_MCAST6_ADDR] when it is 6: it resolves
    that literal for the family, an exit of the resolver on it ends the
    function, and when the answer holds a candidate of the family whose
    address is multicast, the function returns that address under the
    default's label; all in all it goes on exactly as if the literal had been
    given. For every other family, 0 included, it exits with status 1 and
    the internal-error message. The two defaults being distinct, so are the
    labels of the two families. *)
Theorem conv_params_mcast_default (port_s : string) :
  (forall ip_ver label,
     ip_ver = 4 /\ label = DEFAULT_MCAST4_ADDR
       \/ ip_ver = 6 /\ label = DEFAULT_MCAST6_ADDR ->
     (* the default is what is resolved, and what is returned *)
     conv_params_mcast ip_ver None port_s =
       (ai_res <- af_host_to_ai label port_s ip_ver ;;
        match first_ai_of_ipv ai_res ip_ver with
        | None => Exit 1 D_internal
        | Some ai_i =>
            if af_is_sa_mcast (ai_addr ai_i)
            then Ret {| ai := []; sas := ai_addr ai_i; host_name := label |}
            else Exit 1 (D_not_mcast label)
        end)
     /\ (forall ai_res ai_i,
           af_host_to_ai label port_s ip_ver = Ret ai_res ->
           first_ai_of_ipv ai_res ip_ver = Some ai_i ->
           af_is_sa_mcast (ai_addr ai_i) = true ->
           conv_params_mcast ip_ver None port_s
             = Ret {| ai := []; sas := ai_addr ai_i; host_name := label |})
     /\ (forall status d,
           af_host_to_ai label port_s ip_ver = Exit status d ->
           conv_params_mcast ip_ver None port_s = Exit status d))
  /\ (conv_params_mcast 4 None port_s
       = conv_params_mcast 4 (Some DEFAULT_MCAST4_ADDR) port_s
     /\ forall r, conv_params_mcast 4 None port_s = Ret r ->
                  host_name r = DEFAULT_MCAST4_ADDR)
  /\ (conv_params_mcast 6 None port_s
       = conv_params_mcast 6 (Some DEFAULT_MCAST6_ADDR) port_s
     /\ forall r, conv_params_mcast 6 None port_s = Ret r ->
                  host_name r = DEFAULT_MCAST6_ADDR)
  /\ (forall ip_ver, ip_ver <> 4 -> ip_ver <> 6 ->
       conv_params_mcast ip_ver None port_s = Exit 1 D_internal)
  /\ (DEFAULT_MCAST4_ADDR <> DEFAULT_MCAST6_ADDR ->
     forall r4 r6,
       conv_params_mcast 4 None port_s = Ret r4 ->
       conv_params_mcast 6 None port_s = Ret r6 ->
       host_name r4 <> host_name r6).
Proof.
  assert (Hrun : forall ip_ver label,
    ip_ver = 4 /\ label = DEFAULT_MCAST4_ADDR
      \/ ip_ver = 6 /\ label = DEFAULT_MCAST6_ADDR ->
    conv_params_mcast ip_ver None port_s =
      (ai_res <- af_host_to_ai label port_s ip_ver ;;
       match first_ai_of_ipv ai_res ip_ver with
       | None => Exit 1 D_internal
       | Some ai_i =>
           if af_is_sa_mcast (ai_addr ai_i)
           then Ret {| ai := []; sas := ai_addr ai_i; host_name := label |}
           else Exit 1 (D_not_mcast label)
       end)).
  { intros ip_ver label [[-> ->]|[-> ->]]; unfold conv_params_mcast; simpl.
    - destruct (af_host_to_ai DEFAULT_MCAST4_ADDR port_s 4) as [ai_res| |];
        simpl; try reflexivity.
      destruct (first_ai_of_ipv ai_res 4) as [ai_i|]; [|reflexivity].
      destruct (af_is_sa_mcast (ai_addr ai_i)); reflexivity.
    - destruct (af_host_to_ai DEFAULT_MCAST6_ADDR port_s 6) as [ai_res| |];
        simpl; try reflexivity.
      destruct (first_ai_of_ipv ai_res 6) as [ai_i|]; [|reflexivity].
      destruct (af_is_sa_mcast (ai_addr ai_i)); reflexivity. }
  assert (Hname : forall ip_ver label r,
    conv_params_mcast ip_ver (Some label) port_s = Ret r -> host_name r = label).
  { intros ip_ver label r. unfold conv_params_mcast. simpl.
    destruct (af_host_to_ai label port_s ip_ver) as [ai_res| |]; simpl; try discriminate.
    destruct (first_ai_of_ipv ai_res ip_ver) as [ai_i|]; try discriminate.
    destruct (af_is_sa_mcast (ai_addr ai_i)); simpl; try discriminate.
    intros [= <-]. reflexivity. }
  assert (H4 : conv_params_mcast 4 None port_s
               = conv_params_mcast 4 (Some DEFAULT_MCAST4_ADDR) port_s) by reflexivity.
  assert (H6 : conv_params_mcast 6 None port_s
               = conv_params_mcast 6 (Some DEFAULT_MCAST6_ADDR) port_s) by reflexivity.
  split; [|split; [|split; [|split]]].
  - intros ip_ver label Hdefault. split; [exact (Hrun _ _ Hdefault)|]. split.
    + intros ai_res ai_i Hres Hfirst Hmcast.
      rewrite (Hrun _ _ Hdefault), Hres. simpl. rewrite Hfirst, Hmcast. reflexivity.
    + intros status d Hres. rewrite (Hrun _ _ Hdefault), Hres. reflexivity.
  - split; [exact H4|]. intros r. rewrite H4. apply Hname.
  - split; [exact H6|]. intros r. rewrite H6. apply Hname.
  - intros ip_ver Hn4 Hn6. unfold conv_params_mcast. simpl.
    destruct (Z.eqb_spec ip_ver 4); [contradiction|].
    destruct (Z.eqb_spec ip_ver 6); [contradiction|]. reflexivity.
  - intros Hne r4 r6. rewrite H4, H6. intros E4 E6.
    rewrite (Hname _ _ _ E4), (Hname _ _ _ E6). exact Hne.
Qed.

(** C9. Once [conv_params_mcast] has a label and the resolver's answer
    holds a candidate of the family [ip_ver], the address of the first such
    candidate is tested: if it is not multicast the function exits with
    status 1 and the diagnostic naming the label, for every [ip_ver];
    otherwise it returns that address. Whatever it returns is a multicast
    address. *)
Theorem conv_params_mcast_validates (ip_ver : Z) (mcast_addr_s : option string)
    (port_s : string) :
  (forall label ai_res ai_i,
     conv_params_mcast_label ip_ver mcast_addr_s = Ret label ->
     af_host_to_ai label port_s ip_ver = Ret ai_res ->
     first_ai_of_ipv ai_res ip_ver = Some ai_i ->
     (af_is_sa_mcast (ai_addr ai_i) = false ->
        conv_params_mcast ip_ver mcast_addr_s port_s = Exit 1 (D_not_mcast label)
        /\ diag_names (D_not_mcast label) = Some label)
     /\ (af_is_sa_mcast (ai_addr ai_i) = true ->
        conv_params_mcast ip_ver mcast_addr_s port_s
          = Ret {| ai := []; sas := ai_addr ai_i; host_name := label |}))
  /\ (forall r, conv_params_mcast ip_ver mcast_addr_s port_s = Ret r ->
                af_is_sa_mcast (sas r) = true).
Proof.
  split.
  - intros label ai_res ai_i Hlabel Hres Hfirst. unfold conv_params_mcast.
    rewrite Hlabel. simpl. rewrite Hres. simpl. rewrite Hfirst.
    split; intros ->; simpl; auto.
  - intros r. unfold conv_params_mcast.
    destruct (conv_params_mcast_label ip_ver mcast_addr_s) as [label| |];
      simpl; try discriminate.
    destruct (af_host_to_ai label port_s ip_ver) as [ai_res| |];
      simpl; try discriminate.
    destruct (first_ai_of_ipv ai_res ip_ver) as [ai_i|]; try discriminate.
    destruct (af_is_sa_mcast (ai_addr ai_i)) eqn:E; simpl; try discriminate.
    intros [= <-]. exact E.
Qed.

(** ** Properties of conv_local_addr *)

(** C6. With an interface of family [AF_INET] or [AF_INET6] and
    [ai_local] pointing at a member of the queue: if the queue has exactly
    one entry, [*single_addr] is set and the queue is left as it is; if it
    has more than one, [*single_addr] is 0 and the queue is left with the
    entries before and after [ai_local], in order, one fewer than before. *)
Theorem conv_local_addr_single_or_removed (ai_list : list ai_item) (ai_local : nat)
    (ifa_local : ifaddrs) (ip_ver : Z) (ai_local_item : ai_item) :
  ss_family (ifa_addr ifa_local) = AF_INET
    \/ ss_family (ifa_addr ifa_local) = AF_INET6 ->
  ai_list !! ai_local = Some ai_local_item ->
  let local_addr :=
    {| ai := [];
       sas := {| ss_family := ss_family (ifa_addr ifa_local);
                 ss_port := ss_port (sas ai_local_item);
                 ss_addr := ss_addr (ifa_addr ifa_local) |};
       host_name := host_name ai_local_item |} in
  (length ai_list = 1%nat ->
     conv_local_addr ai_list ai_local ifa_local ip_ver
       = Ret (ai_list, local_addr, 1)
     /\ ai_list = [ai_local_item])
  /\ ((1 < length ai_list)%nat ->
     conv_local_addr ai_list ai_local ifa_local ip_ver
       = Ret (take ai_local ai_list ++ drop (S ai_local) ai_list, local_addr, 0)
     /\ length (take ai_local ai_list ++ drop (S ai_local) ai_list)
        = (length ai_list - 1)%nat).
Proof.
  intros Hfam Hlookup local_addr. unfold conv_local_addr.
  assert (Hcheck : (ss_family (ifa_addr ifa_local) =? AF_INET)
                   || (ss_family (ifa_addr ifa_local) =? AF_INET6) = true).
  { destruct Hfam as [-> | ->]; reflexivity. }
  rewrite Hcheck, Hlookup. fold local_addr.
  destruct ai_list as [|first next]; [discriminate|].
  split.
  - intros Hlen. destruct next; [|discriminate]. simpl.
    split; [reflexivity|].
    apply list_lookup_singleton_Some in Hlookup as [_ ->]. reflexivity.
  - intros Hlen. destruct next as [|second next]; [simpl in Hlen; lia|].
    cbn [Z.eqb]. rewrite <- delete_take_drop. split; [reflexivity|].
    apply length_delete. eauto.
Qed.

(** ** Properties of parse_remote_addrs *)

Lemma share_address_sym (c1 c2 : list addrinfo) :
  share_address c1 c2 -> share_address c2 c1.
Proof. intros (x & y & Hx & Hy & E). exists y, x. auto. Qed.

Lemma af_ai_deep_eq_share (c1 c2 : list addrinfo) :
  af_ai_deep_eq c1 c2 = true <-> share_address c1 c2.
Proof.
  unfold af_ai_deep_eq, share_address. rewrite existsb_exists. split.
  - intros (x & Hx & H). apply existsb_exists in H as (y & Hy & H).
    apply bool_decide_eq_true in H. eauto.
  - intros (x & y & Hx & Hy & E). exists x. split; [assumption|].
    apply existsb_exists. exists y. split; [assumption|].
    apply bool_decide_eq_true. exact E.
Qed.

Lemma af_is_ai_in_list_true (a1 : list addrinfo) (ai_list : list ai_item) :
  af_is_ai_in_list a1 ai_list = true <->
  exists t, In t ai_list /\ share_address a1 (ai t).
Proof.
  unfold af_is_ai_in_list. rewrite existsb_exists.
  split; intros (t & Ht & H); exists t; split; try assumption;
    apply af_ai_deep_eq_share; assumption.
Qed.

Lemma af_is_ai_in_list_false (a1 : list addrinfo) (ai_list : list ai_item) :
  af_is_ai_in_list a1 ai_list = false <->
  forall t, In t ai_list -> ~ share_address a1 (ai t).
Proof.
  rewrite <- not_true_iff_false, af_is_ai_in_list_true. split.
  - intros H t Ht Hs. apply H. eauto.
  - intros H (t & Ht & Hs). exact (H t Ht Hs).
Qed.

(** Labels play no part in the test. *)
Lemma af_is_ai_in_list_labels (a1 : list addrinfo) (l1 l2 : list ai_item) :
  map ai l1 = map ai l2 -> af_is_ai_in_list a1 l1 = af_is_ai_in_list a1 l2.
Proof.
  revert l2. induction l1 as [|t l1 IH]; intros [|u l2]; simpl; try discriminate.
  - reflexivity.
  - intros [= -> H]. rewrite (IH _ H). reflexivity.
Qed.

Lemma distinct_targets_nil : distinct_targets [].
Proof. intros i j t u _ H. discriminate. Qed.

Lemma distinct_targets_snoc (ai_list : list ai_item) (u : ai_item) :
  distinct_targets ai_list ->
  af_is_ai_in_list (ai u) ai_list = false ->
  distinct_targets (ai_list ++ [u]).
Proof.
  intros Hd Hnot i j t v Hij Hi Hj.
  apply lookup_snoc_Some in Hj as [[Hlt Hj]|[-> <-]].
  - rewrite lookup_app_l in Hi by lia. exact (Hd i j t v Hij Hi Hj).
  - rewrite lookup_app_l in Hi by lia.
    intros Hs. apply share_address_sym in Hs.
    rewrite af_is_ai_in_list_false in Hnot.
    apply (Hnot t); [|assumption].
    apply list_elem_of_In. eapply list_elem_of_lookup_2. exact Hi.
Qed.

(** The loop over a concatenation: the second part goes on from where
    the first part left the queue and the counter. *)
Lemma parse_remote_addrs_loop_app (before after : list string) (port : string)
    (ip_ver : Z) (ai_list : list ai_item) (no_ai : Z) :
  parse_remote_addrs_loop (before ++ after) port ip_ver ai_list no_ai =
    (r <- parse_remote_addrs_loop before port ip_ver ai_list no_ai ;;
     parse_remote_addrs_loop after port ip_ver (fst r) (snd r)).
Proof.
  revert ai_list no_ai. induction before as [|arg before IH]; intros ai_list no_ai.
  - reflexivity.
  - simpl. destruct (af_host_to_ai arg port ip_ver) as [ai_res| |]; simpl;
      try reflexivity.
    destruct (af_is_ai_in_list ai_res ai_list); simpl; [apply IH|].
    destruct (af_ai_deep_is_loopback ai_res); [reflexivity|apply IH].
Qed.

(** What the loop has done when it comes to its end. *)
Lemma parse_remote_addrs_loop_inv (argv : list string) (port : string) (ip_ver : Z) :
  forall (ai_list : list ai_item) (no_ai : Z) (ai_list' : list ai_item) (no_ai' : Z),
    parse_remote_addrs_loop argv port ip_ver ai_list no_ai = Ret (ai_list', no_ai') ->
    exists added,
      ai_list' = ai_list ++ added
      /\ no_ai' = no_ai + Z.of_nat (length added)
      /\ map host_name added `sublist_of` argv
      /\ Forall (fun aip => af_host_to_ai (host_name aip) port ip_ver = Ret (ai aip)
                            /\ sas aip = sas_zero
                            /\ af_ai_deep_is_loopback (ai aip) = false) added
      /\ (distinct_targets ai_list -> distinct_targets ai_list')
      /\ forall before arg after, argv = before ++ arg :: after ->
           exists ai_res, af_host_to_ai arg port ip_ver = Ret ai_res /\
             ((exists kept_before kept_after,
                 added = kept_before ++ mk_target arg ai_res :: kept_after
                 /\ map host_name kept_before `sublist_of` before
                 /\ map host_name kept_after `sublist_of` after)
              \/ (exists t, In t ai_list' /\ (In t ai_list \/ In (host_name t) before)
                            /\ share_address ai_res (ai t))).
Proof.
  induction argv as [|arg0 argv IH]; intros ai_list no_ai ai_list' no_ai'; simpl.
  - intros [= <- <-]. exists []. rewrite app_nil_r. simpl.
    split; [reflexivity|]. split; [lia|]. split; [apply sublist_nil|].
    split; [apply Forall_nil_2|]. split; [auto|].
    intros [|? ?] ? ? H; discriminate.
  - destruct (af_host_to_ai arg0 port ip_ver) as [ai_res0| |] eqn:Hres0; simpl;
      try discriminate.
    destruct (af_is_ai_in_list ai_res0 ai_list) eqn:Hin; simpl.
    + (* duplicate: discarded *)
      intros Hloop.
      destruct (IH _ _ _ _ Hloop) as (added & -> & -> & Hsub & Hall & Hd & Hcov).
      exists added. repeat split; try assumption.
      { apply sublist_cons. assumption. }
      intros before arg after Hsplit. destruct before as [|b before]; simpl in Hsplit.
      * injection Hsplit as <- <-. exists ai_res0. split; [assumption|]. right.
        apply af_is_ai_in_list_true in Hin as (t & Ht & Hs).
        exists t. split; [apply in_or_app; auto|]. auto.
      * injection Hsplit as <- ->.
        destruct (Hcov _ _ _ eq_refl) as (ai_res & Hres & [Hkept|Hdup]).
        -- exists ai_res. split; [assumption|]. left.
           destruct Hkept as (kb & ka & -> & Hkb & Hka).
           exists kb, ka. split; [reflexivity|]. split; [|assumption].
           apply sublist_cons. assumption.
        -- exists ai_res. split; [assumption|]. right.
           destruct Hdup as (t & Ht & Hwhere & Hs). exists t.
           split; [assumption|]. split; [|assumption].
           destruct Hwhere; [auto|right; right; assumption].
    + destruct (af_ai_deep_is_loopback ai_res0) eqn:Hlb; [discriminate|].
      (* new: appended at the tail *)
      intros Hloop.
      destruct (IH _ _ _ _ Hloop) as (added & -> & -> & Hsub & Hall & Hd & Hcov).
      exists (mk_target arg0 ai_res0 :: added).
      split; [rewrite <- app_assoc; reflexivity|].
      split; [simpl length; lia|].
      split; [simpl; apply sublist_skip; assumption|].
      split; [constructor; [simpl; auto|assumption]|].
      split.
      { intros Hdist. apply Hd. apply distinct_targets_snoc; assumption. }
      intros before arg after Hsplit. destruct before as [|b before]; simpl in Hsplit.
      * injection Hsplit as <- <-. exists ai_res0. split; [assumption|]. left.
        exists [], added. split; [reflexivity|]. split; [constructor|assumption].
      * injection Hsplit as <- ->.
        destruct (Hcov _ _ _ eq_refl) as (ai_res & Hres & [Hkept|Hdup]).
        -- exists ai_res. split; [assumption|]. left.
           destruct Hkept as (kb & ka & -> & Hkb & Hka).
           exists (mk_target arg0 ai_res0 :: kb), ka.
           split; [reflexivity|]. split; [|assumption].
           simpl. apply sublist_skip. assumption.
        -- exists ai_res. split; [assumption|]. right.
           destruct Hdup as (t & Ht & Hwhere & Hs). exists t.
           split; [assumption|]. split; [|assumption].
           destruct Hwhere as [Hwhere|Hwhere]; [|right; right; assumption].
           apply in_app_or in Hwhere as [Hwhere|[<-|[]]]; [auto|].
           right. left. reflexivity.
Qed.

(** A run over arguments that all share an address with the one target
    of the queue leaves the queue and the counter as they are. *)
Lemma parse_remote_addrs_loop_duplicates (argv : list string) (port : string)
    (ip_ver : Z) (t : ai_item) (no_ai : Z) :
  (forall arg, In arg argv ->
     exists ai_res, af_host_to_ai arg port ip_ver = Ret ai_res
                    /\ share_address ai_res (ai t)) ->
  parse_remote_addrs_loop argv port ip_ver [t] no_ai = Ret ([t], no_ai).
Proof.
  induction argv as [|arg argv IH]; intros Hall; [reflexivity|].
  destruct (Hall arg) as (ai_res & Hres & Hs); [left; reflexivity|].
  assert (Hin : af_is_ai_in_list ai_res [t] = true).
  { apply af_is_ai_in_list_true. exists t. split; [left; reflexivity|assumption]. }
  cbn [parse_remote_addrs_loop]. rewrite Hres. cbn [bind]. rewrite Hin. cbn [negb].
  apply IH. intros a Ha. apply Hall. right. assumption.
Qed.

(** The first argument is never a duplicate: the queue is empty. *)
Lemma parse_remote_addrs_loop_first (arg : string) (argv : list string)
    (port : string) (ip_ver : Z) :
  parse_remote_addrs_loop (arg :: argv) port ip_ver [] 0 =
    (ai_res <- af_host_to_ai arg port ip_ver ;;
     if af_ai_deep_is_loopback ai_res then Exit 1 (D_loopback arg)
     else parse_remote_addrs_loop argv port ip_ver [mk_target arg ai_res] 1).
Proof. reflexivity. Qed.

(** C7. When [parse_remote_addrs] returns, the count it returns is the
    size of the list; the labels of the list are a subsequence of the
    arguments, in argument order; every target holds the resolver's
    candidates for its label; no two targets have a concrete address in
    common; and every argument either is a target, standing between the
    targets kept from the arguments before it and those kept from the
    arguments after it, or was discarded because its candidates share an
    address with a target kept from an earlier argument. Hence two labels
    whose candidate sets share a concrete address give a list of size 1,
    holding the first. *)
Theorem parse_remote_addrs_dedup (argv : list string) (port : string) (ip_ver : Z) :
  (forall ai_list no_ai,
     parse_remote_addrs argv port ip_ver [] = Ret (ai_list, no_ai) ->
     no_ai = Z.of_nat (length ai_list)
     /\ map host_name ai_list `sublist_of` argv
     /\ Forall (fun aip => af_host_to_ai (host_name aip) port ip_ver = Ret (ai aip))
               ai_list
     /\ distinct_targets ai_list
     /\ forall before arg after, argv = before ++ arg :: after ->
          exists ai_res, af_host_to_ai arg port ip_ver = Ret ai_res /\
            ((exists kept_before kept_after,
                ai_list = kept_before ++ mk_target arg ai_res :: kept_after
                /\ map host_name kept_before `sublist_of` before
                /\ map host_name kept_after `sublist_of` after)
             \/ (exists t, In t ai_list /\ In (host_name t) before
                           /\ share_address ai_res (ai t))))
  /\ (forall a b ca cb,
       af_host_to_ai a port ip_ver = Ret ca ->
       af_host_to_ai b port ip_ver = Ret cb ->
       share_address cb ca ->
       af_ai_deep_is_loopback ca = false ->
       parse_remote_addrs [a; b] port ip_ver [] = Ret ([mk_target a ca], 1)
       /\ length [mk_target a ca] = 1%nat).
Proof.
  clear af_find_local_ai af_is_sa_mcast DEFAULT_MCAST4_ADDR DEFAULT_MCAST6_ADDR.
  split.
  - intros ai_list no_ai. unfold parse_remote_addrs.
    destruct (parse_remote_addrs_loop argv port ip_ver [] 0) as [[l n]| |] eqn:Hloop;
      simpl; try discriminate.
    destruct (n <? 1); [discriminate|]. intros [= <- <-].
    destruct (parse_remote_addrs_loop_inv _ _ _ _ _ _ _ Hloop)
      as (added & Hl & Hn & Hsub & Hall & Hd & Hcov).
    simpl in Hl. subst l.
    split; [lia|]. split; [assumption|].
    split; [eapply Forall_impl; [exact Hall|]; simpl; tauto|].
    split; [apply Hd, distinct_targets_nil|].
    intros before arg after Hsplit.
    destruct (Hcov _ _ _ Hsplit) as (ai_res & Hres & [Hkept|Hdup]);
      exists ai_res; (split; [assumption|]); [left; assumption|right].
    destruct Hdup as (t & Ht & [[]|Hwhere] & Hs).
    exists t. split; [assumption|]. split; assumption.
  - intros a b ca cb Ha Hb Hs Hlb. split; [|reflexivity].
    unfold parse_remote_addrs. rewrite parse_remote_addrs_loop_first.
    rewrite Ha. cbn [bind]. rewrite Hlb.
    rewrite parse_remote_addrs_loop_duplicates; [reflexivity|].
    intros arg [<-|[]]. exists cb. split; assumption.
Qed.

(** C8. When the loop has gone through the arguments before [arg] and
    [arg] resolves to a candidate set that is not in the list and is
    loopback, [parse_remote_addrs] exits with status 1 and the loopback
    diagnostic naming [arg], and so does [cli_parse], whatever the
    multicast label is and whatever the resolver answers for it: the exit
    comes before [return_ip_ver] is called. *)
Theorem parse_remote_addrs_loopback (before : list string) (arg : string)
    (after : list string) (port : string) (ip_ver : Z)
    (mcast_addr_s : option string) (ai_list : list ai_item) (no_ai : Z)
    (ai_res : list addrinfo) :
  parse_remote_addrs_loop before port ip_ver [] 0 = Ret (ai_list, no_ai) ->
  af_host_to_ai arg port ip_ver = Ret ai_res ->
  af_is_ai_in_list ai_res ai_list = false ->
  af_ai_deep_is_loopback ai_res = true ->
  parse_remote_addrs (before ++ arg :: after) port ip_ver [] = Exit 1 (D_loopback arg)
  /\ cli_parse (before ++ arg :: after) ip_ver mcast_addr_s port
     = Exit 1 (D_loopback arg)
  /\ diag_names (D_loopback arg) = Some arg.
Proof.
  intros Hloop Hres Hnot Hlb.
  assert (H : parse_remote_addrs (before ++ arg :: after) port ip_ver []
              = Exit 1 (D_loopback arg)).
  { unfold parse_remote_addrs. rewrite parse_remote_addrs_loop_app, Hloop.
    simpl. rewrite Hres. simpl. rewrite Hnot, Hlb. reflexivity. }
  split; [exact H|]. split; [|reflexivity].
  unfold cli_parse. rewrite H. reflexivity.
Qed.

(** ** The single-address flag *)

Lemma parse_remote_addrs_one (arg : string) (port : string) (ip_ver : Z)
    (ai_list : list ai_item) (no_ai : Z) :
  parse_remote_addrs [arg] port ip_ver [] = Ret (ai_list, no_ai) ->
  exists ai_res, af_host_to_ai arg port ip_ver = Ret ai_res
                 /\ ai_list = [mk_target arg ai_res] /\ no_ai = 1.
Proof.
  unfold parse_remote_addrs. rewrite parse_remote_addrs_loop_first.
  destruct (af_host_to_ai arg port ip_ver) as [ai_res| |]; simpl; try discriminate.
  destruct (af_ai_deep_is_loopback ai_res); simpl; [discriminate|].
  intros [= <- <-]. eauto.
Qed.

Lemma conv_local_addr_one (t : ai_item) (ai_local : nat) (ifa_local : ifaddrs)
    (ip_ver : Z) (ai_list : list ai_item) (local_addr : ai_item) (single_addr : Z) :
  conv_local_addr [t] ai_local ifa_local ip_ver = Ret (ai_list, local_addr, single_addr) ->
  ai_list = [t] /\ single_addr = 1.
Proof.
  unfold conv_local_addr.
  destruct ((ss_family (ifa_addr ifa_local) =? AF_INET)
            || (ss_family (ifa_addr ifa_local) =? AF_INET6)); [|discriminate].
  destruct ([t] !! ai_local); [|discriminate]. simpl.
  intros [= <- _ <-]. auto.
Qed.

(** C10. When every argument resolves to a candidate set holding one same
    concrete address [x], [parse_remote_addrs] leaves the queue it leaves
    for the first argument alone, [cli_parse] ends as it does for the first
    argument alone, and whenever it returns, [*single_addr] is 1 and the
    list holds the one entry, labelled with the first argument. *)
Theorem single_addr_after_dedup (arg : string) (argv : list string)
    (port_s : string) (ip_ver : Z) (mcast_addr_s : option string)
    (x : sockaddr_storage) :
  (forall a, In a (arg :: argv) ->
     exists ai_res, af_host_to_ai a port_s ip_ver = Ret ai_res
                    /\ In x (map ai_addr ai_res)) ->
  parse_remote_addrs (arg :: argv) port_s ip_ver []
    = parse_remote_addrs [arg] port_s ip_ver []
  /\ cli_parse (arg :: argv) ip_ver mcast_addr_s port_s
     = cli_parse [arg] ip_ver mcast_addr_s port_s
  /\ forall r, cli_parse (arg :: argv) ip_ver mcast_addr_s port_s = Ret r ->
       r_single_addr r = 1
       /\ length (r_ai_list r) = 1%nat
       /\ map host_name (r_ai_list r) = [arg].
Proof.
  intros Hall.
  assert (Hparse : parse_remote_addrs (arg :: argv) port_s ip_ver []
                   = parse_remote_addrs [arg] port_s ip_ver []).
  { unfold parse_remote_addrs. rewrite !parse_remote_addrs_loop_first.
    destruct (Hall arg) as (ai_res & -> & Hx); [left; reflexivity|]. cbn [bind].
    destruct (af_ai_deep_is_loopback ai_res); [reflexivity|].
    rewrite parse_remote_addrs_loop_duplicates; [reflexivity|].
    intros a Ha. destruct (Hall a) as (ai_res' & Hres' & Hx'); [right; assumption|].
    exists ai_res'. split; [assumption|].
    apply in_map_iff in Hx as (y & <- & Hy).
    apply in_map_iff in Hx' as (y' & E & Hy').
    exists y', y. auto. }
  assert (Hcli : cli_parse (arg :: argv) ip_ver mcast_addr_s port_s
                 = cli_parse [arg] ip_ver mcast_addr_s port_s).
  { unfold cli_parse. rewrite Hparse. reflexivity. }
  split; [exact Hparse|]. split; [exact Hcli|].
  intros r. rewrite Hcli. unfold cli_parse.
  destruct (parse_remote_addrs [arg] port_s ip_ver []) as [[l n]| |] eqn:Hone;
    simpl; try discriminate.
  apply parse_remote_addrs_one in Hone as (ai_res & _ & -> & ->).
  destruct (return_ip_ver ip_ver mcast_addr_s port_s [mk_target arg ai_res])
    as [ipv| |]; simpl; try discriminate.
  destruct (af_find_local_ai [mk_target arg ai_res] ipv) as [[lm|]| |];
    simpl; try discriminate.
  destruct (conv_params_mcast (lm_ip_ver lm) mcast_addr_s port_s) as [mcast_addr| |];
    simpl; try discriminate.
  destruct (conv_port (sas mcast_addr)) as [port| |]; simpl; try discriminate.
  destruct (conv_local_addr _ (lm_ai_item lm) (lm_ifa_local lm) (lm_ip_ver lm))
    as [[[l la] single]| |] eqn:Hlocal; simpl; try discriminate.
  apply conv_local_addr_one in Hlocal as [-> ->].
  intros [= <-]. simpl. split; [reflexivity|]. split; [reflexivity|].
  rewrite conv_list_addrs_item_host_name. reflexivity.
Qed.

(** ** Further properties of the address part *)

(** *** parse_remote_addrs *)

(** X1. [parse_remote_addrs] never returns without a target: with no
    argument it exits with status 1 after the usage text; when it returns,
    the count is at least 1, the first argument is the first target, and no
    target of the list is loopback or has an address yet. *)
Theorem parse_remote_addrs_returns_targets (argv : list string) (port : string)
    (ip_ver : Z) :
  parse_remote_addrs [] port ip_ver [] = Exit 1 D_no_remote
  /\ forall ai_list no_ai,
       parse_remote_addrs argv port ip_ver [] = Ret (ai_list, no_ai) ->
       1 <= no_ai
       /\ (exists arg rest ai_res kept,
             argv = arg :: rest
             /\ af_host_to_ai arg port ip_ver = Ret ai_res
             /\ ai_list = mk_target arg ai_res :: kept)
       /\ Forall (fun aip => af_ai_deep_is_loopback (ai aip) = false
                             /\ sas aip = sas_zero) ai_list.
Proof.
  clear af_find_local_ai af_is_sa_mcast DEFAULT_MCAST4_ADDR DEFAULT_MCAST6_ADDR.
  split; [reflexivity|]. intros ai_list no_ai.
  destruct argv as [|arg rest]; [discriminate|].
  unfold parse_remote_addrs. rewrite parse_remote_addrs_loop_first.
  destruct (af_host_to_ai arg port ip_ver) as [ai_res| |] eqn:Hres; simpl;
    try discriminate.
  destruct (af_ai_deep_is_loopback ai_res) eqn:Hlb; simpl; [discriminate|].
  destruct (parse_remote_addrs_loop rest port ip_ver [mk_target arg ai_res] 1)
    as [[l n]| |] eqn:Hloop; simpl; try discriminate.
  destruct (n <? 1); [discriminate|]. intros [= <- <-].
  destruct (parse_remote_addrs_loop_inv _ _ _ _ _ _ _ Hloop)
    as (added & -> & -> & _ & Hall & _ & _).
  split; [lia|]. split.
  - exists arg, rest, ai_res, added. auto.
  - simpl. constructor; [auto|].
    eapply Forall_impl; [exact Hall|]. simpl. tauto.
Qed.

(** X2. An argument that the loop discards as a duplicate leaves no
    trace: the function ends as it does without that argument. *)
Theorem parse_remote_addrs_drop_duplicate (before : list string) (arg : string)
    (after : list string) (port : string) (ip_ver : Z) (ai_list : list ai_item)
    (no_ai : Z) (ai_res : list addrinfo) :
  parse_remote_addrs_loop before port ip_ver [] 0 = Ret (ai_list, no_ai) ->
  af_host_to_ai arg port ip_ver = Ret ai_res ->
  af_is_ai_in_list ai_res ai_list = true ->
  parse_remote_addrs (before ++ arg :: after) port ip_ver []
    = parse_remote_addrs (before ++ after) port ip_ver [].
Proof.
  intros Hloop Hres Hin. unfold parse_remote_addrs.
  rewrite !parse_remote_addrs_loop_app, Hloop. cbn [bind fst snd].
  cbn [parse_remote_addrs_loop]. rewrite Hres. cbn [bind]. rewrite Hin.
  reflexivity.
Qed.

Lemma parse_remote_addrs_loop_kept (port : string) (ip_ver : Z) :
  forall (kept ai_list : list ai_item) (no_ai : Z),
    distinct_targets (ai_list ++ kept) ->
    Forall (fun aip => af_host_to_ai (host_name aip) port ip_ver = Ret (ai aip)
                       /\ sas aip = sas_zero
                       /\ af_ai_deep_is_loopback (ai aip) = false) kept ->
    parse_remote_addrs_loop (map host_name kept) port ip_ver ai_list no_ai
      = Ret (ai_list ++ kept, no_ai + Z.of_nat (length kept)).
Proof.
  induction kept as [|t kept IH]; intros ai_list no_ai Hd Hall.
  - simpl. rewrite app_nil_r, Z.add_0_r. reflexivity.
  - apply Forall_cons in Hall as [(Hres & Hsas & Hlb) Hall].
    cbn [map parse_remote_addrs_loop]. rewrite Hres. cbn [bind].
    assert (Hnot : af_is_ai_in_list (ai t) ai_list = false).
    { apply af_is_ai_in_list_false. intros u Hu Hs.
      apply list_elem_of_In, list_elem_of_lookup_1 in Hu as [i Hi].
      apply (Hd i (length ai_list) u t).
      - apply lookup_lt_Some in Hi. exact Hi.
      - apply lookup_app_l_Some. exact Hi.
      - rewrite lookup_app_r by lia. rewrite Nat.sub_diag. reflexivity.
      - apply share_address_sym. exact Hs. }
    rewrite Hnot, Hlb. cbn [negb].
    assert (Ht : {| ai := ai t; sas := sas_zero; host_name := host_name t |} = t).
    { destruct t as [c a h]. simpl in Hsas. subst a. reflexivity. }
    rewrite Ht. rewrite IH.
    + rewrite <- app_assoc. simpl app. f_equal. f_equal.
      rewrite length_cons. lia.
    + rewrite <- app_assoc. exact Hd.
    + exact Hall.
Qed.

(** X3. The collector is idempotent: run again on the labels of the
    targets it kept, it returns the same list and the same count. *)
Theorem parse_remote_addrs_idempotent (argv : list string) (port : string)
    (ip_ver : Z) (ai_list : list ai_item) (no_ai : Z) :
  parse_remote_addrs argv port ip_ver [] = Ret (ai_list, no_ai) ->
  parse_remote_addrs (map host_name ai_list) port ip_ver [] = Ret (ai_list, no_ai).
Proof.
  clear af_find_local_ai af_is_sa_mcast DEFAULT_MCAST4_ADDR DEFAULT_MCAST6_ADDR.
  unfold parse_remote_addrs.
  destruct (parse_remote_addrs_loop argv port ip_ver [] 0) as [[l n]| |] eqn:Hloop;
    simpl; try discriminate.
  destruct (Z.ltb_spec n 1); [discriminate|]. intros [= <- <-].
  destruct (parse_remote_addrs_loop_inv _ _ _ _ _ _ _ Hloop)
    as (added & Hl & Hn & _ & Hall & Hd & _).
  simpl in Hl. subst l.
  rewrite (parse_remote_addrs_loop_kept port ip_ver added [] 0).
  - simpl. rewrite <- Hn. destruct (Z.ltb_spec n 1); [lia|reflexivity].
  - simpl. apply Hd, distinct_targets_nil.
  - exact Hall.
Qed.

(** *** return_ip_ver *)

(** When the two host walks return. *)
Lemma return_ip_ver_hosts_iff (ai_list : list ai_item) (v : Z) :
  return_ip_ver_hosts ai_list = Ret v <->
  (v = 0 /\ Forall (fun aip => deep_ipv aip = 0) ai_list)
  \/ (v <> 0 /\ v <> -1
      /\ Exists (fun aip => deep_ipv aip = v) ai_list
      /\ Forall (fun aip => deep_ipv aip = 0 \/ deep_ipv aip = v) ai_list).
Proof.
  clear af_host_to_ai af_ai_deep_is_loopback af_is_sa_mcast af_find_local_ai DEFAULT_MCAST4_ADDR DEFAULT_MCAST6_ADDR.
  pose proof (return_ip_ver_hosts_spec ai_list) as Hspec.
  destruct (find single_family ai_list) as [first|] eqn:Hfind.
  - destruct (find_first_split _ _ _ Hfind) as (before & after & Hsplit & _ & Hfirst).
    assert (Hin : In first ai_list) by (rewrite Hsplit; apply in_elt).
    assert (Hnz : deep_ipv first <> 0).
    { unfold single_family in Hfirst.
      destruct (Z.eqb_spec (deep_ipv first) 0); [discriminate|assumption]. }
    assert (Hpin : forall w, Forall (fun aip => deep_ipv aip = 0 \/ deep_ipv aip = w)
                               ai_list -> deep_ipv first = w).
    { intros w Hall. rewrite Forall_forall in Hall.
      destruct (Hall first) as [E|E]; [apply list_elem_of_In; exact Hin| |exact E].
      contradiction. }
    destruct (Z.eq_dec (deep_ipv first) (-1)) as [Eneg|Eneg].
    + (* the first walk exits *)
      split.
      * unfold return_ip_ver_hosts. rewrite (first_walk_some _ _ 0 Hfind), Eneg.
        simpl. discriminate.
      * intros [[-> Hall]|(Hv0 & Hv1 & _ & Hall)].
        -- rewrite Forall_forall in Hall.
           specialize (Hall first (proj2 (list_elem_of_In _ _) Hin)). contradiction.
        -- apply Hpin in Hall. congruence.
    + rewrite (Hspec Eneg).
      destruct (find (other_family (deep_ipv first)) ai_list) as [bad|] eqn:Hother.
      * split; [discriminate|].
        intros [[-> Hall]|(Hv0 & Hv1 & _ & Hall)].
        -- rewrite Forall_forall in Hall.
           specialize (Hall first (proj2 (list_elem_of_In _ _) Hin)). contradiction.
        -- pose proof (Hpin _ Hall) as E. rewrite <- E in Hall.
           apply find_other_family_none in Hall. congruence.
      * apply find_other_family_none in Hother. split.
        -- intros [= <-]. right. split; [assumption|]. split; [assumption|].
           split; [|assumption]. apply Exists_exists. exists first.
           split; [apply list_elem_of_In; exact Hin|reflexivity].
        -- intros [[-> Hall]|(Hv0 & Hv1 & _ & Hall)].
           ++ rewrite Forall_forall in Hall.
              specialize (Hall first (proj2 (list_elem_of_In _ _) Hin)). contradiction.
           ++ rewrite (Hpin _ Hall). reflexivity.
  - rewrite Hspec. apply find_single_family_none in Hfind. split.
    + intros [= <-]. left. auto.
    + intros [[-> _]|(Hv0 & _ & Hex & _)]; [reflexivity|].
      apply Exists_exists in Hex as (t & Ht & E).
      rewrite Forall_forall in Hfind. specialize (Hfind t Ht). congruence.
Qed.

Lemma return_ip_ver_mcast_walk_iff (mcast_ipver : Z) (ai_list : list ai_item) :
  mcast_ipver <> -1 ->
  (return_ip_ver_mcast_walk mcast_ipver ai_list = Ret tt <->
   Forall (fun aip => deep_ipv aip = 0 \/ deep_ipv aip = mcast_ipver) ai_list).
Proof.
  clear af_host_to_ai af_ai_deep_is_loopback af_is_sa_mcast af_find_local_ai DEFAULT_MCAST4_ADDR DEFAULT_MCAST6_ADDR.
  intros Hw. rewrite mcast_walk_find by assumption.
  rewrite <- find_other_family_none.
  destruct (find (other_family mcast_ipver) ai_list); split; try discriminate; auto.
Qed.

(** When [return_ip_ver] returns, for an unforced family. *)
Lemma return_ip_ver_iff (mcast_addr : option string) (port : string)
    (ai_list : list ai_item) (v : Z) :
  return_ip_ver 0 mcast_addr port ai_list = Ret v <->
  match mcast_addr with
  | None => return_ip_ver_hosts ai_list = Ret v
  | Some m =>
      exists ai_res,
        af_host_to_ai m port 0 = Ret ai_res
        /\ af_ai_deep_supported_ipv ai_res <> -1
        /\ (af_ai_deep_supported_ipv ai_res = 0 /\ return_ip_ver_hosts ai_list = Ret v
            \/ af_ai_deep_supported_ipv ai_res <> 0
               /\ v = af_ai_deep_supported_ipv ai_res
               /\ Forall (fun aip => deep_ipv aip = 0 \/ deep_ipv aip = v) ai_list)
  end.
Proof.
  clear af_ai_deep_is_loopback af_is_sa_mcast af_find_local_ai DEFAULT_MCAST4_ADDR DEFAULT_MCAST6_ADDR.
  unfold return_ip_ver. simpl. destruct mcast_addr as [m|]; [|reflexivity].
  destruct (af_host_to_ai m port 0) as [ai_res| |] eqn:Hres; simpl.
  - set (w := af_ai_deep_supported_ipv ai_res).
    destruct (Z.eqb_spec w (-1)) as [Eneg|Eneg].
    { split; [discriminate|]. intros (c & [= <-] & Hc & _). contradiction. }
    destruct (Z.eqb_spec w 0) as [E0|E0]; simpl.
    + split.
      * intros H. exists ai_res. fold w. auto.
      * intros (c & [= <-] & _ & [[_ H]|[H _]]); [exact H|]. contradiction.
    + pose proof (return_ip_ver_mcast_walk_iff w ai_list Eneg) as Hwalk.
      destruct (return_ip_ver_mcast_walk w ai_list) as [[]| |]; simpl.
      * split.
        -- intros [= <-]. exists ai_res. fold w. split; [reflexivity|].
           split; [assumption|]. right. split; [assumption|].
           split; [reflexivity|]. apply Hwalk. reflexivity.
        -- intros (c & [= <-] & _ & [[H _]|(_ & -> & _)]); [contradiction|].
           reflexivity.
      * split; [discriminate|].
        intros (c & [= <-] & _ & [[H _]|(_ & -> & Hall)]); [contradiction|].
        apply Hwalk in Hall. discriminate.
      * split; [discriminate|].
        intros (c & [= <-] & _ & [[H _]|(_ & -> & Hall)]); [contradiction|].
        apply Hwalk in Hall. discriminate.
  - split; [discriminate|]. intros (c & H & _). discriminate.
  - split; [discriminate|]. intros (c & H & _). discriminate.
Qed.

Lemma return_ip_ver_all_support (mcast_addr : option string) (port : string)
    (ai_list : list ai_item) (v : Z) :
  return_ip_ver 0 mcast_addr port ai_list = Ret v ->
  Forall (fun aip => deep_ipv aip = 0 \/ deep_ipv aip = v) ai_list.
Proof.
  clear af_ai_deep_is_loopback af_is_sa_mcast af_find_local_ai DEFAULT_MCAST4_ADDR DEFAULT_MCAST6_ADDR.
  intros H. apply return_ip_ver_iff in H.
  assert (Hhosts : return_ip_ver_hosts ai_list = Ret v ->
            Forall (fun aip => deep_ipv aip = 0 \/ deep_ipv aip = v) ai_list).
  { intros Hv. apply return_ip_ver_hosts_iff in Hv as [[-> Hall]|(_ & _ & _ & Hall)];
      [|assumption].
    eapply Forall_impl; [exact Hall|]. simpl. auto. }
  destruct mcast_addr as [m|]; [|auto].
  destruct H as (ai_res & _ & _ & [[_ Hh]|(_ & _ & Hall)]); auto.
Qed.

(** X4. What an unforced [return_ip_ver] returns is 0, 4 or 6, and every
    target, and the multicast label if there is one, deep-supports both
    families or the returned one; in particular 0 is returned only when
    all of them deep-support both. *)
Theorem return_ip_ver_sound (mcast_addr : option string) (port : string)
    (ai_list : list ai_item) (v : Z) :
  return_ip_ver 0 mcast_addr port ai_list = Ret v ->
  (v = 0 \/ v = 4 \/ v = 6)
  /\ Forall (fun aip => deep_ipv aip = 0 \/ deep_ipv aip = v) ai_list
  /\ (forall m, mcast_addr = Some m ->
        exists ai_res, af_host_to_ai m port 0 = Ret ai_res
                       /\ (af_ai_deep_supported_ipv ai_res = 0
                           \/ af_ai_deep_supported_ipv ai_res = v)).
Proof.
  clear af_ai_deep_is_loopback af_is_sa_mcast af_find_local_ai DEFAULT_MCAST4_ADDR DEFAULT_MCAST6_ADDR.
  intros H. apply return_ip_ver_iff in H.
  assert (Hhosts : forall w, return_ip_ver_hosts ai_list = Ret w ->
            (w = 0 \/ w = 4 \/ w = 6)
            /\ Forall (fun aip => deep_ipv aip = 0 \/ deep_ipv aip = w) ai_list).
  { intros w Hw. apply return_ip_ver_hosts_iff in Hw
      as [[-> Hall]|(Hw0 & Hw1 & Hex & Hall)].
    - split; [auto|]. eapply Forall_impl; [exact Hall|]. simpl. auto.
    - split; [|assumption]. apply Exists_exists in Hex as (t & _ & <-).
      unfold deep_ipv in *.
      destruct (deep_supported_ipv_range (ai t)) as [E|[E|[E|E]]]; auto; contradiction. }
  destruct mcast_addr as [m|].
  - destruct H as (ai_res & Hres & Hneg & [[E0 Hh]|(Hnz & -> & Hall)]).
    + destruct (Hhosts _ Hh) as [Hrange Hall]. split; [assumption|].
      split; [assumption|]. intros m' [= <-]. eauto.
    + split.
      { destruct (deep_supported_ipv_range ai_res) as [E|[E|[E|E]]]; auto;
          contradiction. }
      split; [assumption|]. intros m' [= <-]. eauto.
  - destruct (Hhosts _ H) as [Hrange Hall]. split; [assumption|].
    split; [assumption|]. intros m' [=].
Qed.

(** X5. The negotiated family does not depend on the order of the
    targets: on a permutation of the list [return_ip_ver] returns the same
    family, or does not return either. *)
Theorem return_ip_ver_permutation (ip_ver : Z) (mcast_addr : option string)
    (port : string) (l1 l2 : list ai_item) (v : Z) :
  Permutation l1 l2 ->
  (return_ip_ver ip_ver mcast_addr port l1 = Ret v
   <-> return_ip_ver ip_ver mcast_addr port l2 = Ret v).
Proof.
  clear af_ai_deep_is_loopback af_is_sa_mcast af_find_local_ai DEFAULT_MCAST4_ADDR DEFAULT_MCAST6_ADDR.
  intros Hperm.
  destruct (Z.eq_dec ip_ver 0) as [->|Hforced].
  - assert (Hhosts : forall w, return_ip_ver_hosts l1 = Ret w
                               <-> return_ip_ver_hosts l2 = Ret w).
    { intros w. rewrite !return_ip_ver_hosts_iff, Hperm. reflexivity. }
    rewrite !return_ip_ver_iff. destruct mcast_addr as [m|]; [|apply Hhosts].
    split; intros (c & Hc & Hneg & H); exists c; (split; [assumption|]);
      (split; [assumption|]).
    + rewrite <- Hhosts, <- Hperm. exact H.
    + rewrite Hhosts, Hperm. exact H.
  - unfold return_ip_ver. destruct (Z.eqb_spec ip_ver 0); [contradiction|].
    reflexivity.
Qed.

(** *** conv_list_addrs after return_ip_ver *)

(** X6. After an unforced [return_ip_ver] has returned [v], the
    materializer run with a family 4 or 6 that [v] allows (any if [v] is 0,
    else [v]) writes into every target the address of one of its candidates
    of that family and releases the candidates; labels and order are kept. *)
Theorem conv_list_addrs_after_negotiation (mcast_addr : option string)
    (port : string) (ai_list : list ai_item) (v ip_ver : Z) :
  return_ip_ver 0 mcast_addr port ai_list = Ret v ->
  ip_ver = 4 \/ ip_ver = 6 ->
  v = 0 \/ v = ip_ver ->
  Forall2 (fun aip aip' =>
             exists ai_i,
               In ai_i (ai aip) /\ af_ai_supported_ipv ai_i = ip_ver
               /\ aip' = {| ai := []; sas := ai_addr ai_i;
                            host_name := host_name aip |})
          ai_list (conv_list_addrs ai_list ip_ver).
Proof.
  clear af_ai_deep_is_loopback af_is_sa_mcast af_find_local_ai DEFAULT_MCAST4_ADDR DEFAULT_MCAST6_ADDR.
  intros Hret Hfam Hv.
  pose proof (return_ip_ver_all_support _ _ _ _ Hret) as Hall. clear Hret.
  unfold conv_list_addrs.
  induction Hall as [|aip rest Haip Hrest IH]; simpl; constructor; [|exact IH].
  destruct (conv_list_addrs_item_negotiated ip_ver aip Hfam) as (ai_i & Hin & Hipv & E).
  - destruct Hv as [-> | ->]; [destruct Haip; auto|exact Haip].
  - exists ai_i. auto.
Qed.

(** *** conv_port after conv_params_mcast *)

(** X7. With well-formed resolver answers and a family 4 or 6, the
    group address [conv_params_mcast] returns has the socket family of that
    IP version, so [conv_port] on it returns its port and never takes the
    internal-error exit. *)
Theorem conv_port_after_conv_params_mcast (ip_ver : Z) (mcast_addr_s : option string)
    (port_s : string) (mcast_addr : ai_item) :
  well_formed_answers ->
  ip_ver = 4 \/ ip_ver = 6 ->
  conv_params_mcast ip_ver mcast_addr_s port_s = Ret mcast_addr ->
  ss_family (sas mcast_addr) = (if ip_ver =? 4 then AF_INET else AF_INET6)
  /\ conv_port (sas mcast_addr) = Ret (ss_port (sas mcast_addr)).
Proof.
  intros Hwf Hfam. unfold conv_params_mcast.
  destruct (conv_params_mcast_label ip_ver mcast_addr_s) as [label| |];
    simpl; try discriminate.
  destruct (af_host_to_ai label port_s ip_ver) as [ai_res| |] eqn:Hres;
    simpl; try discriminate.
  destruct (first_ai_of_ipv ai_res ip_ver) as [ai_i|] eqn:Hfirst; try discriminate.
  destruct (af_is_sa_mcast (ai_addr ai_i)); simpl; try discriminate.
  intros [= <-]. simpl.
  apply first_ai_of_ipv_some in Hfirst as [Hin Hipv].
  apply Hwf in Hres. rewrite Forall_forall in Hres.
  specialize (Hres ai_i (proj2 (list_elem_of_In _ _) Hin)).
  unfold af_ai_supported_ipv in Hipv. unfold conv_port. rewrite <- Hres.
  destruct (Z.eqb_spec (ai_family ai_i) AF_INET) as [E4|E4].
  - destruct Hfam as [-> | ->]; [|discriminate]. rewrite E4. auto.
  - destruct (Z.eqb_spec (ai_family ai_i) AF_INET6) as [E6|E6].
    + destruct Hfam as [-> | ->]; [discriminate|]. rewrite E6. auto.
    + destruct Hfam as [-> | ->]; discriminate.
Qed.

(** *** cli_parse *)

(** What [conv_local_addr] has done when it returns. *)
Lemma conv_local_addr_inv (ai_list : list ai_item) (ai_local : nat)
    (ifa_local : ifaddrs) (ip_ver : Z) (ai_list' : list ai_item)
    (local_addr : ai_item) (single_addr : Z) :
  conv_local_addr ai_list ai_local ifa_local ip_ver
    = Ret (ai_list', local_addr, single_addr) ->
  (ss_family (ifa_addr ifa_local) = AF_INET
     \/ ss_family (ifa_addr ifa_local) = AF_INET6)
  /\ exists ai_local_item,
       ai_list !! ai_local = Some ai_local_item
       /\ local_addr =
            {| ai := [];
               sas := {| ss_family := ss_family (ifa_addr ifa_local);
                         ss_port := ss_port (sas ai_local_item);
                         ss_addr := ss_addr (ifa_addr ifa_local) |};
               host_name := host_name ai_local_item |}
       /\ (length ai_list = 1%nat /\ single_addr = 1 /\ ai_list' = ai_list
           \/ (1 < length ai_list)%nat /\ single_addr = 0
              /\ ai_list' = delete ai_local ai_list).
Proof.
  unfold conv_local_addr.
  destruct (Z.eqb_spec (ss_family (ifa_addr ifa_local)) AF_INET) as [E4|E4];
    [|destruct (Z.eqb_spec (ss_family (ifa_addr ifa_local)) AF_INET6) as [E6|E6]];
    simpl; try discriminate.
  all: destruct (ai_list !! ai_local) as [item|] eqn:Hlookup; try discriminate.
  all: destruct ai_list as [|first [|second next]]; try discriminate.
  all: simpl; intros [= <- <- <-]; (split; [auto|]); exists item;
    (split; [reflexivity|]); (split; [reflexivity|]).
  all: try (left; auto; fail).
  all: right; simpl; repeat split; lia.
Qed.

(** The calls [cli_parse] has made when it returns, with their results. *)
Lemma cli_parse_inv (argv : list string) (ip_ver : Z) (mcast_addr_s : option string)
    (port_s : string) (r : cli_result) :
  cli_parse argv ip_ver mcast_addr_s port_s = Ret r ->
  exists ai_list no_ai v lm ai_list' local_addr,
    parse_remote_addrs argv port_s ip_ver [] = Ret (ai_list, no_ai)
    /\ return_ip_ver ip_ver mcast_addr_s port_s ai_list = Ret v
    /\ af_find_local_ai ai_list v = Ret (Some lm)
    /\ conv_params_mcast (lm_ip_ver lm) mcast_addr_s port_s = Ret (r_mcast_addr r)
    /\ conv_port (sas (r_mcast_addr r)) = Ret (r_port r)
    /\ conv_local_addr (conv_list_addrs ai_list (lm_ip_ver lm)) (lm_ai_item lm)
         (lm_ifa_local lm) (lm_ip_ver lm)
       = Ret (ai_list', local_addr, r_single_addr r)
    /\ r_ai_list r = ai_list' /\ r_local_addr r = local_addr
    /\ r_ip_ver r = lm_ip_ver lm
    /\ r_local_ifname r = ifa_name (lm_ifa_local lm).
Proof.
  unfold cli_parse.
  destruct (parse_remote_addrs argv port_s ip_ver []) as [[l n]| |] eqn:Hparse;
    simpl; try discriminate.
  destruct (return_ip_ver ip_ver mcast_addr_s port_s l) as [v| |] eqn:Hver;
    simpl; try discriminate.
  destruct (af_find_local_ai l v) as [[lm|]| |] eqn:Hfind; simpl; try discriminate.
  destruct (conv_params_mcast (lm_ip_ver lm) mcast_addr_s port_s)
    as [mcast_addr| |] eqn:Hmcast; simpl; try discriminate.
  destruct (conv_port (sas mcast_addr)) as [port| |] eqn:Hport;
    simpl; try discriminate.
  destruct (conv_local_addr _ (lm_ai_item lm) (lm_ifa_local lm) (lm_ip_ver lm))
    as [[[l' la] single]| |] eqn:Hlocal; simpl; try discriminate.
  intros [= <-]. simpl. exists l, n, v, lm, l', la.
  repeat split; assumption || reflexivity.
Qed.

Lemma conv_list_addrs_host_names (ai_list : list ai_item) (ip_ver : Z) :
  map host_name (conv_list_addrs ai_list ip_ver) = map host_name ai_list.
Proof.
  unfold conv_list_addrs. induction ai_list as [|t rest IH]; simpl; [reflexivity|].
  rewrite conv_list_addrs_item_host_name, IH. reflexivity.
Qed.

Lemma parse_remote_addrs_labels (argv : list string) (port : string) (ip_ver : Z)
    (ai_list : list ai_item) (no_ai : Z) :
  parse_remote_addrs argv port ip_ver [] = Ret (ai_list, no_ai) ->
  map host_name ai_list `sublist_of` argv.
Proof.
  clear af_find_local_ai af_is_sa_mcast DEFAULT_MCAST4_ADDR DEFAULT_MCAST6_ADDR.
  unfold parse_remote_addrs.
  destruct (parse_remote_addrs_loop argv port ip_ver [] 0) as [[l n]| |] eqn:Hloop;
    simpl; try discriminate.
  destruct (n <? 1); [discriminate|]. intros [= <- <-].
  destruct (parse_remote_addrs_loop_inv _ _ _ _ _ _ _ Hloop)
    as (added & -> & _ & Hsub & _).
  exact Hsub.
Qed.

Lemma conv_params_mcast_inv (ip_ver : Z) (mcast_addr_s : option string)
    (port_s : string) (mcast_addr : ai_item) :
  conv_params_mcast ip_ver mcast_addr_s port_s = Ret mcast_addr ->
  af_is_sa_mcast (sas mcast_addr) = true
  /\ forall m, mcast_addr_s = Some m -> host_name mcast_addr = m.
Proof.
  unfold conv_params_mcast.
  destruct (conv_params_mcast_label ip_ver mcast_addr_s) as [label| |] eqn:Hlabel;
    simpl; try discriminate.
  destruct (af_host_to_ai label port_s ip_ver) as [ai_res| |];
    simpl; try discriminate.
  destruct (first_ai_of_ipv ai_res ip_ver) as [ai_i|]; try discriminate.
  destruct (af_is_sa_mcast (ai_addr ai_i)) eqn:E; simpl; try discriminate.
  intros [= <-]. simpl. split; [exact E|].
  intros m ->. simpl in Hlabel. congruence.
Qed.

(** X8. Whenever [cli_parse] returns: the remote list is not empty and
    its labels are a subsequence of the arguments; the label of the local
    address is one of the arguments; [single_addr] is 1 exactly when the
    collector kept one target, and then the remote list is that one target,
    which is also the local one; otherwise [single_addr] is 0 and the remote
    list is the kept targets without the local one. *)
Theorem cli_parse_targets (argv : list string) (ip_ver : Z)
    (mcast_addr_s : option string) (port_s : string) (r : cli_result) :
  cli_parse argv ip_ver mcast_addr_s port_s = Ret r ->
  exists (ai_list : list ai_item) (no_ai : Z) (ai_local : nat),
    parse_remote_addrs argv port_s ip_ver [] = Ret (ai_list, no_ai)
    /\ map host_name ai_list !! ai_local = Some (host_name (r_local_addr r))
    /\ r_ai_list r <> []
    /\ map host_name (r_ai_list r) `sublist_of` argv
    /\ In (host_name (r_local_addr r)) argv
    /\ (r_single_addr r = 1 /\ length ai_list = 1%nat
          /\ map host_name (r_ai_list r) = [host_name (r_local_addr r)]
        \/ r_single_addr r = 0 /\ (1 < length ai_list)%nat
           /\ map host_name (r_ai_list r) = delete ai_local (map host_name ai_list)).
Proof.
  intros Hcli.
  destruct (cli_parse_inv _ _ _ _ _ Hcli)
    as (l & n & v & lm & l' & la & Hparse & _ & _ & _ & _ & Hlocal & Hl' & Hla & _).
  pose proof (parse_remote_addrs_labels _ _ _ _ _ Hparse) as Hsub.
  apply conv_local_addr_inv in Hlocal as (_ & item & Hlookup & Hla' & Hcases).
  rewrite Hl', Hla. clear Hl' Hla. subst la. simpl.
  assert (Hnames : map host_name l !! lm_ai_item lm = Some (host_name item)).
  { rewrite <- (conv_list_addrs_host_names l (lm_ip_ver lm)).
    change (map host_name ?x) with (host_name <$> x).
    rewrite list_lookup_fmap, Hlookup. reflexivity. }
  assert (Hin : In (host_name item) argv).
  { apply list_elem_of_In. eapply elem_of_sublist; [|exact Hsub].
    eapply list_elem_of_lookup_2. exact Hnames. }
  exists l, n, (lm_ai_item lm). split; [assumption|]. split; [assumption|].
  rewrite conv_list_addrs_length in Hcases.
  destruct Hcases as [(Hlen & Hs & ->)|(Hlen & Hs & ->)].
  - rewrite conv_list_addrs_host_names.
    assert (Hone : map host_name l = [host_name item]).
    { destruct l as [|t [|u l]]; try discriminate. simpl in *.
      destruct (lm_ai_item lm); [|discriminate]. simpl in Hnames. congruence. }
    split.
    { intros E. apply (f_equal length) in E.
      rewrite conv_list_addrs_length, Hlen in E. discriminate. }
    split; [assumption|]. split; [assumption|]. left. auto.
  - assert (Hdel : map host_name (delete (lm_ai_item lm)
                                    (conv_list_addrs l (lm_ip_ver lm)))
                   = delete (lm_ai_item lm) (map host_name l)).
    { change (map host_name ?x) with (host_name <$> x).
      rewrite list_fmap_delete. f_equal. apply conv_list_addrs_host_names. }
    split.
    { intros E. apply (f_equal length) in E.
      rewrite length_delete in E by eauto.
      rewrite conv_list_addrs_length in E. simpl in E. lia. }
    split.
    { rewrite Hdel. etransitivity; [apply sublist_delete|exact Hsub]. }
    split; [assumption|]. right. auto.
Qed.

(** X9. Whenever [cli_parse] returns: the group address is a multicast
    address of family [AF_INET] or [AF_INET6], labelled with the [-m]
    argument if there was one; the port is the port of the group address; and
    the local address has the socket family and address of the matching
    interface, whose name is returned, and the port of the matched target. *)
Theorem cli_parse_group_and_local (argv : list string) (ip_ver : Z)
    (mcast_addr_s : option string) (port_s : string) (r : cli_result) :
  cli_parse argv ip_ver mcast_addr_s port_s = Ret r ->
  af_is_sa_mcast (sas (r_mcast_addr r)) = true
  /\ (ss_family (sas (r_mcast_addr r)) = AF_INET
      \/ ss_family (sas (r_mcast_addr r)) = AF_INET6)
  /\ r_port r = ss_port (sas (r_mcast_addr r))
  /\ (forall m, mcast_addr_s = Some m -> host_name (r_mcast_addr r) = m)
  /\ exists ai_list no_ai v lm,
       parse_remote_addrs argv port_s ip_ver [] = Ret (ai_list, no_ai)
       /\ return_ip_ver ip_ver mcast_addr_s port_s ai_list = Ret v
       /\ af_find_local_ai ai_list v = Ret (Some lm)
       /\ r_ip_ver r = lm_ip_ver lm
       /\ r_local_ifname r = ifa_name (lm_ifa_local lm)
       /\ ss_family (sas (r_local_addr r)) = ss_family (ifa_addr (lm_ifa_local lm))
       /\ ss_addr (sas (r_local_addr r)) = ss_addr (ifa_addr (lm_ifa_local lm))
       /\ (ss_family (sas (r_local_addr r)) = AF_INET
           \/ ss_family (sas (r_local_addr r)) = AF_INET6).
Proof.
  intros Hcli.
  destruct (cli_parse_inv _ _ _ _ _ Hcli)
    as (l & n & v & lm & l' & la & Hparse & Hver & Hfind & Hmcast & Hport & Hlocal
        & _ & Hla & Hipv & Hname).
  destruct (conv_params_mcast_inv _ _ _ _ Hmcast) as [Hismcast Hlabel].
  split; [exact Hismcast|].
  split.
  { unfold conv_port in Hport.
    destruct (Z.eqb_spec (ss_family (sas (r_mcast_addr r))) AF_INET); [auto|].
    destruct (Z.eqb_spec (ss_family (sas (r_mcast_addr r))) AF_INET6); [auto|].
    discriminate. }
  split.
  { unfold conv_port, errx in Hport.
    destruct (ss_family (sas (r_mcast_addr r)) =? AF_INET);
      [|destruct (ss_family (sas (r_mcast_addr r)) =? AF_INET6)];
      simpl in Hport; congruence. }
  split; [exact Hlabel|].
  exists l, n, v, lm.
  apply conv_local_addr_inv in Hlocal as (Hfam & item & _ & Hla' & _).
  rewrite Hla, Hla'. simpl. repeat split; assumption.
Qed.

(** *** conv_list_addrs inside cli_parse *)








End Cli.

(** ** Properties of the option handling *)

Ltac option_cases Hstep :=
  match type of Hstep with
  | cli_parse_option _ _ ?ch _ = _ =>
      destruct ch; cbn [cli_parse_option] in Hstep;
      repeat match type of Hstep with
             | context [let (_, _) := ?p in _] => destruct p
             | context [if ?c then _ else _] => destruct c
             end;
      try discriminate; try (injection Hstep as <-)
  end.

Lemma cli_parse_getopt_app (E : cli_env) (H : omping_h)
    (before after : list getopt_result) (st : cli_opts) :
  cli_parse_getopt E H (before ++ after) st =
    (st' <~ cli_parse_getopt E H before st ;; cli_parse_getopt E H after st').
Proof.
  revert st. induction before as [|ch before IH]; intros st; [reflexivity|].
  simpl. destruct (cli_parse_option E H ch st); simpl; auto.
Qed.

(** A property of the variables that every turn keeps holds at the end of
    the loop. *)
Lemma cli_parse_getopt_invariant (E : cli_env) (H : omping_h) (P : cli_opts -> Prop) :
  (forall ch st st', cli_parse_option E H ch st = Go st' -> P st -> P st') ->
  forall opts st st', cli_parse_getopt E H opts st = Go st' -> P st -> P st'.
Proof.
  intros Hstep opts. induction opts as [|ch opts IH]; intros st st'; simpl.
  - intros [= <-]. auto.
  - destruct (cli_parse_option E H ch st) as [s1| |] eqn:E1; simpl; try discriminate.
    intros Hloop HP. exact (IH _ _ Hloop (Hstep _ _ _ E1 HP)).
Qed.

(** Every option the loop went through was accepted. *)
Lemma cli_parse_getopt_accepted (E : cli_env) (H : omping_h) (Q : getopt_result -> Prop) :
  (forall ch st st', cli_parse_option E H ch st = Go st' -> Q ch) ->
  forall opts st st', cli_parse_getopt E H opts st = Go st' -> Forall Q opts.
Proof.
  intros Hstep opts. induction opts as [|ch opts IH]; intros st st'; simpl.
  - constructor.
  - destruct (cli_parse_option E H ch st) as [s1| |] eqn:E1; simpl; try discriminate.
    intros Hloop. constructor; [exact (Hstep _ _ _ E1)|exact (IH _ _ Hloop)].
Qed.

(** A variable that a turn either leaves alone or sets to what [sel]
    picks ends with the last pick. *)
Lemma cli_parse_getopt_last {V : Type} (E : cli_env) (H : omping_h)
    (field : cli_opts -> V) (sel : getopt_result -> option V) :
  (forall ch st st', cli_parse_option E H ch st = Go st' ->
     field st' = default (field st) (sel ch)) ->
  forall opts st st', cli_parse_getopt E H opts st = Go st' ->
    last_choice sel opts (field st) (field st').
Proof.
  intros Hstep opts. induction opts as [|ch opts IH]; intros st st'; simpl.
  - intros [= <-]. left. split; [constructor|reflexivity].
  - destruct (cli_parse_option E H ch st) as [s1| |] eqn:E1; simpl; try discriminate.
    intros Hloop. apply Hstep in E1.
    destruct (IH _ _ Hloop) as [[Hnone Heq]|(before & c & after & -> & Hc & Hafter)].
    + destruct (sel ch) as [v|] eqn:Hsel; simpl in E1.
      * right. exists [], ch, opts. rewrite Heq, E1. auto.
      * left. split; [constructor; assumption|congruence].
    + right. exists (ch :: before), c, after. auto.
Qed.

Lemma cli_parse_option_ip_ver (E : cli_env) (H : omping_h) (ch : getopt_result)
    (st st' : cli_opts) :
  cli_parse_option E H ch st = Go st' ->
  o_ip_ver st' = default (o_ip_ver st) (family_option ch).
Proof. intros Hstep. option_cases Hstep; reflexivity. Qed.

Lemma cli_parse_option_mcast_addr_s (E : cli_env) (H : omping_h) (ch : getopt_result)
    (st st' : cli_opts) :
  cli_parse_option E H ch st = Go st' ->
  o_mcast_addr_s st' = default (o_mcast_addr_s st) (Some <$> mcast_option ch).
Proof. intros Hstep. option_cases Hstep; reflexivity. Qed.

Lemma cli_parse_option_port_s (E : cli_env) (H : omping_h) (ch : getopt_result)
    (st st' : cli_opts) :
  cli_parse_option E H ch st = Go st' ->
  o_port_s st' = default (o_port_s st) (port_option ch).
Proof. intros Hstep. option_cases Hstep; reflexivity. Qed.

Lemma cli_parse_option_ttl (E : cli_env) (H : omping_h) (ch : getopt_result)
    (st st' : cli_opts) :
  cli_parse_option E H ch st = Go st' ->
  o_ttl st' = default (o_ttl st) (ttl_value E ch).
Proof. intros Hstep. unfold ttl_value. option_cases Hstep; reflexivity. Qed.

Lemma cli_parse_option_force (E : cli_env) (H : omping_h) (ch : getopt_result)
    (st st' : cli_opts) :
  cli_parse_option E H ch st = Go st' ->
  o_force st' = o_force st + (if is_opt_F ch then 1 else 0).
Proof. intros Hstep. option_cases Hstep; simpl; lia. Qed.

Lemma cli_parse_getopt_force (E : cli_env) (H : omping_h) (opts : list getopt_result) :
  forall st st', cli_parse_getopt E H opts st = Go st' ->
    o_force st' = o_force st + Z.of_nat (length (List.filter is_opt_F opts)).
Proof.
  induction opts as [|ch opts IH]; intros st st'; simpl.
  - intros [= <-]. lia.
  - destruct (cli_parse_option E H ch st) as [s1| |] eqn:E1; simpl; try discriminate.
    intros Hloop. rewrite (IH _ _ Hloop), (cli_parse_option_force _ _ _ _ _ E1).
    destruct (is_opt_F ch); simpl length; lia.
Qed.

(** What the checks and the computed values leave alone. *)
Lemma cli_parse_computed_keeps (H : omping_h) (st st' : cli_opts) :
  cli_parse_computed H st = Go st' ->
  o_ip_ver st' = o_ip_ver st /\ o_mcast_addr_s st' = o_mcast_addr_s st
  /\ o_port_s st' = o_port_s st /\ o_ttl st' = o_ttl st
  /\ o_wait_time st' = o_wait_time st /\ o_force st' = o_force st.
Proof.
  unfold cli_parse_computed.
  destruct (if o_wait_for_finish_time_set st =? 0 then _ else _) as [wff| |];
    simpl; try discriminate.
  destruct (computed_dup_buf_items H (o_wait_time st)) as [dup| |];
    simpl; try discriminate.
  intros [= <-]. simpl. repeat split; reflexivity.
Qed.

(** The stages [cli_parse_params] went through when it returns. *)
Lemma cli_parse_params_inv (E : cli_env) (H : omping_h) (opts : list getopt_result)
    (st' : cli_opts) :
  cli_parse_params E H opts = Go st' ->
  exists st,
    cli_parse_getopt E H opts (cli_opts_init H) = Go st
    /\ cli_parse_check H st = Go tt
    /\ cli_parse_computed H st = Go st'.
Proof.
  unfold cli_parse_params.
  destruct (cli_parse_getopt E H opts (cli_opts_init H)) as [st| |] eqn:Hloop;
    simpl; try discriminate.
  destruct (cli_parse_check H st) as [[]| |] eqn:Hcheck; simpl; try discriminate.
  intros Hcomp. exists st. auto.
Qed.

(** X10. When [cli_parse] gets as far as the address part, that part is
    run on the arguments left by [getopt] with the family of the last [-4]
    or [-6] (0 without one, so always 0, 4 or 6), the label of the last [-m]
    ([NULL] without one) and the port of the last [-p] ([DEFAULT_PORT_S]
    without one). *)
Theorem cli_parse_all_address_inputs
    (af_host_to_ai : string -> string -> Z -> outcome (list addrinfo))
    (af_ai_deep_is_loopback : list addrinfo -> bool)
    (af_is_sa_mcast : sockaddr_storage -> bool)
    (af_find_local_ai : list ai_item -> Z -> outcome (option local_match))
    (DEFAULT_MCAST4_ADDR DEFAULT_MCAST6_ADDR : string)
    (E : cli_env) (H : omping_h) (opts : list getopt_result) (argv : list string)
    (st : cli_opts) (res : outcome cli_result) :
  cli_parse_all af_host_to_ai af_ai_deep_is_loopback af_is_sa_mcast af_find_local_ai
    DEFAULT_MCAST4_ADDR DEFAULT_MCAST6_ADDR E H opts argv = Go (st, res) ->
  res = cli_parse af_host_to_ai af_ai_deep_is_loopback af_is_sa_mcast af_find_local_ai
          DEFAULT_MCAST4_ADDR DEFAULT_MCAST6_ADDR
          argv (o_ip_ver st) (o_mcast_addr_s st) (o_port_s st)
  /\ last_choice family_option opts 0 (o_ip_ver st)
  /\ (o_ip_ver st = 0 \/ o_ip_ver st = 4 \/ o_ip_ver st = 6)
  /\ last_choice (fun ch => Some <$> mcast_option ch) opts None (o_mcast_addr_s st)
  /\ last_choice port_option opts (DEFAULT_PORT_S H) (o_port_s st).
Proof.
  unfold cli_parse_all.
  destruct (cli_parse_params E H opts) as [st1| |] eqn:Hparams; simpl; try discriminate.
  intros [= <- <-]. split; [reflexivity|].
  destruct (cli_parse_params_inv _ _ _ _ Hparams) as (st0 & Hloop & _ & Hcomp).
  destruct (cli_parse_computed_keeps _ _ _ Hcomp) as (-> & -> & -> & _).
  pose proof (cli_parse_getopt_last E H o_ip_ver family_option
                (cli_parse_option_ip_ver E H) _ _ _ Hloop) as Hfamily.
  split; [exact Hfamily|]. split.
  { destruct Hfamily as [[_ ->]|(before & ch & after & _ & Hsel & _)]; [auto|].
    destruct ch; simpl in Hsel; try discriminate; injection Hsel as <-; auto. }
  split.
  - exact (cli_parse_getopt_last E H o_mcast_addr_s _
             (cli_parse_option_mcast_addr_s E H) _ _ _ Hloop).
  - exact (cli_parse_getopt_last E H o_port_s port_option
             (cli_parse_option_port_s E H) _ _ _ Hloop).
Qed.

(** X11. When the option loop comes to its end, every [-t] it met had an
    argument that [strtol] read to its end and whose value, stored in an
    [int], lies between 1 and 255; [*ttl] is the value of the last [-t], or
    the default without one, and lies between 0 and 255. *)
Theorem cli_parse_getopt_ttl (E : cli_env) (H : omping_h) (opts : list getopt_result)
    (st : cli_opts) :
  cli_parse_getopt E H opts (cli_opts_init H) = Go st ->
  Forall (fun ch => forall optarg, ch = Opt_t optarg ->
                      1 <= int_of_long (fst (strtol E optarg)) <= 255
                      /\ snd (strtol E optarg) = EmptyString) opts
  /\ last_choice (ttl_value E) opts (DEFAULT_TTL H mod 256) (o_ttl st)
  /\ 0 <= o_ttl st <= 255.
Proof.
  intros Hloop.
  assert (Hacc : Forall (fun ch => forall optarg, ch = Opt_t optarg ->
                      1 <= int_of_long (fst (strtol E optarg)) <= 255
                      /\ snd (strtol E optarg) = EmptyString) opts).
  { eapply cli_parse_getopt_accepted; [|exact Hloop].
    intros ch s s' Hstep optarg ->. cbn [cli_parse_option] in Hstep.
    destruct (strtol E optarg) as [value ep]. cbn [fst snd].
    destruct (Z.leb_spec (int_of_long value) 0); [discriminate|].
    destruct (Z.ltb_spec 255 (int_of_long value)); [discriminate|].
    destruct ep; [|discriminate]. split; [lia|reflexivity]. }
  pose proof (cli_parse_getopt_last E H o_ttl (ttl_value E)
                (cli_parse_option_ttl E H) _ _ _ Hloop) as Hlast.
  split; [exact Hacc|]. split; [exact Hlast|].
  destruct Hlast as [[_ ->]|(before & ch & after & -> & Hsel & _)].
  - simpl. pose proof (Z.mod_pos_bound (DEFAULT_TTL H) 256). lia.
  - apply Forall_app in Hacc as [_ Hacc]. apply Forall_cons in Hacc as [Hch _].
    destruct ch; simpl in Hsel; try discriminate. injection Hsel as <-.
    destruct (Hch optarg eq_refl). lia.
Qed.

(** X12. [-V] and an option [getopt] does not know end the process as
    soon as the loop reaches them, with status 0 and with status 1 after the
    usage text: the options after them, the checks and the address part do
    not matter. *)
Theorem cli_parse_all_stops
    (af_host_to_ai : string -> string -> Z -> outcome (list addrinfo))
    (af_ai_deep_is_loopback : list addrinfo -> bool)
    (af_is_sa_mcast : sockaddr_storage -> bool)
    (af_find_local_ai : list ai_item -> Z -> outcome (option local_match))
    (DEFAULT_MCAST4_ADDR DEFAULT_MCAST6_ADDR : string)
    (E : cli_env) (H : omping_h) (before after : list getopt_result)
    (argv : list string) (st : cli_opts) :
  cli_parse_getopt E H before (cli_opts_init H) = Go st ->
  (cli_parse_all af_host_to_ai af_ai_deep_is_loopback af_is_sa_mcast af_find_local_ai
     DEFAULT_MCAST4_ADDR DEFAULT_MCAST6_ADDR E H (before ++ Opt_V :: after) argv
   = Stop E_version
   /\ exit_status E_version = 0)
  /\ (cli_parse_all af_host_to_ai af_ai_deep_is_loopback af_is_sa_mcast af_find_local_ai
       DEFAULT_MCAST4_ADDR DEFAULT_MCAST6_ADDR E H (before ++ Opt_unknown :: after) argv
     = Stop (E_usage None)
     /\ exit_status (E_usage None) = 1).
Proof.
  intros Hloop. unfold cli_parse_all, cli_parse_params.
  rewrite !cli_parse_getopt_app, Hloop. simpl. auto.
Qed.

(** X13. When option handling passes the checks: without [-F] the
    interval is at least [DEFAULT_WAIT_TIME] and the TTL at least
    [DEFAULT_TTL]; with fewer than two [-F] the interval is not 0. *)
Theorem cli_parse_params_force (E : cli_env) (H : omping_h)
    (opts : list getopt_result) (st : cli_opts) :
  cli_parse_params E H opts = Go st ->
  (Forall (fun ch => is_opt_F ch = false) opts ->
     DEFAULT_WAIT_TIME H <= o_wait_time st /\ DEFAULT_TTL H <= o_ttl st)
  /\ ((length (List.filter is_opt_F opts) <= 1)%nat -> o_wait_time st <> 0).
Proof.
  intros Hparams.
  destruct (cli_parse_params_inv _ _ _ _ Hparams) as (st0 & Hloop & Hcheck & Hcomp).
  destruct (cli_parse_computed_keeps _ _ _ Hcomp) as (_ & _ & _ & -> & -> & _).
  pose proof (cli_parse_getopt_force _ _ _ _ _ Hloop) as Hforce. simpl in Hforce.
  unfold cli_parse_check in Hcheck.
  destruct (Z.ltb_spec (o_force st0) 1) as [F1|F1];
    destruct (Z.ltb_spec (o_wait_time st0) (DEFAULT_WAIT_TIME H)) as [W|W];
    simpl in Hcheck; try discriminate;
    destruct (Z.ltb_spec (o_ttl st0) (DEFAULT_TTL H)) as [T|T];
    simpl in Hcheck; try discriminate;
    destruct (Z.ltb_spec (o_force st0) 2) as [F2|F2];
    destruct (Z.eqb_spec (o_wait_time st0) 0) as [W0|W0];
    simpl in Hcheck; try discriminate.
  all: split; [intros Hnone|intros Hfew]; try lia.
  all: try (assert (List.filter is_opt_F opts = []) as Hnil
              by (clear - Hnone; induction Hnone as [|ch l Hch _ IH];
                  [reflexivity|simpl; rewrite Hch; exact IH]);
            rewrite Hnil in Hforce; simpl in Hforce; lia).
Qed.

(** Two states that differ at most in [*dup_buf_items] go through a turn
    of the loop alike. *)
Lemma cli_parse_option_dup_buf_items (E : cli_env) (H : omping_h) (ch : getopt_result)
    (s1 s2 : cli_opts) :
  set_o_dup_buf_items 0 s1 = set_o_dup_buf_items 0 s2 ->
  match cli_parse_option E H ch s1, cli_parse_option E H ch s2 with
  | Go a, Go b => set_o_dup_buf_items 0 a = set_o_dup_buf_items 0 b
  | Stop e1, Stop e2 => e1 = e2
  | Overflow, Overflow => True
  | _, _ => False
  end.
Proof.
  destruct s1, s2. unfold set_o_dup_buf_items. simpl. intros Heq.
  injection Heq as -> -> -> -> -> -> -> -> -> -> -> -> -> -> -> -> ->.
  destruct ch; cbn [cli_parse_option];
    repeat match goal with
           | |- context [let (_, _) := ?p in _] => destruct p
           | |- context [if ?c then _ else _] => destruct c
           end; reflexivity.
Qed.

Lemma cli_parse_getopt_dup_buf_items (E : cli_env) (H : omping_h)
    (opts : list getopt_result) :
  forall s1 s2,
    set_o_dup_buf_items 0 s1 = set_o_dup_buf_items 0 s2 ->
    match cli_parse_getopt E H (List.filter (fun ch => negb (is_opt_D ch)) opts) s1,
          cli_parse_getopt E H opts s2 with
    | Go a, Go b => set_o_dup_buf_items 0 a = set_o_dup_buf_items 0 b
    | Stop e1, Stop e2 => e1 = e2
    | Overflow, Overflow => True
    | _, _ => False
    end.
Proof.
  induction opts as [|ch opts IH]; intros s1 s2 Heq; [exact Heq|].
  cbn [List.filter]. destruct (is_opt_D ch) eqn:HD; cbn [negb].
  - destruct ch; try discriminate. cbn [cli_parse_getopt cli_parse_option step_bind].
    apply IH. rewrite Heq. destruct s2. reflexivity.
  - cbn [cli_parse_getopt].
    pose proof (cli_parse_option_dup_buf_items E H ch s1 s2 Heq) as Hstep.
    destruct (cli_parse_option E H ch s1) as [a| |],
             (cli_parse_option E H ch s2) as [b| |];
      cbn [step_bind]; try contradiction;
      first [apply IH; exact Hstep | exact Hstep].
Qed.

Lemma cli_parse_check_dup_buf_items (H : omping_h) (s1 s2 : cli_opts) :
  set_o_dup_buf_items 0 s1 = set_o_dup_buf_items 0 s2 ->
  cli_parse_check H s1 = cli_parse_check H s2.
Proof.
  destruct s1, s2. unfold set_o_dup_buf_items. simpl. intros Heq.
  injection Heq as -> -> -> -> -> -> -> -> -> -> -> -> -> -> -> -> ->.
  reflexivity.
Qed.

Lemma cli_parse_computed_dup_buf_items (H : omping_h) (s1 s2 : cli_opts) :
  set_o_dup_buf_items 0 s1 = set_o_dup_buf_items 0 s2 ->
  cli_parse_computed H s1 = cli_parse_computed H s2.
Proof.
  destruct s1, s2. unfold set_o_dup_buf_items. simpl. intros Heq.
  injection Heq as -> -> -> -> -> -> -> -> -> -> -> -> -> -> -> -> ->.
  reflexivity.
Qed.

(** X14. [-D] changes nothing in what option handling hands on: with
    the [-D]s taken out of the options it ends the same way, with the same
    values. The computed [*dup_buf_items] depends on the interval alone: it
    is 0 when the interval is 0, and otherwise the number of intervals in
    [DUP_BUF_SECS] seconds plus one, raised to [MIN_DUP_BUF_ITEMS]. *)
Theorem cli_parse_params_dup_buf_items (E : cli_env) (H : omping_h)
    (opts : list getopt_result) :
  cli_parse_params E H (List.filter (fun ch => negb (is_opt_D ch)) opts)
    = cli_parse_params E H opts
  /\ forall st, cli_parse_params E H opts = Go st ->
       (o_wait_time st = 0 -> o_dup_buf_items st = 0)
       /\ (o_wait_time st <> 0 ->
           o_dup_buf_items st
             = Z.max (MIN_DUP_BUF_ITEMS H)
                     (Z.quot (DUP_BUF_SECS H * 1000) (o_wait_time st) + 1)).
Proof.
  split.
  - unfold cli_parse_params.
    pose proof (cli_parse_getopt_dup_buf_items E H opts
                  (cli_opts_init H) (cli_opts_init H) eq_refl) as Hloop.
    destruct (cli_parse_getopt E H (List.filter _ opts) (cli_opts_init H)) as [a| |],
             (cli_parse_getopt E H opts (cli_opts_init H)) as [b| |];
      try contradiction; cbn [step_bind]; [|congruence|reflexivity].
    rewrite (cli_parse_check_dup_buf_items H a b Hloop).
    destruct (cli_parse_check H b) as [[]| |]; cbn [step_bind]; [|reflexivity..].
    apply cli_parse_computed_dup_buf_items. exact Hloop.
  - intros st Hparams.
    destruct (cli_parse_params_inv _ _ _ _ Hparams) as (st0 & _ & _ & Hcomp).
    revert Hcomp. unfold cli_parse_computed, computed_dup_buf_items.
    destruct (if o_wait_for_finish_time_set st0 =? 0 then _ else _) as [wff| |];
      cbn [step_bind]; try discriminate.
    destruct (Z.eqb_spec (o_wait_time st0) 0) as [W0|W0]; cbn [step_bind].
    + intros [= <-]. simpl. split; [reflexivity|contradiction].
    + unfold int_arith.
      destruct ((- 2 ^ 31 <=? DUP_BUF_SECS H * 1000) && (DUP_BUF_SECS H * 1000 <? 2 ^ 31));
        cbn [step_bind]; try discriminate.
      destruct ((- 2 ^ 31 <=? _) && (_ <? 2 ^ 31)); cbn [step_bind]; try discriminate.
      destruct ((- 2 ^ 31 <=? _) && (_ <? 2 ^ 31)); cbn [step_bind]; try discriminate.
      intros [= <-]. simpl. split; [contradiction|]. intros _.
      destruct (Z.ltb_spec (DUP_BUF_SECS H * 1000 ÷ o_wait_time st0 + 1)
                           (MIN_DUP_BUF_ITEMS H)); lia.
Qed.

Lemma cli_parse_option_wait_for_finish_time_set (E : cli_env) (H : omping_h)
    (ch : getopt_result) (st st' : cli_opts) :
  cli_parse_option E H ch st = Go st' ->
  o_wait_for_finish_time_set st'
    = default (o_wait_for_finish_time_set st) (if is_opt_w ch then Some 1 else None).
Proof. intros Hstep. option_cases Hstep; reflexivity. Qed.

Lemma cli_parse_option_rate_limit_time_set (E : cli_env) (H : omping_h)
    (ch : getopt_result) (st st' : cli_opts) :
  cli_parse_option E H ch st = Go st' ->
  o_rate_limit_time_set st'
    = default (o_rate_limit_time_set st) (if is_opt_r ch then Some 1 else None).
Proof. intros Hstep. option_cases Hstep; reflexivity. Qed.

Lemma last_choice_none {V : Type} (sel : getopt_result -> option V)
    (opts : list getopt_result) (init v : V) :
  last_choice sel opts init v ->
  Forall (fun ch => sel ch = None) opts -> v = init.
Proof.
  intros [[_ ->]|(before & ch & after & -> & Hsel & _)] Hnone; [reflexivity|].
  apply Forall_app in Hnone as [_ Hnone]. apply Forall_cons in Hnone as [Hch _].
  congruence.
Qed.

(** X15. When option handling returns: without [-w] the time to wait
    for the finish is the interval times [DEFAULT_WFF_TIME_MUL], and without
    [-r] the rate limit is the interval. *)
Theorem cli_parse_params_defaults (E : cli_env) (H : omping_h)
    (opts : list getopt_result) (st : cli_opts) :
  cli_parse_params E H opts = Go st ->
  (Forall (fun ch => is_opt_w ch = false) opts ->
     o_wait_for_finish_time st = o_wait_time st * DEFAULT_WFF_TIME_MUL H)
  /\ (Forall (fun ch => is_opt_r ch = false) opts ->
       o_rate_limit_time st = o_wait_time st).
Proof.
  intros Hparams.
  destruct (cli_parse_params_inv _ _ _ _ Hparams) as (st0 & Hloop & _ & Hcomp).
  pose proof (cli_parse_getopt_last E H o_wait_for_finish_time_set _
                (cli_parse_option_wait_for_finish_time_set E H) _ _ _ Hloop) as Hw.
  pose proof (cli_parse_getopt_last E H o_rate_limit_time_set _
                (cli_parse_option_rate_limit_time_set E H) _ _ _ Hloop) as Hr.
  revert Hcomp. unfold cli_parse_computed.
  destruct (if o_wait_for_finish_time_set st0 =? 0 then _ else _) as [wff| |] eqn:Hwff;
    cbn [step_bind]; try discriminate.
  destruct (computed_dup_buf_items H (o_wait_time st0)) as [dup| |];
    cbn [step_bind]; try discriminate.
  intros [= <-]. simpl. split.
  - intros Hnone. apply last_choice_none in Hw.
    + simpl in Hw. rewrite Hw in Hwff. simpl in Hwff. unfold int_arith in Hwff.
      destruct ((- 2 ^ 31 <=? _) && (_ <? 2 ^ 31)); congruence.
    + eapply Forall_impl; [exact Hnone|]. simpl. intros ch ->. reflexivity.
  - intros Hnone. apply last_choice_none in Hr.
    + simpl in Hr. rewrite Hr. reflexivity.
    + eapply Forall_impl; [exact Hnone|]. simpl. intros ch ->. reflexivity.
Qed.

(** ** Examples on the sample network *)

(** C1 on the sample network: a dual-stack group and dual-stack hosts
    give 0; an IPv4-only host makes 4 the pivot, an IPv6-only host after
    it is named in the exit, and without such a host 4 is returned. *)
Lemma return_ip_ver_hosts_pivot_witness :
  no_mcast_constraint sample_host_to_ai (Some "group46") "4321"
  /\ return_ip_ver sample_host_to_ai 0 (Some "group46") "4321"
       [sample_target "host-a"; sample_target "host-d"] = Ret 0
  /\ no_mcast_constraint sample_host_to_ai None "4321"
  /\ return_ip_ver sample_host_to_ai 0 None "4321"
       [sample_target "host-a"; sample_target "host-b"; sample_target "host-c"]
     = Exit 1 (D_host_ipver "host-c" 4)
  /\ return_ip_ver sample_host_to_ai 0 None "4321"
       [sample_target "host-a"; sample_target "host-b"; sample_target "host-d"]
     = Ret 4.
Proof.
  assert (H46 : no_mcast_constraint sample_host_to_ai (Some "group46") "4321").
  { eexists. split; reflexivity. }
  split; [exact H46|]. split.
  { exact (return_ip_ver_hosts_pivot sample_host_to_ai (Some "group46") "4321"
             [sample_target "host-a"; sample_target "host-d"] H46). }
  split; [exact I|]. split.
  - exact (proj1 (return_ip_ver_hosts_pivot sample_host_to_ai None "4321"
             [sample_target "host-a"; sample_target "host-b"; sample_target "host-c"]
             I (or_introl eq_refl))).
  - exact (return_ip_ver_hosts_pivot sample_host_to_ai None "4321"
             [sample_target "host-a"; sample_target "host-b"; sample_target "host-d"]
             I (or_introl eq_refl)).
Defined.

(** C2 on the sample network: an IPv4-only group. *)
Lemma return_ip_ver_mcast_family_witness :
  sample_host_to_ai "232.43.211.234" "4321" 0 = Ret [sample_sin 0xE82BD3EA]
  /\ return_ip_ver sample_host_to_ai 0 (Some "232.43.211.234") "4321"
       [sample_target "host-a"; sample_target "host-c"; sample_target "host-b"]
     = Exit 1 (D_mcast_host_ipver 4 "host-c" 6)
  /\ return_ip_ver sample_host_to_ai 0 (Some "232.43.211.234") "4321"
       [sample_target "host-a"; sample_target "host-b"] = Ret 4
  /\ return_ip_ver sample_host_to_ai 0 (Some "unix-peer") "4321" [sample_target "host-a"]
     = Exit 1 (D_mcast_no_ipver "unix-peer").
Proof.
  split; [reflexivity|]. split; [|split].
  - exact (proj1 (proj2 (return_ip_ver_mcast_family sample_host_to_ai "232.43.211.234" "4321" _
             [sample_target "host-a"; sample_target "host-c"; sample_target "host-b"]
             eq_refl) (or_introl eq_refl))).
  - exact (proj2 (return_ip_ver_mcast_family sample_host_to_ai "232.43.211.234" "4321" _
             [sample_target "host-a"; sample_target "host-b"]
             eq_refl) (or_introl eq_refl)).
  - exact (proj1 (proj1 (return_ip_ver_mcast_family sample_host_to_ai "unix-peer" "4321" _
             [sample_target "host-a"] eq_refl) eq_refl)).
Defined.

(** C3 on the sample network: with [-6], a resolver that is down and an
    IPv4-only target change nothing. *)
Lemma return_ip_ver_forced_witness :
  (6 = 4 \/ 6 = 6)
  /\ return_ip_ver sample_no_resolver 6 (Some "232.43.211.234") "4321"
       [sample_target "host-b"] = Ret 6.
Proof.
  split; [right; reflexivity|].
  apply return_ip_ver_forced. right. reflexivity.
Defined.

(** C5 on the sample network, with the group literals as defaults: with
    no label, family 4 returns the IPv4 literal's address under that label,
    family 6 the IPv6 literal's, and family 0 exits. *)
Lemma conv_params_mcast_default_witness :
  ("232.43.211.234" <> "ff3e::4321:1234")
  /\ sample_host_to_ai "232.43.211.234" "4321" 4 = Ret [sample_sin 0xE82BD3EA]
  /\ conv_params_mcast sample_host_to_ai sample_is_sa_mcast
       "232.43.211.234" "ff3e::4321:1234" 4 None "4321"
     = Ret {| ai := []; sas := ai_addr (sample_sin 0xE82BD3EA);
              host_name := "232.43.211.234" |}
  /\ conv_params_mcast sample_host_to_ai sample_is_sa_mcast
       "232.43.211.234" "ff3e::4321:1234" 6 None "4321"
     = Ret {| ai := [];
              sas := ai_addr (sample_sin6 0xff3e0000000000000000000043211234);
              host_name := "ff3e::4321:1234" |}
  /\ conv_params_mcast sample_host_to_ai sample_is_sa_mcast
       "232.43.211.234" "ff3e::4321:1234" 0 None "4321" = Exit 1 D_internal
  /\ conv_params_mcast sample_no_resolver sample_is_sa_mcast
       "232.43.211.234" "ff3e::4321:1234" 4 None "4321"
     = Exit 1 (D_collaborator "Can't get addr info")
  /\ host_name (mk_ai_item [] (ai_addr (sample_sin 0xE82BD3EA)) "232.43.211.234")
     <> host_name (mk_ai_item []
          (ai_addr (sample_sin6 0xff3e0000000000000000000043211234)) "ff3e::4321:1234").
Proof.
  pose proof (conv_params_mcast_default sample_host_to_ai sample_is_sa_mcast
                "232.43.211.234" "ff3e::4321:1234" "4321")
    as (Hrun & _ & _ & Hother & Hdistinct).
  assert (Hne : "232.43.211.234" <> "ff3e::4321:1234") by discriminate.
  split; [exact Hne|]. split; [reflexivity|]. split.
  { exact (proj1 (proj2 (Hrun 4 "232.43.211.234" (or_introl (conj eq_refl eq_refl))))
             [sample_sin 0xE82BD3EA] (sample_sin 0xE82BD3EA)
             eq_refl eq_refl eq_refl). }
  split.
  { exact (proj1 (proj2 (Hrun 6 "ff3e::4321:1234" (or_intror (conj eq_refl eq_refl))))
             [sample_sin6 0xff3e0000000000000000000043211234]
             (sample_sin6 0xff3e0000000000000000000043211234)
             eq_refl eq_refl eq_refl). }
  split; [apply Hother; lia|]. split.
  { exact (proj2 (proj2 (proj1 (conv_params_mcast_default sample_no_resolver
             sample_is_sa_mcast "232.43.211.234" "ff3e::4321:1234" "4321")
             4 "232.43.211.234" (or_introl (conj eq_refl eq_refl))))
             1 (D_collaborator "Can't get addr info") eq_refl). }
  apply (Hdistinct Hne); reflexivity.
Defined.

(** C6 on the sample network: host-a is the local interface. Alone it
    stays and the flag is set; with host-b and host-c around it, it is
    taken out and the others stay in order. *)
Lemma conv_local_addr_single_or_removed_witness :
  (ss_family (ifa_addr sample_ifa4) = AF_INET
     \/ ss_family (ifa_addr sample_ifa4) = AF_INET6)
  /\ [sample_target "host-b"; sample_target "host-a"; sample_target "host-c"] !! 1%nat
     = Some (sample_target "host-a")
  /\ (exists local_addr,
        conv_local_addr
          [sample_target "host-b"; sample_target "host-a"; sample_target "host-c"]
          1 sample_ifa4 4
        = Ret ([sample_target "host-b"; sample_target "host-c"], local_addr, 0))
  /\ (exists local_addr,
        conv_local_addr [sample_target "host-a"] 0 sample_ifa4 4
        = Ret ([sample_target "host-a"], local_addr, 1)).
Proof.
  split; [left; reflexivity|]. split; [reflexivity|]. split.
  - pose proof (conv_local_addr_single_or_removed
                  [sample_target "host-b"; sample_target "host-a"; sample_target "host-c"]
                  1 sample_ifa4 4 (sample_target "host-a")
                  (or_introl eq_refl) eq_refl) as [_ Hmany].
    destruct Hmany as [Hmany _]; [simpl; lia|].
    eexists. exact Hmany.
  - pose proof (conv_local_addr_single_or_removed
                  [sample_target "host-a"] 0 sample_ifa4 4 (sample_target "host-a")
                  (or_introl eq_refl) eq_refl) as [Hone _].
    destruct Hone as [Hone _]; [reflexivity|].
    eexists. exact Hone.
Defined.

(** C7 on the sample network: alias-a and 10.0.0.1 share an address with
    host-a and are dropped; the others keep their order. *)
Lemma parse_remote_addrs_dedup_witness :
  parse_remote_addrs sample_host_to_ai sample_is_loopback
    ["host-a"; "host-b"; "alias-a"; "host-c"; "10.0.0.1"] "4321" 0 []
    = Ret ([sample_target "host-a"; sample_target "host-b"; sample_target "host-c"], 3)
  /\ distinct_targets
       [sample_target "host-a"; sample_target "host-b"; sample_target "host-c"]
  /\ "host-a" <> "alias-a"
  /\ share_address (ai (sample_target "alias-a")) (ai (sample_target "host-a"))
  /\ parse_remote_addrs sample_host_to_ai sample_is_loopback
       ["host-a"; "alias-a"] "4321" 0 []
     = Ret ([sample_target "host-a"], 1).
Proof.
  pose proof (parse_remote_addrs_dedup sample_host_to_ai sample_is_loopback
                ["host-a"; "host-b"; "alias-a"; "host-c"; "10.0.0.1"] "4321" 0)
    as [Hrun Htwo].
  assert (Hshare : share_address (ai (sample_target "alias-a"))
                                 (ai (sample_target "host-a"))).
  { exists (sample_sin 0x0A000001), (sample_sin 0x0A000001).
    split; [right; left; reflexivity|]. split; [left; reflexivity|reflexivity]. }
  split; [reflexivity|]. split.
  - destruct (Hrun _ _ eq_refl) as (_ & _ & _ & Hd & _). exact Hd.
  - split; [discriminate|]. split; [exact Hshare|].
    exact (proj1 (Htwo "host-a" "alias-a" _ _ eq_refl eq_refl Hshare eq_refl)).
Defined.

(** C8 on the sample network: localhost after host-b; the group label
    does not resolve, which [return_ip_ver] would die of if it ran. *)
Lemma parse_remote_addrs_loopback_witness :
  parse_remote_addrs_loop sample_host_to_ai sample_is_loopback ["host-b"] "4321" 0 [] 0
    = Ret ([sample_target "host-b"], 1)
  /\ sample_host_to_ai "localhost" "4321" 0 = Ret [sample_sin 0x7F000001]
  /\ af_is_ai_in_list [sample_sin 0x7F000001] [sample_target "host-b"] = false
  /\ sample_is_loopback [sample_sin 0x7F000001] = true
  /\ return_ip_ver sample_host_to_ai 0 (Some "no-such-group") "4321"
       [sample_target "host-b"] = Exit 1 (D_collaborator "Can't get addr info")
  /\ cli_parse sample_host_to_ai sample_is_loopback sample_is_sa_mcast
       sample_find_local_ai "232.43.211.234" "ff3e::4321:1234"
       (["host-b"] ++ "localhost" :: ["host-a"]) 0 (Some "no-such-group") "4321"
     = Exit 1 (D_loopback "localhost").
Proof.
  split; [reflexivity|]. split; [reflexivity|]. split; [reflexivity|].
  split; [reflexivity|]. split; [reflexivity|].
  exact (proj1 (proj2 (parse_remote_addrs_loopback sample_host_to_ai sample_is_loopback
           sample_is_sa_mcast sample_find_local_ai "232.43.211.234" "ff3e::4321:1234"
           ["host-b"] "localhost" ["host-a"] "4321" 0 (Some "no-such-group")
           [sample_target "host-b"] 1 [sample_sin 0x7F000001]
           eq_refl eq_refl eq_refl eq_refl))).
Defined.

(** C9 on the sample network: a unicast address given as the group, with
    family 4 and with family 6. *)
Lemma conv_params_mcast_validates_witness :
  conv_params_mcast sample_host_to_ai sample_is_sa_mcast
    "232.43.211.234" "ff3e::4321:1234" 4 (Some "nogroup") "4321"
    = Exit 1 (D_not_mcast "nogroup")
  /\ conv_params_mcast sample_host_to_ai sample_is_sa_mcast
       "232.43.211.234" "ff3e::4321:1234" 6 (Some "host-c") "4321"
     = Exit 1 (D_not_mcast "host-c")
  /\ sample_is_sa_mcast (ai_addr (sample_sin 0xE82BD3EA)) = true.
Proof.
  split; [|split].
  - exact (proj1 (proj1 (proj1 (conv_params_mcast_validates sample_host_to_ai
             sample_is_sa_mcast "232.43.211.234" "ff3e::4321:1234"
             4 (Some "nogroup") "4321")
           "nogroup" _ _ eq_refl eq_refl eq_refl) eq_refl)).
  - exact (proj1 (proj1 (proj1 (conv_params_mcast_validates sample_host_to_ai
             sample_is_sa_mcast "232.43.211.234" "ff3e::4321:1234"
             6 (Some "host-c") "4321")
           "host-c" _ _ eq_refl eq_refl eq_refl) eq_refl)).
  - exact (proj2 (conv_params_mcast_validates sample_host_to_ai
             sample_is_sa_mcast "232.43.211.234" "ff3e::4321:1234"
             4 None "4321") _ eq_refl).
Defined.

(** C10 on the sample network: three spellings of the local host. *)
Lemma single_addr_after_dedup_witness :
  (forall a, In a ["host-a"; "alias-a"; "10.0.0.1"] ->
     exists ai_res, sample_host_to_ai a "4321" 0 = Ret ai_res
                    /\ In (ai_addr (sample_sin 0x0A000001)) (map ai_addr ai_res))
  /\ exists r,
       cli_parse sample_host_to_ai sample_is_loopback sample_is_sa_mcast
         sample_find_local_ai "232.43.211.234" "ff3e::4321:1234"
         ["host-a"; "alias-a"; "10.0.0.1"] 0 None "4321" = Ret r
       /\ r_single_addr r = 1
       /\ length (r_ai_list r) = 1%nat
       /\ map host_name (r_ai_list r) = ["host-a"].
Proof.
  assert (Hall : forall a, In a ["host-a"; "alias-a"; "10.0.0.1"] ->
     exists ai_res, sample_host_to_ai a "4321" 0 = Ret ai_res
                    /\ In (ai_addr (sample_sin 0x0A000001)) (map ai_addr ai_res)).
  { intros a [<-|[<-|[<-|[]]]]; eexists; (split; [reflexivity|]); simpl; auto. }
  split; [exact Hall|].
  eexists. split; [reflexivity|].
  exact (proj2 (proj2 (single_addr_after_dedup sample_host_to_ai sample_is_loopback
           sample_is_sa_mcast sample_find_local_ai "232.43.211.234" "ff3e::4321:1234"
           "host-a" ["alias-a"; "10.0.0.1"] "4321" 0 None
           (ai_addr (sample_sin 0x0A000001)) Hall)) _ eq_refl).
Defined.

(** ** Runs of cli_parse on the sample network *)

(** Two hosts, the first one local, no option: IPv4 is negotiated (host-b
    has no other family), the default IPv4 group is taken, host-a becomes the
    local address and host-b is the one remote target. *)
Example cli_parse_two_hosts :
  cli_parse sample_host_to_ai sample_is_loopback sample_is_sa_mcast
    sample_find_local_ai "232.43.211.234" "ff3e::4321:1234"
    ["host-a"; "host-b"] 0 None "4321"
  = Ret {| r_ai_list :=
             [ {| ai := []; sas := ai_addr (sample_sin 0x0A000002);
                  host_name := "host-b" |} ];
           r_local_ifname := "eth0";
           r_ip_ver := 4;
           r_local_addr :=
             {| ai := []; sas := ai_addr (sample_sin 0x0A000001);
                host_name := "host-a" |};
           r_mcast_addr :=
             {| ai := []; sas := ai_addr (sample_sin 0xE82BD3EA);
                host_name := "232.43.211.234" |};
           r_port := 4321;
           r_single_addr := 0 |}.
Proof. reflexivity. Qed.

(** A loopback argument alone. *)
Example cli_parse_loopback_only :
  cli_parse sample_host_to_ai sample_is_loopback sample_is_sa_mcast
    sample_find_local_ai "232.43.211.234" "ff3e::4321:1234"
    ["localhost"] 0 None "4321"
  = Exit 1 (D_loopback "localhost").
Proof. reflexivity. Qed.

(** No argument at all. *)
Example cli_parse_no_remote :
  cli_parse sample_host_to_ai sample_is_loopback sample_is_sa_mcast
    sample_find_local_ai "232.43.211.234" "ff3e::4321:1234"
    [] 0 None "4321"
  = Exit 1 D_no_remote.
Proof. reflexivity. Qed.

(** An IPv4-only and an IPv6-only host. *)
Example cli_parse_family_conflict :
  cli_parse sample_host_to_ai sample_is_loopback sample_is_sa_mcast
    sample_find_local_ai "232.43.211.234" "ff3e::4321:1234"
    ["host-b"; "host-c"] 0 None "4321"
  = Exit 1 (D_host_ipver "host-c" 4).
Proof. reflexivity. Qed.

(** No argument names the local host. *)
Example cli_parse_no_local :
  cli_parse sample_host_to_ai sample_is_loopback sample_is_sa_mcast
    sample_find_local_ai "232.43.211.234" "ff3e::4321:1234"
    ["host-b"; "host-d"] 0 None "4321"
  = Exit 1 D_no_local.
Proof. reflexivity. Qed.

(** ** The further properties on the sample network *)

(** X1: two hosts give two targets, the first argument first. *)
Lemma parse_remote_addrs_returns_targets_witness :
  parse_remote_addrs sample_host_to_ai sample_is_loopback
    ["host-a"; "host-b"] "4321" 0 []
    = Ret ([sample_target "host-a"; sample_target "host-b"], 2)
  /\ 1 <= 2
  /\ Forall (fun aip => sample_is_loopback (ai aip) = false /\ sas aip = sas_zero)
            [sample_target "host-a"; sample_target "host-b"].
Proof.
  split; [reflexivity|].
  destruct (proj2 (parse_remote_addrs_returns_targets sample_host_to_ai
                     sample_is_loopback ["host-a"; "host-b"] "4321" 0)
              [sample_target "host-a"; sample_target "host-b"] 2 eq_refl)
    as (Hcount & _ & Hall).
  split; assumption.
Defined.

(** X2: alias-a between host-a and host-b is dropped without a trace. *)
Lemma parse_remote_addrs_drop_duplicate_witness :
  parse_remote_addrs_loop sample_host_to_ai sample_is_loopback
    ["host-a"] "4321" 0 [] 0 = Ret ([sample_target "host-a"], 1)
  /\ sample_host_to_ai "alias-a" "4321" 0 = Ret (ai (sample_target "alias-a"))
  /\ af_is_ai_in_list (ai (sample_target "alias-a")) [sample_target "host-a"] = true
  /\ parse_remote_addrs sample_host_to_ai sample_is_loopback
       (["host-a"] ++ "alias-a" :: ["host-b"]) "4321" 0 []
     = parse_remote_addrs sample_host_to_ai sample_is_loopback
         (["host-a"] ++ ["host-b"]) "4321" 0 [].
Proof.
  split; [reflexivity|]. split; [reflexivity|]. split; [reflexivity|].
  exact (parse_remote_addrs_drop_duplicate sample_host_to_ai sample_is_loopback
           ["host-a"] "alias-a" ["host-b"] "4321" 0 [sample_target "host-a"] 1
           (ai (sample_target "alias-a")) eq_refl eq_refl eq_refl).
Defined.

(** X3: the labels kept from five arguments give the same three targets. *)
Lemma parse_remote_addrs_idempotent_witness :
  parse_remote_addrs sample_host_to_ai sample_is_loopback
    ["host-a"; "host-b"; "alias-a"; "host-c"; "10.0.0.1"] "4321" 0 []
    = Ret ([sample_target "host-a"; sample_target "host-b"; sample_target "host-c"], 3)
  /\ parse_remote_addrs sample_host_to_ai sample_is_loopback
       ["host-a"; "host-b"; "host-c"] "4321" 0 []
     = Ret ([sample_target "host-a"; sample_target "host-b"; sample_target "host-c"], 3).
Proof.
  split; [reflexivity|].
  exact (parse_remote_addrs_idempotent sample_host_to_ai sample_is_loopback
           ["host-a"; "host-b"; "alias-a"; "host-c"; "10.0.0.1"] "4321" 0
           [sample_target "host-a"; sample_target "host-b"; sample_target "host-c"] 3
           eq_refl).
Defined.

(** X4: a dual-stack group, a dual-stack host and an IPv6-only host. *)
Lemma return_ip_ver_sound_witness :
  return_ip_ver sample_host_to_ai 0 (Some "group46") "4321"
    [sample_target "host-a"; sample_target "host-c"] = Ret 6
  /\ Forall (fun aip => deep_ipv aip = 0 \/ deep_ipv aip = 6)
            [sample_target "host-a"; sample_target "host-c"].
Proof.
  split; [reflexivity|].
  exact (proj1 (proj2 (return_ip_ver_sound sample_host_to_ai (Some "group46") "4321"
           [sample_target "host-a"; sample_target "host-c"] 6 eq_refl))).
Defined.

(** X5: the IPv6-only host first or last. *)
Lemma return_ip_ver_permutation_witness :
  Permutation [sample_target "host-c"; sample_target "host-a"; sample_target "host-d"]
              [sample_target "host-a"; sample_target "host-d"; sample_target "host-c"]
  /\ return_ip_ver sample_host_to_ai 0 None "4321"
       [sample_target "host-a"; sample_target "host-d"; sample_target "host-c"] = Ret 6.
Proof.
  assert (Hperm : Permutation
            [sample_target "host-c"; sample_target "host-a"; sample_target "host-d"]
            [sample_target "host-a"; sample_target "host-d"; sample_target "host-c"]).
  { apply (Permutation_cons_append [_; _]). }
  split; [exact Hperm|].
  exact (proj1 (return_ip_ver_permutation sample_host_to_ai 0 None "4321" _ _ 6 Hperm)
           eq_refl).
Defined.

(** X6: after 4 was negotiated, both targets get their IPv4 address. *)
Lemma conv_list_addrs_after_negotiation_witness :
  return_ip_ver sample_host_to_ai 0 None "4321"
    [sample_target "host-a"; sample_target "host-b"] = Ret 4
  /\ conv_list_addrs [sample_target "host-a"; sample_target "host-b"] 4
     = [ {| ai := []; sas := ai_addr (sample_sin 0x0A000001); host_name := "host-a" |};
         {| ai := []; sas := ai_addr (sample_sin 0x0A000002); host_name := "host-b" |} ]
  /\ Forall2 (fun aip aip' =>
                exists ai_i,
                  In ai_i (ai aip) /\ af_ai_supported_ipv ai_i = 4
                  /\ aip' = {| ai := []; sas := ai_addr ai_i;
                               host_name := host_name aip |})
       [sample_target "host-a"; sample_target "host-b"]
       (conv_list_addrs [sample_target "host-a"; sample_target "host-b"] 4).
Proof.
  split; [reflexivity|]. split; [reflexivity|].
  exact (conv_list_addrs_after_negotiation sample_host_to_ai None "4321"
           [sample_target "host-a"; sample_target "host-b"] 4 4
           eq_refl (or_introl eq_refl) (or_intror eq_refl)).
Defined.

Lemma sample_lookup_well_formed (host : string) (dns : list (string * list addrinfo))
    (chain : list addrinfo) :
  Forall (fun entry => Forall (fun ai_i => ai_family ai_i = ss_family (ai_addr ai_i))
                              (snd entry)) dns ->
  sample_lookup host dns = Some chain ->
  Forall (fun ai_i => ai_family ai_i = ss_family (ai_addr ai_i)) chain.
Proof.
  induction dns as [|[name c] dns IH]; simpl; [discriminate|].
  intros Hall. apply Forall_cons in Hall as [Hc Hall].
  destruct (String.eqb name host); [intros [= <-]; exact Hc|auto].
Qed.

Lemma sample_answers_well_formed : well_formed_answers sample_host_to_ai.
Proof.
  intros host port ip_ver chain. unfold sample_host_to_ai.
  destruct (sample_lookup host sample_dns) as [c|] eqn:Hlookup; [|discriminate].
  assert (Hc : Forall (fun ai_i => ai_family ai_i = ss_family (ai_addr ai_i)) c).
  { apply (sample_lookup_well_formed host sample_dns); [|assumption].
    repeat constructor. }
  destruct (ip_ver =? 0).
  - destruct c; [discriminate|]. intros [= <-]. exact Hc.
  - destruct (filter _ c) as [|a l] eqn:Hfilter; [discriminate|].
    intros [= <-]. rewrite <- Hfilter. rewrite Forall_forall in *.
    intros x Hx. apply list_elem_of_filter in Hx as [_ Hx]. auto.
Qed.

(** X7: the default IPv4 group and an IPv6 group. *)
Lemma conv_port_after_conv_params_mcast_witness :
  well_formed_answers sample_host_to_ai
  /\ conv_params_mcast sample_host_to_ai sample_is_sa_mcast
       "232.43.211.234" "ff3e::4321:1234" 4 None "4321"
     = Ret {| ai := []; sas := ai_addr (sample_sin 0xE82BD3EA);
              host_name := "232.43.211.234" |}
  /\ conv_port (ai_addr (sample_sin 0xE82BD3EA)) = Ret 4321
  /\ conv_port (ai_addr (sample_sin6 0xff3e0000000000000000000043211234)) = Ret 4321.
Proof.
  split; [exact sample_answers_well_formed|]. split; [reflexivity|]. split.
  - exact (proj2 (conv_port_after_conv_params_mcast sample_host_to_ai sample_is_sa_mcast
             "232.43.211.234" "ff3e::4321:1234" 4 None "4321" _
             sample_answers_well_formed (or_introl eq_refl) eq_refl)).
  - exact (proj2 (conv_port_after_conv_params_mcast sample_host_to_ai sample_is_sa_mcast
             "232.43.211.234" "ff3e::4321:1234" 6 (Some "ff3e::4321:1234") "4321" _
             sample_answers_well_formed (or_intror eq_refl) eq_refl)).
Defined.

(** X8: host-b, the local host-a and host-d. *)
Lemma cli_parse_targets_witness :
  exists r,
    cli_parse sample_host_to_ai sample_is_loopback sample_is_sa_mcast
       sample_find_local_ai "232.43.211.234" "ff3e::4321:1234"
      ["host-b"; "host-a"; "host-d"] 0 None "4321" = Ret r
    /\ r_single_addr r = 0
    /\ map host_name (r_ai_list r) = ["host-b"; "host-d"]
    /\ host_name (r_local_addr r) = "host-a"
    /\ In (host_name (r_local_addr r)) ["host-b"; "host-a"; "host-d"]
    /\ r_ai_list r <> [].
Proof.
  eexists. split; [reflexivity|]. split; [reflexivity|]. split; [reflexivity|].
  split; [reflexivity|].
  destruct (cli_parse_targets sample_host_to_ai sample_is_loopback sample_is_sa_mcast
       sample_find_local_ai "232.43.211.234" "ff3e::4321:1234"
              ["host-b"; "host-a"; "host-d"] 0 None "4321" _ eq_refl)
    as (l & n & i & _ & _ & Hne & _ & Hin & _).
  split; assumption.
Defined.

(** X9: the same run, seen from the group and the local address. *)
Lemma cli_parse_group_and_local_witness :
  exists r,
    cli_parse sample_host_to_ai sample_is_loopback sample_is_sa_mcast
       sample_find_local_ai "232.43.211.234" "ff3e::4321:1234"
      ["host-b"; "host-a"; "host-d"] 0 None "4321" = Ret r
    /\ sample_is_sa_mcast (sas (r_mcast_addr r)) = true
    /\ r_port r = ss_port (sas (r_mcast_addr r))
    /\ r_port r = 4321.
Proof.
  eexists. split; [reflexivity|].
  destruct (cli_parse_group_and_local sample_host_to_ai sample_is_loopback sample_is_sa_mcast
       sample_find_local_ai "232.43.211.234" "ff3e::4321:1234"
              ["host-b"; "host-a"; "host-d"] 0 None "4321" _ eq_refl)
    as (Hmcast & _ & Hport & _).
  split; [exact Hmcast|]. split; [exact Hport|reflexivity].
Defined.

(** X10: [-4 -m group46 -6 -p 5000 -q]. *)
Lemma cli_parse_all_address_inputs_witness :
  exists st res,
    cli_parse_all sample_host_to_ai sample_is_loopback sample_is_sa_mcast
       sample_find_local_ai "232.43.211.234" "ff3e::4321:1234"
      sample_env sample_h [Opt_4; Opt_m "group46"; Opt_6; Opt_p "5000"; Opt_q]
      ["host-a"] = Go (st, res)
    /\ o_ip_ver st = 6 /\ o_mcast_addr_s st = Some "group46" /\ o_port_s st = "5000"
    /\ last_choice family_option
         [Opt_4; Opt_m "group46"; Opt_6; Opt_p "5000"; Opt_q] 0 (o_ip_ver st)
    /\ res = cli_parse sample_host_to_ai sample_is_loopback sample_is_sa_mcast
       sample_find_local_ai "232.43.211.234" "ff3e::4321:1234"
               ["host-a"] 6 (Some "group46") "5000".
Proof.
  eexists. eexists. split; [reflexivity|]. split; [reflexivity|].
  split; [reflexivity|]. split; [reflexivity|].
  destruct (cli_parse_all_address_inputs sample_host_to_ai sample_is_loopback sample_is_sa_mcast
       sample_find_local_ai "232.43.211.234" "ff3e::4321:1234"
              sample_env sample_h [Opt_4; Opt_m "group46"; Opt_6; Opt_p "5000"; Opt_q]
              ["host-a"] _ _ eq_refl)
    as (Hres & Hfamily & _).
  split; [exact Hfamily|exact Hres].
Defined.

(** X11: [-t 200 -t 128]. *)
Lemma cli_parse_getopt_ttl_witness :
  exists st,
    cli_parse_getopt sample_env sample_h [Opt_t "200"; Opt_q; Opt_t "128"]
      (cli_opts_init sample_h) = Go st
    /\ o_ttl st = 128
    /\ 0 <= o_ttl st <= 255
    /\ cli_parse_getopt sample_env sample_h [Opt_t "256"] (cli_opts_init sample_h)
       = Stop (E_usage (Some (W_number "t" "256"))).
Proof.
  eexists. split; [reflexivity|]. split; [reflexivity|].
  split; [|reflexivity].
  exact (proj2 (proj2 (cli_parse_getopt_ttl sample_env sample_h
                         [Opt_t "200"; Opt_q; Opt_t "128"] _ eq_refl))).
Defined.

(** X12: [-q -V -t 0] with no remote address. *)
Lemma cli_parse_all_stops_witness :
  cli_parse_getopt sample_env sample_h [Opt_q] (cli_opts_init sample_h)
    = Go (set_o_quiet 1 (cli_opts_init sample_h))
  /\ cli_parse_all sample_host_to_ai sample_is_loopback sample_is_sa_mcast
       sample_find_local_ai "232.43.211.234" "ff3e::4321:1234"
       sample_env sample_h ([Opt_q] ++ Opt_V :: [Opt_t "0"]) [] = Stop E_version.
Proof.
  split; [reflexivity|].
  exact (proj1 (proj1 (cli_parse_all_stops sample_host_to_ai sample_is_loopback sample_is_sa_mcast
       sample_find_local_ai "232.43.211.234" "ff3e::4321:1234"
           sample_env sample_h [Opt_q] [Opt_t "0"] [] _ eq_refl))).
Defined.

(** X13: [-i 2 -t 100] passes; the interval is 2000 ms. *)
Lemma cli_parse_params_force_witness :
  exists st,
    cli_parse_params sample_env sample_h [Opt_i "2"; Opt_t "100"] = Go st
    /\ Forall (fun ch => is_opt_F ch = false) [Opt_i "2"; Opt_t "100"]
    /\ o_wait_time st = 2000
    /\ DEFAULT_WAIT_TIME sample_h <= o_wait_time st
    /\ DEFAULT_TTL sample_h <= o_ttl st
    /\ cli_parse_params sample_env sample_h [Opt_i "0"; Opt_F]
       = Stop (E_usage (Some (W_wait_time_zero 0))).
Proof.
  eexists. split; [reflexivity|].
  assert (Hnone : Forall (fun ch => is_opt_F ch = false) [Opt_i "2"; Opt_t "100"])
    by (repeat constructor).
  split; [exact Hnone|]. split; [reflexivity|].
  destruct (proj1 (cli_parse_params_force sample_env sample_h
                     [Opt_i "2"; Opt_t "100"] _ eq_refl) Hnone) as [Hw Ht].
  split; [exact Hw|]. split; [exact Ht|reflexivity].
Defined.

(** X14: [-D -i 2] and [-i 2] end alike, with 1024 items. *)
Lemma cli_parse_params_dup_buf_items_witness :
  exists st,
    cli_parse_params sample_env sample_h [Opt_D; Opt_i "2"] = Go st
    /\ cli_parse_params sample_env sample_h [Opt_i "2"] = Go st
    /\ o_wait_time st <> 0
    /\ o_dup_buf_items st = 1024.
Proof.
  eexists. split; [reflexivity|].
  pose proof (cli_parse_params_dup_buf_items sample_env sample_h [Opt_D; Opt_i "2"])
    as [Hsame Hitems].
  split; [exact Hsame|].
  assert (Hw : 2000 <> 0) by discriminate.
  split; [exact Hw|].
  exact (proj2 (Hitems _ eq_refl) Hw).
Defined.

(** X15: [-i 2] alone. *)
Lemma cli_parse_params_defaults_witness :
  exists st,
    cli_parse_params sample_env sample_h [Opt_i "2"] = Go st
    /\ Forall (fun ch => is_opt_w ch = false) [Opt_i "2"]
    /\ o_wait_for_finish_time st = 6000
    /\ o_rate_limit_time st = o_wait_time st.
Proof.
  eexists. split; [reflexivity|].
  assert (Hnow : Forall (fun ch => is_opt_w ch = false) [Opt_i "2"])
    by (repeat constructor).
  assert (Hnor : Forall (fun ch => is_opt_r ch = false) [Opt_i "2"])
    by (repeat constructor).
  split; [exact Hnow|].
  destruct (cli_parse_params_defaults sample_env sample_h [Opt_i "2"] _ eq_refl)
    as [Hw Hr].
  split; [exact (Hw Hnow)|exact (Hr Hnor)].
Defined.



